(** * RCIP format validator (validators/python/rcip_validator.py)

    A shallow embedding of the Python validator [RCIPValidator] and of the
    part of the Python runtime it relies on, followed by the properties of
    [validate_recipe] and of the session counters.

    Conventions of the embedding.
    - A decoded JSON document is a value of [json].  Python [int] is [Z]
      (unbounded); [bool] is its own constructor, but counts as a number
      wherever Python treats it as one ([isinstance(True, int)]).
    - A Python [float] is a binary64 value that is not a NaN ([pyfloat]):
      [json.load] produces NaN only for the non-standard literal [NaN].
    - A Python [str] is a Rocq [string] whose characters are the code points
      below 256, so that iteration, [len], [in], [startswith], [split] and the
      regular expressions act character by character as in Python.
    - A Python [dict] is an association list in insertion order; the keys of
      a decoded JSON object are strings and pairwise distinct.
    - A raised exception is the [Raise] outcome; it aborts the call and
      leaves the validator object as it was. *)

From Stdlib Require Import ZArith List String Ascii Bool Lia.
From Stdlib Require Import DecimalString.
From Stdlib Require Import SpecFloat.
From Stdlib Require Import QArith Qabs Qpower Lqa.
From Stdlib Require Import Sorted.
Import ListNotations.

Local Open Scope string_scope.
Local Open Scope Z_scope.

(** ** Exceptions and outcomes *)

Inductive exn : Type :=
| TypeError
| AttributeError
| KeyError
| OverflowError
| RuntimeError.

Inductive outcome (A : Type) : Type :=
| Ok (a : A)
| Raise (e : exn).

Arguments Ok {A} a.
Arguments Raise {A} e.

Definition bind {A B : Type} (m : outcome A) (k : A -> outcome B) : outcome B :=
  match m with
  | Ok a => k a
  | Raise e => Raise e
  end.

Notation "x <- m ;; k" := (bind m (fun x => k))
  (at level 61, m at next level, right associativity).

(** ** Python floats: binary64 without NaN *)

Inductive pyfloat : Type :=
| Fzero (neg : bool)
| Finf (neg : bool)
| Ffinite (neg : bool) (m : positive) (e : Z).

Definition to_spec (f : pyfloat) : spec_float :=
  match f with
  | Fzero s => S754_zero s
  | Finf s => S754_infinity s
  | Ffinite s m e => S754_finite s m e
  end.

(** ** Decoded JSON values *)

Local Unset Elimination Schemes.

Inductive json : Type :=
| JNull
| JBool (b : bool)
| JInt (z : Z)
| JFloat (f : pyfloat)
| JStr (s : string)
| JList (l : list json)
| JDict (d : list (string * json)).

Local Set Elimination Schemes.

Definition pydict : Type := list (string * json).

Fixpoint lookup (k : string) (d : pydict) : option json :=
  match d with
  | [] => None
  | (k', v) :: d' => if String.eqb k' k then Some v else lookup k d'
  end.

Definition has_key (k : string) (d : pydict) : bool :=
  match lookup k d with
  | Some _ => true
  | None => false
  end.

(** ** Strings *)

(** [needle in hay] on two strings. *)
Fixpoint contains (needle hay : string) : bool :=
  prefix needle hay ||
  match hay with
  | EmptyString => false
  | String _ hay' => contains needle hay'
  end.

(** [s.split(sep)[0]]: the part of [s] before the first [sep]. *)
Fixpoint before_first (sep : ascii) (s : string) : string :=
  match s with
  | EmptyString => EmptyString
  | String c s' => if Ascii.eqb c sep then EmptyString else String c (before_first sep s')
  end.

(** The characters of a string, each as a string of length one. *)
Fixpoint chars (s : string) : list string :=
  match s with
  | EmptyString => []
  | String c s' => String c EmptyString :: chars s'
  end.

(** [sep.join(l)]. *)
Fixpoint join (sep : string) (l : list string) : string :=
  match l with
  | [] => ""
  | [x] => x
  | x :: l' => x ++ sep ++ join sep l'
  end.


(** [str(z)] for an int. *)
Definition str_int (z : Z) : string := NilZero.string_of_int (Z.to_int z).

Definition str_nat (n : nat) : string := str_int (Z.of_nat n).

(** ** Float arithmetic and formatting

    Division is IEEE 754 binary64 division, taken from the executable
    specification [SFdiv] of the standard library.  Formatting works on the
    exact value [m * 2^e] of a float. *)

Definition prec64 : Z := 53.
Definition emax64 : Z := 1024.

Definition of_spec (x : spec_float) : pyfloat :=
  match x with
  | S754_zero s => Fzero s
  | S754_infinity s => Finf s
  | S754_finite s m e => Ffinite s m e
  | S754_nan => Fzero false
  end.

(** The binary64 value nearest to the positive rational [num / den]. *)
Definition nearest_double (num den : positive) : spec_float :=
  SFdiv prec64 emax64 (S754_finite false num 0) (S754_finite false den 0).

(** The canonical representation of a float. *)
Definition canon (f : pyfloat) : pyfloat :=
  match f with
  | Ffinite s m e => of_spec (binary_round prec64 emax64 s m e)
  | _ => f
  end.

(** [x / 60] for a float [x]. *)
Definition float_div_60 (x : pyfloat) : pyfloat :=
  of_spec (SFdiv prec64 emax64 (to_spec (canon x)) (S754_finite false 60 0)).

(** [z / 60] for an int [z]: the correctly rounded quotient, or
    [OverflowError] when it does not fit a float. *)
Definition int_div_60 (z : Z) : outcome pyfloat :=
  match z with
  | Z0 => Ok (Fzero false)
  | Zpos p =>
      match nearest_double p 60 with
      | S754_infinity _ => Raise OverflowError
      | r => Ok (of_spec r)
      end
  | Zneg p =>
      match nearest_double p 60 with
      | S754_infinity _ => Raise OverflowError
      | r => Ok (of_spec (SFopp r))
      end
  end.

(** The integer nearest to [num / den] ([den > 0]), ties to even. *)
Definition round_half_even (num den : Z) : Z :=
  let q := num / den in
  let r := num mod den in
  match 2 * r ?= den with
  | Lt => q
  | Gt => q + 1
  | Eq => if Z.even q then q else q + 1
  end.

(** [format(x, '.1f')]. *)
Definition format_1f (x : pyfloat) : string :=
  match x with
  | Fzero s => if s then "-0.0" else "0.0"
  | Finf s => if s then "-inf" else "inf"
  | Ffinite s m e =>
      let t := if 0 <=? e then Zpos m * 10 * 2 ^ e
               else round_half_even (Zpos m * 10) (2 ^ (- e)) in
      (if s then "-" else "") ++ str_int (t / 10) ++ "." ++ str_int (t mod 10)
  end.

(** *** [repr] of a float: the shortest decimal that reads back as the
    same float, the closest one when there are several. *)

(** [x = num / den > 0]; the exponent [L] with [10^L <= x < 10^(L+1)]. *)
Fixpoint log10_up (fuel : nat) (num den : Z) (l : Z) : Z :=
  match fuel with
  | O => l
  | S fuel' => if den * 10 <=? num then log10_up fuel' num (den * 10) (l + 1) else l
  end.

Fixpoint log10_down (fuel : nat) (num den : Z) (l : Z) : Z :=
  match fuel with
  | O => l
  | S fuel' => if num <? den then log10_down fuel' (num * 10) den (l - 1) else l
  end.

Definition floor_log10 (num den : Z) : Z :=
  if den <=? num then log10_up 400 num den 0 else log10_down 400 num den 0.

(** Does the decimal [c * 10^k] read back as the canonical float [m * 2^e]? *)
Definition reads_back (c k : Z) (m : positive) (e : Z) : bool :=
  match c with
  | Zpos p =>
      let r := if 0 <=? k then nearest_double (p * Z.to_pos (10 ^ k)) 1
               else nearest_double p (Z.to_pos (10 ^ (- k))) in
      match r with
      | S754_finite _ m' e' => Pos.eqb m' m && Z.eqb e' e
      | _ => false
      end
  | _ => false
  end.

(** The candidates with [n] significant digits for [x = num / den],
    [L = floor_log10 x]; the result is the chosen digits and the decimal
    exponent of the last digit. *)
Definition candidate (num den l : Z) (m : positive) (e : Z) (n : Z) : option (Z * Z) :=
  let k := l - (n - 1) in
  let snum := if 0 <=? k then num else num * 10 ^ (- k) in
  let sden := if 0 <=? k then den * 10 ^ k else den in
  let lo := snum / sden in
  let hi := lo + 1 in
  let lo_ok := reads_back lo k m e in
  let hi_ok := if Z.eqb hi (10 ^ n) then Z.eqb n 1 && reads_back 1 (k + 1) m e
               else reads_back hi k m e in
  let hi_res := if Z.eqb hi (10 ^ n) then (1, k + 1) else (hi, k) in
  match lo_ok, hi_ok with
  | false, false => None
  | true, false => Some (lo, k)
  | false, true => Some hi_res
  | true, true =>
      match 2 * snum ?= (2 * lo + 1) * sden with
      | Lt => Some (lo, k)
      | Gt => Some hi_res
      | Eq => if Z.even lo then Some (lo, k) else Some hi_res
      end
  end.

Fixpoint shortest (fuel : nat) (num den l : Z) (m : positive) (e : Z) (n : Z) : Z * Z :=
  match fuel with
  | O => (round_half_even (if 0 <=? l - 16 then num else num * 10 ^ (16 - l))
                          (if 0 <=? l - 16 then den * 10 ^ (l - 16) else den), l - 16)
  | S fuel' =>
      match candidate num den l m e n with
      | Some r => r
      | None => shortest fuel' num den l m e (n + 1)
      end
  end.

Fixpoint zeros (n : nat) : string :=
  match n with
  | O => ""
  | S n' => String "0" (zeros n')
  end.

Definition take (n : nat) (s : string) : string := substring 0 n s.
Definition drop (n : nat) (s : string) : string := substring n (String.length s - n) s.

(** The layout rules of [repr]: plain notation when the decimal point falls
    within [-4 < decpt <= 16], exponent notation otherwise. *)
Definition layout (ds : string) (decpt : Z) : string :=
  let n := Z.of_nat (String.length ds) in
  if (-4 <? decpt) && (decpt <=? 16) then
    if decpt <=? 0 then "0." ++ zeros (Z.to_nat (- decpt)) ++ ds
    else if n <=? decpt then ds ++ zeros (Z.to_nat (decpt - n)) ++ ".0"
    else take (Z.to_nat decpt) ds ++ "." ++ drop (Z.to_nat decpt) ds
  else
    let x := decpt - 1 in
    let xs := str_int (Z.abs x) in
    take 1 ds ++ (if 1 <? n then "." ++ drop 1 ds else "")
      ++ "e" ++ (if x <? 0 then "-" else "+")
      ++ (if Z.abs x <? 10 then "0" ++ xs else xs).

Definition repr_float (x : pyfloat) : string :=
  match canon x with
  | Fzero s => if s then "-0.0" else "0.0"
  | Finf s => if s then "-inf" else "inf"
  | Ffinite s m e =>
      let num := if 0 <=? e then Zpos m * 2 ^ e else Zpos m in
      let den := if 0 <=? e then 1 else 2 ^ (- e) in
      let l := floor_log10 num den in
      let '(c, k) := shortest 17 num den l m e 1 in
      let ds := str_int c in
      (if s then "-" else "") ++ layout ds (k + Z.of_nat (String.length ds))
  end.

(** ** [str] and [repr] of a decoded value *)

Definition squote : ascii := ascii_of_nat 39.
Definition dquote : ascii := ascii_of_nat 34.
Definition backslash : ascii := ascii_of_nat 92.
Definition newline : ascii := ascii_of_nat 10.

Fixpoint has_char (c : ascii) (s : string) : bool :=
  match s with
  | EmptyString => false
  | String c' s' => Ascii.eqb c' c || has_char c s'
  end.

Definition hex_digit (n : nat) : ascii :=
  List.nth n (list_ascii_of_string "0123456789abcdef") "0"%char.

(** The Latin-1 characters that [repr] prints as they are. *)
Definition printable (n : nat) : bool :=
  ((32 <=? n) && (n <? 127))%nat || ((161 <=? n) && negb (n =? 173))%nat.

Definition escape_char (q c : ascii) : string :=
  let n := nat_of_ascii c in
  if Ascii.eqb c q || Ascii.eqb c backslash then String backslash (String c "")
  else if (n =? 9)%nat then String backslash "t"
  else if (n =? 10)%nat then String backslash "n"
  else if (n =? 13)%nat then String backslash "r"
  else if printable n then String c ""
  else String backslash
         (String "x" (String (hex_digit (n / 16)) (String (hex_digit (n mod 16)) ""))).

Fixpoint escape (q : ascii) (s : string) : string :=
  match s with
  | EmptyString => EmptyString
  | String c s' => escape_char q c ++ escape q s'
  end.

Definition repr_str (s : string) : string :=
  let q := if has_char squote s && negb (has_char dquote s) then dquote else squote in
  String q (escape q s ++ String q "").

Fixpoint py_repr (v : json) : string :=
  match v with
  | JNull => "None"
  | JBool b => if b then "True" else "False"
  | JInt z => str_int z
  | JFloat f => repr_float f
  | JStr s => repr_str s
  | JList l => "[" ++ join ", " (map py_repr l) ++ "]"
  | JDict d =>
      "{" ++ join ", " (map (fun kv => repr_str (fst kv) ++ ": " ++ py_repr (snd kv)) d) ++ "}"
  end.

(** [str(v)], which is what an f-string field [{v}] inserts. *)
Definition py_str (v : json) : string :=
  match v with
  | JStr s => s
  | _ => py_repr v
  end.

(** ** Python operations on decoded values *)

(** [bool(v)]. *)
Definition truthy (v : json) : bool :=
  match v with
  | JNull => false
  | JBool b => b
  | JInt z => negb (z =? 0)
  | JFloat (Fzero _) => false
  | JFloat _ => true
  | JStr s => negb (String.eqb s "")
  | JList l => match l with [] => false | _ => true end
  | JDict d => match d with [] => false | _ => true end
  end.

Definition is_list (v : json) : bool :=
  match v with JList _ => true | _ => false end.

Definition is_str (v : json) : bool :=
  match v with JStr _ => true | _ => false end.

(** [isinstance(v, (int, float))]; [bool] is a subclass of [int]. *)
Definition is_number (v : json) : bool :=
  match v with JBool _ | JInt _ | JFloat _ => true | _ => false end.

(** [v == s] for a string [s]. *)
Definition eq_str (s : string) (v : json) : bool :=
  match v with JStr t => String.eqb t s | _ => false end.

(** [v in l] for a list [l] of string constants. *)
Definition in_vocabulary (v : json) (l : list string) : bool :=
  existsb (fun s => eq_str s v) l.

(** [k in c] for a string [k]: key of a dict, element of a list, substring
    of a string; other values are not containers. *)
Definition py_contains (k : string) (c : json) : outcome bool :=
  match c with
  | JDict d => Ok (has_key k d)
  | JList l => Ok (existsb (eq_str k) l)
  | JStr s => Ok (contains k s)
  | _ => Raise TypeError
  end.

(** [c[k]] for a string [k]. *)
Definition py_getitem (c : json) (k : string) : outcome json :=
  match c with
  | JDict d => match lookup k d with Some v => Ok v | None => Raise KeyError end
  | _ => Raise TypeError
  end.

(** [c.get(k, default)]. *)
Definition py_get (c : json) (k : string) (default : json) : outcome json :=
  match c with
  | JDict d => Ok (match lookup k d with Some v => v | None => default end)
  | _ => Raise AttributeError
  end.

(** The elements a [for] loop over [c] visits. *)
Definition py_iter (c : json) : outcome (list json) :=
  match c with
  | JList l => Ok l
  | JDict d => Ok (map (fun kv => JStr (fst kv)) d)
  | JStr s => Ok (map JStr (chars s))
  | _ => Raise TypeError
  end.

(** [len(c)]. *)
Definition py_len (c : json) : outcome Z :=
  match c with
  | JList l => Ok (Z.of_nat (List.length l))
  | JDict d => Ok (Z.of_nat (List.length d))
  | JStr s => Ok (Z.of_nat (String.length s))
  | _ => Raise TypeError
  end.

(** *** Numbers: exact comparison across [bool], [int] and [float] *)

Inductive xnum : Type :=
| XNegInf
| XFin (m e : Z)
| XPosInf.

Definition as_number (v : json) : option xnum :=
  match v with
  | JBool b => Some (XFin (if b then 1 else 0) 0)
  | JInt z => Some (XFin z 0)
  | JFloat (Fzero _) => Some (XFin 0 0)
  | JFloat (Finf s) => Some (if s then XNegInf else XPosInf)
  | JFloat (Ffinite s m e) => Some (XFin (if s then Zneg m else Zpos m) e)
  | _ => None
  end.

Definition xnum_compare (a b : xnum) : comparison :=
  match a, b with
  | XNegInf, XNegInf => Eq
  | XNegInf, _ => Lt
  | _, XNegInf => Gt
  | XPosInf, XPosInf => Eq
  | XPosInf, _ => Gt
  | _, XPosInf => Lt
  | XFin m1 e1, XFin m2 e2 =>
      let e := Z.min e1 e2 in
      (m1 * 2 ^ (e1 - e)) ?= (m2 * 2 ^ (e2 - e))
  end.

(** [v < k] and [v > k] for an int constant [k]. *)
Definition py_lt_int (v : json) (k : Z) : outcome bool :=
  match as_number v with
  | Some x => Ok (match xnum_compare x (XFin k 0) with Lt => true | _ => false end)
  | None => Raise TypeError
  end.

Definition py_gt_int (v : json) (k : Z) : outcome bool :=
  match as_number v with
  | Some x => Ok (match xnum_compare x (XFin k 0) with Gt => true | _ => false end)
  | None => Raise TypeError
  end.

(** [v / 60]. *)
Definition py_div_60 (v : json) : outcome pyfloat :=
  match v with
  | JBool b => int_div_60 (if b then 1 else 0)
  | JInt z => int_div_60 z
  | JFloat f => Ok (float_div_60 f)
  | _ => Raise TypeError
  end.

(** *** Sets of hashable values and [sorted] *)

Definition hashable (v : json) : bool :=
  match v with JList _ | JDict _ => false | _ => true end.

(** [a == b] on hashable values. *)
Definition py_eq (a b : json) : bool :=
  match a, b with
  | JNull, JNull => true
  | JStr s, JStr t => String.eqb s t
  | _, _ =>
      match as_number a, as_number b with
      | Some x, Some y => match xnum_compare x y with Eq => true | _ => false end
      | _, _ => false
      end
  end.

(** A set is kept as the list of its elements in order of first insertion. *)
Definition pyset : Type := list json.

Definition set_add (v : json) (s : pyset) : outcome pyset :=
  if hashable v then Ok (if existsb (py_eq v) s then s else (s ++ [v])%list)
  else Raise TypeError.

(** [v in s] ([v not in s] is its negation); hashing an unhashable [v] raises. *)
Definition set_mem (v : json) (s : pyset) : outcome bool :=
  if hashable v then Ok (existsb (py_eq v) s) else Raise TypeError.

(** [a < b]: numbers with numbers, strings with strings. *)
Definition py_lt (a b : json) : outcome bool :=
  match a, b with
  | JStr s, JStr t => Ok (String.ltb s t)
  | _, _ =>
      match as_number a, as_number b with
      | Some x, Some y => Ok (match xnum_compare x y with Lt => true | _ => false end)
      | _, _ => Raise TypeError
      end
  end.

Fixpoint sorted_insert (x : json) (l : list json) : outcome (list json) :=
  match l with
  | [] => Ok [x]
  | y :: l' =>
      b <- py_lt x y ;;
      if b then Ok (x :: y :: l')
      else (r <- sorted_insert x l' ;; Ok (y :: r))
  end.

(** [sorted(list(s))] for a set [s]: its elements are pairwise different, so
    the result does not depend on the order in which the set yields them. *)
Fixpoint py_sorted (s : list json) : outcome (list json) :=
  match s with
  | [] => Ok []
  | x :: s' => r <- py_sorted s' ;; sorted_insert x r
  end.

(** ** Regular expressions

    The compiled patterns of the class, matched with Brzozowski derivatives.
    [re.match] anchors at the start; [$] matches at the end of the string and
    just before a newline that ends it. *)

Inductive regex : Type :=
| REmpty
| REps
| RSym (p : ascii -> bool)
| RCat (r1 r2 : regex)
| RAlt (r1 r2 : regex)
| RStar (r : regex).

Fixpoint nullable (r : regex) : bool :=
  match r with
  | REmpty => false
  | REps => true
  | RSym _ => false
  | RCat r1 r2 => nullable r1 && nullable r2
  | RAlt r1 r2 => nullable r1 || nullable r2
  | RStar _ => true
  end.

Fixpoint deriv (c : ascii) (r : regex) : regex :=
  match r with
  | REmpty => REmpty
  | REps => REmpty
  | RSym p => if p c then REps else REmpty
  | RCat r1 r2 =>
      if nullable r1 then RAlt (RCat (deriv c r1) r2) (deriv c r2)
      else RCat (deriv c r1) r2
  | RAlt r1 r2 => RAlt (deriv c r1) (deriv c r2)
  | RStar r1 => RCat (deriv c r1) (RStar r1)
  end.

Fixpoint matches (r : regex) (s : string) : bool :=
  match s with
  | EmptyString => nullable r
  | String c s' => matches (deriv c r) s'
  end.

Fixpoint lit (s : string) : regex :=
  match s with
  | EmptyString => REps
  | String c s' => RCat (RSym (Ascii.eqb c)) (lit s')
  end.

Fixpoint rep (n : nat) (r : regex) : regex :=
  match n with
  | O => REps
  | S n' => RCat r (rep n' r)
  end.

Definition plus (r : regex) : regex := RCat r (RStar r).

Definition dollar : regex := RAlt REps (RSym (Ascii.eqb newline)).

Fixpoint seq (l : list regex) : regex :=
  match l with
  | [] => REps
  | r :: l' => RCat r (seq l')
  end.

Definition in_range (lo hi c : ascii) : bool :=
  (nat_of_ascii lo <=? nat_of_ascii c)%nat && (nat_of_ascii c <=? nat_of_ascii hi)%nat.

(** [[0-9a-f]] *)
Definition hex : regex :=
  RSym (fun c => in_range "0" "9" c || in_range "a" "f" c).

(** [[0-9a-zA-Z]] *)
Definition alnum : regex :=
  RSym (fun c => in_range "0" "9" c || in_range "a" "z" c || in_range "A" "Z" c).

Definition RECIPE_ID_PATTERN : regex :=
  seq [lit "rcip-"; rep 8 hex; lit "-"; rep 4 hex; lit "-"; rep 4 hex; lit "-";
       rep 4 hex; lit "-"; rep 12 hex; dollar].

Definition INGREDIENT_ID_PATTERN : regex := seq [lit "ing-"; plus alnum; dollar].

Definition STEP_ID_PATTERN : regex := seq [lit "s-"; plus alnum; dollar].

(** [pattern.match(v)], as a truth value; only strings can be matched. *)
Definition re_match (pattern : regex) (v : json) : outcome bool :=
  match v with
  | JStr s => Ok (matches pattern s)
  | _ => Raise TypeError
  end.

(** ** Controlled vocabularies *)

(** [[a.value for a in Allergen]] *)
Definition Allergen_values : list string :=
  ["milk"; "eggs"; "fish"; "shellfish"; "tree-nuts"; "peanuts"; "wheat"; "gluten";
   "soybeans"; "sesame"; "celery"; "mustard"; "molluscs"; "lupins"; "sulphites";
   "lactose"].

(** [[a.value for a in CookingAction]] *)
Definition CookingAction_values : list string :=
  ["add"; "mix"; "combine"; "blend"; "cut"; "slice"; "dice"; "chop"; "mince";
   "heat"; "boil"; "simmer"; "steam"; "fry"; "saute"; "bake"; "roast"; "grill";
   "cool"; "chill"; "freeze"; "knead"; "fold"; "roll"; "shape"; "ferment";
   "proof"; "rest"; "strain"; "filter"; "separate"; "measure"; "weigh"; "wait";
   "dissolve"; "prepare"; "spread"; "garnish"; "divide"].

(** [[u.value for u in Unit]] *)
Definition Unit_values : list string :=
  ["mg"; "g"; "kg"; "oz"; "lb"; "ml"; "l"; "tsp"; "tbsp"; "cup"; "fl-oz"; "pt";
   "qt"; "gal"; "pcs"; "dozen"; "pinch"; "dash"; "handful"; "to-taste"].

Definition valid_hazards : list string :=
  ["hot-surface"; "sharp-tool"; "electrical"; "chemical"; "pressure";
   "allergen-cross-contact"].

(** ** Results, statistics and the validator object *)

Record ValidationResult : Type := {
  valid : bool;
  errors : list string;
  warnings : list string;
  info : pydict
}.

Record ValidationStats : Type := {
  validated : Z;
  passed : Z;
  failed : Z
}.

(** The schema checker [jsonschema.Draft7Validator] built from the loaded
    schema.  [validate] gives the message of the [ValidationError] it raises,
    [None] for a conforming document; [iter_errors] gives the path and the
    message of every violation. *)
Record Draft7Validator : Type := {
  validate : json -> option string;
  iter_errors : json -> list (list json * string)
}.

Record RCIPValidator : Type := {
  schema_version : string;
  schema : option json;
  validator : option Draft7Validator;
  stats : ValidationStats
}.

Definition new_stats : ValidationStats :=
  {| validated := 0; passed := 0; failed := 0 |}.

(** [RCIPValidator(schema_version)] *)
Definition __init__ (version : string) : RCIPValidator :=
  {| schema_version := version; schema := None; validator := None;
     stats := new_stats |}.

(** [init], once the schema file has been read and decoded: [loaded] is its
    content and [make] the constructor [Draft7Validator]. *)
Definition init (loaded : json) (make : json -> Draft7Validator)
    (self : RCIPValidator) : RCIPValidator :=
  {| schema_version := schema_version self; schema := Some loaded;
     validator := Some (make loaded); stats := stats self |}.

(** [reset_stats] *)
Definition reset_stats (self : RCIPValidator) : RCIPValidator :=
  {| schema_version := schema_version self; schema := schema self;
     validator := validator self; stats := new_stats |}.

(** [l.append(x)] on a list of messages. *)
Definition push (l : list string) (x : string) : list string := (l ++ [x])%list.

(** Updates of the result object. *)
Definition set_invalid (r : ValidationResult) : ValidationResult :=
  {| valid := false; errors := errors r; warnings := warnings r; info := info r |}.

Definition append_error (msg : string) (r : ValidationResult) : ValidationResult :=
  {| valid := valid r; errors := push (errors r) msg; warnings := warnings r;
     info := info r |}.

Definition append_warning (msg : string) (r : ValidationResult) : ValidationResult :=
  {| valid := valid r; errors := errors r; warnings := push (warnings r) msg;
     info := info r |}.

Definition set_warnings (w : list string) (r : ValidationResult) : ValidationResult :=
  {| valid := valid r; errors := errors r; warnings := w; info := info r |}.

Definition set_info (i : pydict) (r : ValidationResult) : ValidationResult :=
  {| valid := valid r; errors := errors r; warnings := warnings r; info := i |}.

(** Loops that thread a state and stop at the first exception. *)
Fixpoint for_each {A St : Type} (body : A -> St -> outcome St) (l : list A) (s : St)
    : outcome St :=
  match l with
  | [] => Ok s
  | x :: l' => s' <- body x s ;; for_each body l' s'
  end.

Fixpoint for_enumerate {A St : Type} (body : nat -> A -> St -> outcome St) (i : nat)
    (l : list A) (s : St) : outcome St :=
  match l with
  | [] => Ok s
  | x :: l' => s' <- body i x s ;; for_enumerate body (S i) l' s'
  end.

(** [any(f(x) for x in l)], which stops at the first true element. *)
Fixpoint py_any {A : Type} (f : A -> outcome bool) (l : list A) : outcome bool :=
  match l with
  | [] => Ok false
  | x :: l' => b <- f x ;; if b then Ok true else py_any f l'
  end.

(** ** The rule engine *)

(** [_validate_ingredient] *)
Definition _validate_ingredient (ingredient : json) (index : nat)
    (result : ValidationResult) : outcome ValidationResult :=
  (* Check ID format *)
  has_id <- py_contains "id" ingredient ;;
  result <-
    (if has_id then
       id <- py_getitem ingredient "id" ;;
       m <- re_match INGREDIENT_ID_PATTERN id ;;
       if negb m then
         Ok (append_error
               ("Ingredient " ++ str_nat index ++ ": Invalid ID format: " ++ py_str id)
               (set_invalid result))
       else Ok result
     else Ok result) ;;
  (* Check allergens (must be present, can be empty) *)
  has_allergens <- py_contains "allergens" ingredient ;;
  result <-
    (if negb has_allergens then
       Ok (append_error
             ("Ingredient " ++ str_nat index ++ ": Missing required allergens field")
             (set_invalid result))
     else
       allergens <- py_getitem ingredient "allergens" ;;
       match allergens with
       | JList l =>
           Ok (fold_left
                 (fun r allergen =>
                    if negb (in_vocabulary allergen Allergen_values) then
                      append_error
                        ("Ingredient " ++ str_nat index ++ ": Invalid allergen '"
                           ++ py_str allergen ++ "'") r
                    else r)
                 l result)
       | _ =>
           Ok (append_error
                 ("Ingredient " ++ str_nat index ++ ": allergens must be an array")
                 (set_invalid result))
       end) ;;
  (* Check machine amount *)
  has_ma <- py_contains "machine_amount" ingredient ;;
  if has_ma then
    ma <- py_getitem ingredient "machine_amount" ;;
    bad_value <-
      (has_value <- py_contains "value" ma ;;
       if negb has_value then Ok true
       else
         value <- py_getitem ma "value" ;;
         if negb (is_number value) then Ok true else py_lt_int value 0) ;;
    let result :=
      if bad_value then
        append_error
          ("Ingredient " ++ str_nat index
             ++ ": machine_amount.value must be non-negative number") result
      else result in
    has_unit <- py_contains "unit" ma ;;
    if negb has_unit then
      Ok (append_error
            ("Ingredient " ++ str_nat index ++ ": machine_amount.unit is required")
            result)
    else
      unit <- py_getitem ma "unit" ;;
      if negb (in_vocabulary unit Unit_values) then
        Ok (append_warning
              ("Ingredient " ++ str_nat index ++ ": Non-standard unit '"
                 ++ py_str unit ++ "'") result)
      else Ok result
  else Ok result.

(** [_validate_step] *)
Definition _validate_step (step : json) (index : nat) (result : ValidationResult)
    : outcome ValidationResult :=
  (* Check ID format *)
  has_id <- py_contains "step_id" step ;;
  result <-
    (if has_id then
       id <- py_getitem step "step_id" ;;
       m <- re_match STEP_ID_PATTERN id ;;
       if negb m then
         Ok (append_error
               ("Step " ++ str_nat index ++ ": Invalid ID format: " ++ py_str id)
               (set_invalid result))
       else Ok result
     else Ok result) ;;
  (* Check action *)
  has_action <- py_contains "action" step ;;
  result <-
    (if has_action then
       action <- py_getitem step "action" ;;
       if negb (in_vocabulary action CookingAction_values) then
         Ok (append_error
               ("Step " ++ str_nat index ++ ": Invalid action '" ++ py_str action ++ "'")
               result)
       else Ok result
     else Ok result) ;;
  (* Check hazards *)
  has_hazards <- py_contains "hazards" step ;;
  if has_hazards then
    hazards <- py_getitem step "hazards" ;;
    match hazards with
    | JList l =>
        Ok (fold_left
              (fun r hazard =>
                 if negb (in_vocabulary hazard valid_hazards) then
                   append_warning
                     ("Step " ++ str_nat index ++ ": Non-standard hazard '"
                        ++ py_str hazard ++ "'") r
                 else r)
              l result)
    | _ => Ok result
    end
  else Ok result.

(** The set comprehension [{x[field] for x in items if field in x}]. *)
Definition id_set (field : string) (items : list json) : outcome pyset :=
  for_each
    (fun x s =>
       has <- py_contains field x ;;
       if has then (v <- py_getitem x field ;; set_add v s) else Ok s)
    items [].

(** The body of the loop over the entries of one step's [target]. *)
Definition check_target (ingredient_ids step_ids : pyset) (step target : json)
    (result : ValidationResult) : outcome ValidationResult :=
  match target with
  | JStr t =>
      bad_ingredient <-
        (if prefix "ing-" t then
           (m <- set_mem target ingredient_ids ;; Ok (negb m))
         else Ok false) ;;
      if bad_ingredient then
        step_id <- py_get step "step_id" (JStr "?") ;;
        Ok (append_error
              ("Step " ++ py_str step_id ++ ": Invalid ingredient reference '" ++ t ++ "'")
              result)
      else if contains ":result" t then
        let step_ref := before_first ":" t in
        m <- set_mem (JStr step_ref) step_ids ;;
        if negb m then
          step_id <- py_get step "step_id" (JStr "?") ;;
          Ok (append_error
                ("Step " ++ py_str step_id ++ ": Invalid step reference '" ++ t ++ "'")
                result)
        else Ok result
      else Ok result
  | _ => Ok result
  end.

(** The body of the loop that checks the step targets. *)
Definition check_step_targets (ingredient_ids step_ids : pyset) (step : json)
    (result : ValidationResult) : outcome ValidationResult :=
  has_target <- py_contains "target" step ;;
  if has_target then
    target <- py_getitem step "target" ;;
    match target with
    | JList l => for_each (check_target ingredient_ids step_ids step) l result
    | _ => Ok result
    end
  else Ok result.

(** The body of the loop that checks the device profile references. *)
Definition check_device_profile_ref (device_ids : pyset) (step : json)
    (result : ValidationResult) : outcome ValidationResult :=
  has_ref <- py_contains "device_profile_ref" step ;;
  if has_ref then
    ref <- py_getitem step "device_profile_ref" ;;
    m <- set_mem ref device_ids ;;
    if negb m then
      step_id <- py_get step "step_id" (JStr "?") ;;
      Ok (append_warning
            ("Step " ++ py_str step_id ++ ": Unknown device profile '" ++ py_str ref ++ "'")
            result)
    else Ok result
  else Ok result.

(** [recipe.get(field, [])], as the sequence a loop over it visits. *)
Definition items_of (recipe : json) (field : string) : outcome (list json) :=
  v <- py_get recipe field (JList []) ;; py_iter v.

(** [_validate_references] *)
Definition _validate_references (recipe : json) (result : ValidationResult)
    : outcome ValidationResult :=
  ingredients <- items_of recipe "ingredients" ;;
  ingredient_ids <- id_set "id" ingredients ;;
  steps <- items_of recipe "steps" ;;
  step_ids <- id_set "step_id" steps ;;
  (* Check step targets *)
  steps <- items_of recipe "steps" ;;
  result <- for_each (check_step_targets ingredient_ids step_ids) steps result ;;
  (* Check device profile references *)
  device_profiles <- items_of recipe "device_profiles" ;;
  device_ids <- id_set "id" device_profiles ;;
  steps <- items_of recipe "steps" ;;
  for_each (check_device_profile_ref device_ids) steps result.

(** [_validate_custom_rules] *)
Definition _validate_custom_rules (self : RCIPValidator) (recipe : json)
    (result : ValidationResult) : outcome ValidationResult :=
  (* Validate recipe ID format *)
  has_id <- py_contains "id" recipe ;;
  result <-
    (if has_id then
       id <- py_getitem recipe "id" ;;
       m <- re_match RECIPE_ID_PATTERN id ;;
       if negb m then
         Ok (append_error ("Invalid recipe ID format: " ++ py_str id)
               (set_invalid result))
       else Ok result
     else Ok result) ;;
  (* Validate ingredients *)
  ingredients <- items_of recipe "ingredients" ;;
  result <-
    for_enumerate (fun i ingredient => _validate_ingredient ingredient i) 0
      ingredients result ;;
  (* Validate steps *)
  steps <- items_of recipe "steps" ;;
  result <- for_enumerate (fun i step => _validate_step step i) 0 steps result ;;
  (* Validate cross-references *)
  result <- _validate_references recipe result ;;
  (* Validate version compatibility *)
  has_version <- py_contains "rcip_version" recipe ;;
  if has_version then
    version <- py_getitem recipe "rcip_version" ;;
    if negb (eq_str (schema_version self) version) then
      Ok (append_warning
            ("Recipe version " ++ py_str version
               ++ " may not be fully compatible with validator version "
               ++ schema_version self) result)
    else Ok result
  else Ok result.

(** [_check_warnings] *)
Definition _check_warnings (recipe : json) : outcome (list string) :=
  let warnings : list string := [] in
  meta <- py_get recipe "meta" (JDict []) ;;
  (* Check for missing optional but recommended fields *)
  has_description <- py_contains "description" meta ;;
  let warnings :=
    if negb has_description then
      push warnings "Missing recommended field: meta.description"
    else warnings in
  has_servings <- py_contains "servings" meta ;;
  let warnings :=
    if negb has_servings then
      push warnings "Missing recommended field: meta.servings"
    else warnings in
  has_difficulty <- py_contains "difficulty" meta ;;
  let warnings :=
    if negb has_difficulty then
      push warnings "Missing recommended field: meta.difficulty"
    else warnings in
  (* Check for missing nutritional data *)
  ingredients <- items_of recipe "ingredients" ;;
  has_nutritional <- py_any (py_contains "nutritional") ingredients ;;
  let warnings :=
    if negb has_nutritional then
      push warnings "No nutritional data provided for any ingredient"
    else warnings in
  (* Check for missing external IDs *)
  ingredients <- items_of recipe "ingredients" ;;
  has_external_ids <-
    py_any (fun ing => v <- py_get ing "external_ids" (JDict []) ;; Ok (truthy v))
      ingredients ;;
  let warnings :=
    if negb has_external_ids then
      push warnings "No external IDs (USDA, GTIN, etc.) provided"
    else warnings in
  (* Check for device profiles without sensors *)
  device_profiles <- py_get recipe "device_profiles" JNull ;;
  no_sensors <-
    (if truthy device_profiles then
       (sensors <- py_get recipe "sensors" JNull ;; Ok (negb (truthy sensors)))
     else Ok false) ;;
  let warnings :=
    if no_sensors then
      push warnings "Device profiles defined but no sensors specified"
    else warnings in
  (* Check for very long cooking times *)
  total_time <- py_get meta "total_time_minutes" (JInt 0) ;;
  long <- py_gt_int total_time 1440 ;;
  warnings <-
    (if long then
       hours <- py_div_60 total_time ;;
       Ok (push warnings
             ("Very long cooking time (" ++ py_str total_time ++ " min / "
                ++ format_1f hours ++ " hours)"))
     else Ok warnings) ;;
  (* Check for missing images *)
  images <- py_get recipe "images" JNull ;;
  let warnings :=
    if negb (truthy images) then push warnings "No images provided for recipe"
    else warnings in
  Ok warnings.

(** The loop of [_get_recipe_info] that collects the allergens. *)
Definition collect_allergens (ingredients : list json) : outcome pyset :=
  for_each
    (fun ingredient s =>
       allergens <- (v <- py_get ingredient "allergens" (JList []) ;; py_iter v) ;;
       for_each set_add allergens s)
    ingredients [].

(** [_get_recipe_info] *)
Definition _get_recipe_info (recipe : json) : outcome pydict :=
  meta <- py_get recipe "meta" (JDict []) ;;
  (* Get all allergens *)
  ingredients <- items_of recipe "ingredients" ;;
  allergens <- collect_allergens ingredients ;;
  name <- py_get meta "name" (JStr "Unknown") ;;
  version <- py_get recipe "rcip_version" JNull ;;
  recipe_version <- py_get meta "version" JNull ;;
  ingredient_count <- (v <- py_get recipe "ingredients" (JList []) ;; py_len v) ;;
  step_count <- (v <- py_get recipe "steps" (JList []) ;; py_len v) ;;
  device_profiles <- py_get recipe "device_profiles" JNull ;;
  sensors <- py_get recipe "sensors" JNull ;;
  sorted_allergens <- py_sorted allergens ;;
  diet_labels <- py_get meta "diet_labels" (JList []) ;;
  difficulty <- py_get meta "difficulty" (JStr "not specified") ;;
  total_time <- py_get meta "total_time_minutes" (JStr "not specified") ;;
  Ok [("name", name);
      ("version", version);
      ("recipe_version", recipe_version);
      ("ingredient_count", JInt ingredient_count);
      ("step_count", JInt step_count);
      ("has_device_profiles", JBool (truthy device_profiles));
      ("has_sensors", JBool (truthy sensors));
      ("allergens", JList sorted_allergens);
      ("diet_labels", diet_labels);
      ("difficulty", difficulty);
      ("total_time", total_time)].

(** The findings of the schema stage of [validate_recipe]. *)
Definition schema_stage (v : Draft7Validator) (recipe : json)
    (result : ValidationResult) : ValidationResult :=
  match validate v recipe with
  | None => result
  | Some message =>
      fold_left
        (fun r error =>
           let error_path := join " > " (map py_str (fst error)) in
           append_error (error_path ++ ": " ++ snd error) r)
        (iter_errors v recipe)
        (append_error ("Schema validation failed: " ++ message) (set_invalid result))
  end.

(** The statistics update at the end of [validate_recipe]. *)
Definition count (is_valid : bool) (s : ValidationStats) : ValidationStats :=
  let s := {| validated := validated s + 1; passed := passed s; failed := failed s |} in
  if is_valid then
    {| validated := validated s; passed := passed s + 1; failed := failed s |}
  else
    {| validated := validated s; passed := passed s; failed := failed s + 1 |}.

(** [validate_recipe]: the result and the validator object after the call. *)
Definition validate_recipe (self : RCIPValidator) (recipe : json)
    : outcome (ValidationResult * RCIPValidator) :=
  match validator self with
  | None => Raise RuntimeError
  | Some v =>
      let result := {| valid := true; errors := []; warnings := []; info := [] |} in
      (* JSON Schema validation *)
      let result := schema_stage v recipe result in
      (* Custom validations *)
      result <- _validate_custom_rules self recipe result ;;
      (* Check warnings *)
      w <- _check_warnings recipe ;;
      let result := set_warnings w result in
      (* Get recipe info *)
      i <- _get_recipe_info recipe ;;
      let result := set_info i result in
      (* Update stats *)
      Ok (result,
          {| schema_version := schema_version self; schema := schema self;
             validator := validator self;
             stats := count (valid result) (stats self) |})
  end.

(** ** Vocabulary of the properties *)

(** The result object [ValidationResult(valid=True)] a validation starts from. *)
Definition blank : ValidationResult :=
  {| valid := true; errors := []; warnings := []; info := [] |}.

(** [merge r d]: the result [r] after the findings [d] have been added. *)
Definition merge (r d : ValidationResult) : ValidationResult :=
  {| valid := valid r && valid d;
     errors := errors r ++ errors d;
     warnings := warnings r ++ warnings d;
     info := info r |}.

(** A stage is framed when all it does to the result it is given is to add
    findings that do not depend on that result. *)
Definition framed (f : ValidationResult -> outcome ValidationResult) : Prop :=
  forall r, f r = (d <- f blank ;; Ok (merge r d)).

(** [shifted msg r0 r]: [r] is [r0] with the one error [msg] more, at the
    place where the two runs parted. *)
Definition shifted (msg : string) (r0 r : ValidationResult) : Prop :=
  exists a d, r0 = merge a d /\ r = merge (append_error msg a) d.

(** The messages [_check_warnings] can produce. *)
Definition advisory (m : string) : Prop :=
  In m ["Missing recommended field: meta.description";
        "Missing recommended field: meta.servings";
        "Missing recommended field: meta.difficulty";
        "No nutritional data provided for any ingredient";
        "No external IDs (USDA, GTIN, etc.) provided";
        "Device profiles defined but no sensors specified";
        "No images provided for recipe"]
  \/ exists minutes hours,
       m = "Very long cooking time (" ++ minutes ++ " min / " ++ hours ++ " hours)".

(** The identifier an error about a step is attributed to:
    [step.get('step_id', '?')], as text. *)
Definition attribution (step : pydict) : string :=
  match lookup "step_id" step with
  | Some id => py_str id
  | None => "?"
  end.

(** Values a [for] loop cannot iterate over. *)
Definition not_iterable (v : json) : bool :=
  match v with
  | JNull | JBool _ | JInt _ | JFloat _ => true
  | _ => false
  end.

(** [d[k] = v] and [del d[k]] on a dict. *)
Fixpoint set_key (k : string) (v : json) (d : pydict) : pydict :=
  match d with
  | [] => [(k, v)]
  | (k', v') :: d' =>
      if String.eqb k' k then (k, v) :: d' else (k', v') :: set_key k v d'
  end.

Fixpoint del_key (k : string) (d : pydict) : pydict :=
  match d with
  | [] => []
  | (k', v') :: d' =>
      if String.eqb k' k then del_key k d' else (k', v') :: del_key k d'
  end.

(** Two dicts that hold the same value under every key but [k]. *)
Definition same_but (k : string) (a b : pydict) : Prop :=
  forall k', k' <> k -> lookup k' a = lookup k' b.

(** The calls a session receives.  A call of [validate_recipe] that raises
    leaves the validator as it was. *)
Inductive call : Type :=
| Validate (recipe : json)
| Reset.

Definition perform (self : RCIPValidator) (c : call) : RCIPValidator :=
  match c with
  | Validate recipe =>
      match validate_recipe self recipe with
      | Ok (_, self') => self'
      | Raise _ => self
      end
  | Reset => reset_stats self
  end.

Definition session (self : RCIPValidator) (calls : list call) : RCIPValidator :=
  fold_left perform calls self.

(** *** Sample documents *)

(** A schema checker that accepts every document, as the one built from the
    schema [{}] does. *)
Definition accept_all : Draft7Validator :=
  {| validate := fun _ => None; iter_errors := fun _ => [] |}.

Definition sample_validator : RCIPValidator :=
  init (JDict []) (fun _ => accept_all) (__init__ "0.1").

Definition sample_meta : json :=
  JDict [("name", JStr "Toast"); ("description", JStr "Buttered toast");
         ("servings", JInt 1); ("difficulty", JStr "easy");
         ("total_time_minutes", JInt 5)].

Definition sample_ingredient : json :=
  JDict [("id", JStr "ing-1"); ("name", JStr "bread");
         ("allergens", JList [JStr "gluten"])].

Definition sample_recipe (version : string) (meta : json) (ingredients steps : list json)
    : json :=
  JDict [("rcip_version", JStr version);
         ("id", JStr "rcip-01234567-89ab-4def-8123-456789abcdef");
         ("meta", meta);
         ("ingredients", JList ingredients);
         ("steps", JList steps)].

(** A step that refers to an ingredient the document does not declare. *)
Definition recipe_dangling_ingredient : json :=
  sample_recipe "0.1" sample_meta [sample_ingredient]
    [JDict [("step_id", JStr "s-1"); ("action", JStr "heat");
            ("target", JList [JStr "ing-2"])]].

(** A document of another format version than the validator's. *)
Definition recipe_other_version : json :=
  sample_recipe "0.2" sample_meta [sample_ingredient]
    [JDict [("step_id", JStr "s-1"); ("action", JStr "heat");
            ("target", JList [JStr "ing-1"])]].

(** A step that refers to a device profile the document does not declare. *)
Definition recipe_unknown_device : json :=
  sample_recipe "0.1" sample_meta [sample_ingredient]
    [JDict [("step_id", JStr "s-1"); ("action", JStr "heat");
            ("target", JList [JStr "ing-1"]);
            ("device_profile_ref", JStr "oven-1")]].

(** An ingredient whose [allergens] is [null]. *)
Definition recipe_null_allergens : json :=
  sample_recipe "0.1" sample_meta
    [JDict [("id", JStr "ing-1"); ("name", JStr "bread"); ("allergens", JNull)]]
    [JDict [("step_id", JStr "s-1"); ("action", JStr "heat");
            ("target", JList [JStr "ing-1"])]].

(** An ingredient without [allergens]. *)
Definition recipe_missing_allergens : json :=
  sample_recipe "0.1" sample_meta
    [sample_ingredient; JDict [("id", JStr "ing-2"); ("name", JStr "butter")]]
    [JDict [("step_id", JStr "s-1"); ("action", JStr "heat");
            ("target", JList [JStr "ing-1"])]].

(** A step that refers to the result of a step that does not exist. *)
Definition step_unresolved_result : pydict :=
  [("step_id", JStr "s-2"); ("action", JStr "heat");
   ("target", JList [JStr "ing-1"; JStr "s-1:result"])].

Definition recipe_unresolved_result : pydict :=
  [("rcip_version", JStr "0.1");
   ("id", JStr "rcip-01234567-89ab-4def-8123-456789abcdef");
   ("meta", sample_meta);
   ("ingredients", JList [sample_ingredient]);
   ("steps", JList [JDict step_unresolved_result])].

(** A recipe that takes 1500 minutes. *)
Definition recipe_long : json :=
  sample_recipe "0.1"
    (JDict [("name", JStr "Sourdough"); ("total_time_minutes", JInt 1500)])
    [sample_ingredient]
    [JDict [("step_id", JStr "s-1"); ("action", JStr "ferment");
            ("target", JList [JStr "ing-1"])]].

(** A step whose [hazards] is a string, not a list. *)
Definition step_bad_hazards : pydict :=
  [("step_id", JStr "s-1"); ("action", JStr "heat");
   ("target", JList [JStr "ing-1"]); ("hazards", JStr "hot-surface")].

Definition recipe_bad_hazards : pydict :=
  [("rcip_version", JStr "0.1");
   ("id", JStr "rcip-01234567-89ab-4def-8123-456789abcdef");
   ("meta", sample_meta);
   ("ingredients", JList [sample_ingredient]);
   ("steps", JList [JDict step_bad_hazards])].

(** The result [validate_recipe] assembles from the outcome [s] of the schema
    stage, the findings [d] of the custom rules, the warnings [w] and the
    summary [i]. *)
Definition assembled (s d : ValidationResult) (w : list string) (i : pydict)
    : ValidationResult :=
  {| valid := valid s && valid d; errors := errors s ++ errors d;
     warnings := w; info := i |}.

(** The validator object after a call that returned a result of validity
    [is_valid]. *)
Definition counted (self : RCIPValidator) (is_valid : bool) : RCIPValidator :=
  {| schema_version := schema_version self; schema := schema self;
     validator := validator self; stats := count is_valid (stats self) |}.

(** [within d r]: the findings [d] are among those of [r]. *)
Definition within (d r : ValidationResult) : Prop :=
  (forall m, In m (errors d) -> In m (errors r)) /\
  (forall m, In m (warnings d) -> In m (warnings r)) /\
  (valid d = false -> valid r = false).

(** *** The parts of [_validate_custom_rules] and [_validate_references] *)

(** [_validate_custom_rules] up to the loop over the steps. *)
Definition rules_before_references (recipe : json) (result : ValidationResult)
    : outcome ValidationResult :=
  has_id <- py_contains "id" recipe ;;
  result <-
    (if has_id then
       id <- py_getitem recipe "id" ;;
       m <- re_match RECIPE_ID_PATTERN id ;;
       if negb m then
         Ok (append_error ("Invalid recipe ID format: " ++ py_str id)
               (set_invalid result))
       else Ok result
     else Ok result) ;;
  ingredients <- items_of recipe "ingredients" ;;
  result <-
    for_enumerate (fun i ingredient => _validate_ingredient ingredient i) 0
      ingredients result ;;
  steps <- items_of recipe "steps" ;;
  for_enumerate (fun i step => _validate_step step i) 0 steps result.

(** The version check that ends [_validate_custom_rules]. *)
Definition version_rule (self : RCIPValidator) (recipe : json)
    (result : ValidationResult) : outcome ValidationResult :=
  has_version <- py_contains "rcip_version" recipe ;;
  if has_version then
    version <- py_getitem recipe "rcip_version" ;;
    if negb (eq_str (schema_version self) version) then
      Ok (append_warning
            ("Recipe version " ++ py_str version
               ++ " may not be fully compatible with validator version "
               ++ schema_version self) result)
    else Ok result
  else Ok result.

(** [_validate_references] up to the loop over the step targets. *)
Definition references_targets (recipe : json) (result : ValidationResult)
    : outcome ValidationResult :=
  ingredients <- items_of recipe "ingredients" ;;
  ingredient_ids <- id_set "id" ingredients ;;
  steps <- items_of recipe "steps" ;;
  step_ids <- id_set "step_id" steps ;;
  steps <- items_of recipe "steps" ;;
  for_each (check_step_targets ingredient_ids step_ids) steps result.

(** The check of the device profile references in [_validate_references]. *)
Definition references_devices (recipe : json) (result : ValidationResult)
    : outcome ValidationResult :=
  device_profiles <- items_of recipe "device_profiles" ;;
  device_ids <- id_set "id" device_profiles ;;
  steps <- items_of recipe "steps" ;;
  for_each (check_device_profile_ref device_ids) steps result.

(** The document [d] with its [steps] set to [pre], [step], [post]. *)
Definition with_steps (pre post : list json) (step : pydict) (d : pydict) : pydict :=
  set_key "steps" (JList (pre ++ JDict step :: post)) d.

(** The step [step] with its [target] set to [tpre] followed by [tpost]. *)
Definition with_targets (tpre tpost : list json) (step : pydict) : pydict :=
  set_key "target" (JList (tpre ++ tpost)) step.

(** A result is sound when it is invalid only if it has an error. *)
Definition sound (r : ValidationResult) : Prop :=
  valid r = false -> errors r <> [].

(** A stage keeps results sound. *)
Definition keeps (f : ValidationResult -> outcome ValidationResult) : Prop :=
  forall r r', sound r -> f r = Ok r' -> sound r'.

(** *** Documents of the expected types

    The shape of a document on which [validate_recipe] raises no exception:
    identifiers are strings, [ingredients], [steps] and [device_profiles] are
    lists of objects, [allergens] is something a loop can visit and holds
    strings, [machine_amount] and [meta] are objects, a
    [device_profile_ref] and the [id] of a device profile can be hashed, and
    [total_time_minutes] is a number whose sixtieth fits a float.  Missing
    fields are allowed, and so are unknown values of the vocabularies. *)

Definition absent_or (p : json -> bool) (k : string) (d : pydict) : bool :=
  match lookup k d with
  | None => true
  | Some v => p v
  end.

Definition is_dict (v : json) : bool :=
  match v with JDict _ => true | _ => false end.

Definition list_of (p : json -> bool) (v : json) : bool :=
  match v with JList l => forallb p l | _ => false end.

Definition holds_strings (v : json) : bool :=
  match v with
  | JList l => forallb is_str l
  | JStr _ | JDict _ => true
  | _ => false
  end.

Definition fits_float (v : json) : bool :=
  is_number v && match py_div_60 v with Ok _ => true | Raise _ => false end.

Definition typed_ingredient (v : json) : bool :=
  match v with
  | JDict d =>
      absent_or is_str "id" d && absent_or holds_strings "allergens" d
      && absent_or is_dict "machine_amount" d
  | _ => false
  end.

Definition typed_step (v : json) : bool :=
  match v with
  | JDict d => absent_or is_str "step_id" d && absent_or hashable "device_profile_ref" d
  | _ => false
  end.

Definition typed_profile (v : json) : bool :=
  match v with
  | JDict d => absent_or hashable "id" d
  | _ => false
  end.

Definition typed_meta (v : json) : bool :=
  match v with
  | JDict m => absent_or fits_float "total_time_minutes" m
  | _ => false
  end.

Definition typed_recipe (recipe : json) : bool :=
  match recipe with
  | JDict d =>
      absent_or is_str "id" d
      && absent_or (list_of typed_ingredient) "ingredients" d
      && absent_or (list_of typed_step) "steps" d
      && absent_or (list_of typed_profile) "device_profiles" d
      && absent_or typed_meta "meta" d
  | _ => false
  end.

(** A list that holds strings only. *)
Definition all_strings (l : list json) : Prop := Forall (fun v => is_str v = true) l.

(** *** What decides validity *)

(** The identifier under [field], when [item] has one, matches [pattern]. *)
Definition well_formed_id (pattern : regex) (field : string) (item : json) : Prop :=
  forall id, py_getitem item field = Ok id -> re_match pattern id = Ok true.

(** The ingredient has an [allergens] field that is a list. *)
Definition lists_allergens (ingredient : json) : Prop :=
  exists l, py_getitem ingredient "allergens" = Ok (JList l).

(** *** Sample schema checkers and documents *)

(** A schema checker that requires the document to be an object with a
    [steps] member, and reports the two violations otherwise. *)
Definition strict_checker : Draft7Validator :=
  {| validate := fun doc => match doc with
                            | JDict d => if has_key "steps" d then None
                                         else Some "'steps' is a required property"
                            | _ => Some "document is not of type 'object'"
                            end;
     iter_errors := fun doc => match doc with
                               | JDict d => if has_key "steps" d then []
                                            else [([], "'steps' is a required property")]
                               | _ => [([], "document is not of type 'object'")]
                               end |}.

Definition strict_validator : RCIPValidator :=
  init (JDict []) (fun _ => strict_checker) (__init__ "0.1").

(** A document without steps. *)
Definition recipe_without_steps : json :=
  JDict [("rcip_version", JStr "0.1"); ("meta", sample_meta);
         ("ingredients", JList [sample_ingredient])].

(** A list of at most [n] messages, without repetition, all among [seen]. *)
Definition tidy (n : nat) (seen l : list string) : Prop :=
  (List.length l <= n)%nat /\ NoDup l /\ incl l seen.

(** *** The summary of a recipe *)

(** [a < b] holds. *)
Definition below (a b : json) : Prop := py_lt a b = Ok true.

(** The values a loop over [ingredient.get('allergens', [])] visits. *)
Definition allergens_of (ingredient : json) : outcome (list json) :=
  v <- py_get ingredient "allergens" (JList []) ;; py_iter v.

(** The keys of the summary, in the order of the dict display. *)
Definition info_keys : list string :=
  ["name"; "version"; "recipe_version"; "ingredient_count"; "step_count";
   "has_device_profiles"; "has_sensors"; "allergens"; "diet_labels"; "difficulty";
   "total_time"].

(** [d.get(k, default)] on a dict. *)
Definition get_or (default : json) (k : string) (d : pydict) : json :=
  match lookup k d with
  | Some v => v
  | None => default
  end.

(** The elements of a set are pairwise different. *)
Fixpoint distinct (s : list json) : Prop :=
  match s with
  | [] => True
  | x :: s' => (forall y, In y s' -> py_eq x y = false) /\ distinct s'
  end.


(** A recipe whose two ingredients name three allergens, one of them twice. *)
Definition recipe_two_ingredients : json :=
  sample_recipe "0.1" sample_meta
    [JDict [("id", JStr "ing-1"); ("name", JStr "bread");
            ("allergens", JList [JStr "wheat"; JStr "gluten"])];
     JDict [("id", JStr "ing-2"); ("name", JStr "butter");
            ("allergens", JList [JStr "milk"; JStr "gluten"])]]
    [JDict [("step_id", JStr "s-1"); ("action", JStr "spread");
            ("target", JList [JStr "ing-1"; JStr "ing-2"])]].

(** *** Documents the rules cannot inspect *)

(** [item] is an object whose [field] holds something else than a string. *)
Definition non_string_under (field : string) (item : json) : Prop :=
  exists d v, item = JDict d /\ lookup field d = Some v /\ is_str v = false.

(** A recipe whose second ingredient has a number as identifier. *)
Definition recipe_numeric_id : json :=
  sample_recipe "0.1" sample_meta
    [sample_ingredient;
     JDict [("id", JInt 2); ("name", JStr "butter"); ("allergens", JList [JStr "milk"])]]
    [JDict [("step_id", JStr "s-1"); ("action", JStr "spread");
            ("target", JList [JStr "ing-1"])]].

(** *** The language of a pattern *)

(** [lang r s]: the string [s] is in the language of [r]. *)
Inductive lang : regex -> string -> Prop :=
| lang_eps : lang REps ""
| lang_sym (p : ascii -> bool) (c : ascii) : p c = true -> lang (RSym p) (String c "")
| lang_cat (r1 r2 : regex) (s1 s2 : string) :
    lang r1 s1 -> lang r2 s2 -> lang (RCat r1 r2) (s1 ++ s2)
| lang_alt_l (r1 r2 : regex) (s : string) : lang r1 s -> lang (RAlt r1 r2) s
| lang_alt_r (r1 r2 : regex) (s : string) : lang r2 s -> lang (RAlt r1 r2) s
| lang_star_nil (r : regex) : lang (RStar r) ""
| lang_star_cons (r : regex) (s1 s2 : string) :
    lang r s1 -> lang (RStar r) s2 -> lang (RStar r) (s1 ++ s2).

(** Every character of [s] satisfies [p]. *)
Fixpoint all_chars (p : ascii -> bool) (s : string) : bool :=
  match s with
  | EmptyString => true
  | String c s' => p c && all_chars p s'
  end.

(** The character classes [[0-9a-f]] and [[0-9a-zA-Z]]. *)
Definition is_hex (c : ascii) : bool := in_range "0" "9" c || in_range "a" "f" c.

Definition is_alnum (c : ascii) : bool :=
  in_range "0" "9" c || in_range "a" "z" c || in_range "A" "Z" c.

(** A word of [n] hexadecimal digits, in lower case. *)
Definition hex_word (n : nat) (w : string) : Prop :=
  String.length w = n /\ all_chars is_hex w = true.

(** A word of one or more letters and digits. *)
Definition alnum_word (w : string) : Prop :=
  w <> "" /\ all_chars is_alnum w = true.

(** [s] is [w], or [w] followed by one newline. *)
Definition up_to_newline (w s : string) : Prop :=
  s = w \/ s = w ++ String newline "".

(** *** Cross-references *)

(** Some item of [items] has the string [t] under [field]. *)
Definition declares (field : string) (items : list json) (t : string) : Prop :=
  exists item, In item items /\ py_getitem item field = Ok (JStr t).

(** ** Files, the console and the command line

    [validate_file], [validate_directory], the two report printers and
    [main] read files and print.  What they need from their environment is
    gathered in [Env]: paths are values of [pathlib.Path], of which only
    [str(p)], [p.name], [p / s], [p.glob], [p.is_dir()] and [p.is_file()]
    are used; [read_json p] is the outcome of [open(p, 'r',
    encoding='utf-8')] followed by [json.load]; [Draft7] is the constructor
    of the schema checker.  Printed text is a sequence of Unicode code
    points, because the messages hold characters above 255.  The console is
    the list of the [print] calls: one call adds one entry, the text it was
    given, and the newline [print] ends it with is left implicit.  An entry
    is not a line of the output: the text of a call may hold line feeds, and
    several calls of the printers start with one. *)

Definition text : Type := list N.

Definition text_of (s : string) : text := map N_of_ascii (list_ascii_of_string s).

Definition line_feed : N := 10.
Definition check_mark : N := 0x2705.
Definition cross_mark : N := 0x274C.
Definition warning_sign : text := [0x26A0; 0xFE0F]%N.
Definition page_facing_up : N := 0x1F4C4.
Definition magnifying_glass : N := 0x1F50D.
Definition bar_chart : N := 0x1F4CA.
Definition chart_upwards : N := 0x1F4C8.

(** [s * n] *)
Fixpoint times (s : string) (n : nat) : string :=
  match n with
  | O => ""
  | S n' => s ++ times s n'
  end.

(** What [open] and [json.load] give for a path. *)
Inductive loaded : Type :=
| Missing                      (* open raises FileNotFoundError *)
| Malformed (e : string)       (* json.load raises JSONDecodeError, [e] is str(e) *)
| Unreadable                   (* any other exception *)
| Decoded (document : json).

(** The exceptions of this layer. *)
Inductive failure : Type :=
| Engine (e : exn)             (* raised by the rule engine or by a report printer *)
| FileNotFoundError (message : string)
| ValueError (message : string)
| OtherError.                  (* any other exception *)

(** How a call ends. *)
Inductive ended (A : Type) : Type :=
| Returns (a : A)
| Raises (e : failure).

Arguments Returns {A} a.
Arguments Raises {A} e.

(** The world outside the validator: the file system and the schema
    library.  [Draft7] is the constructor [Draft7Validator(schema)]: it gives
    the checker, or raises on a document the library cannot take as a schema
    (an array, for instance, has no [get]). *)
Record Env : Type := {
  Path : Type;
  path_str : Path -> string;
  path_name : Path -> string;
  child : Path -> string -> Path;
  package_dir : Path;          (* Path(__file__).parent.parent.parent *)
  read_json : Path -> loaded;
  glob : Path -> string -> list Path;
  is_dir : Path -> bool;
  is_file : Path -> bool;
  Draft7 : json -> ended Draft7Validator
}.

(** One entry of the console: the text of a [print] call, or the line
    [print(f"Error: {e}")] for an exception [e], whose text is that of the
    exception. *)
Inductive printed : Type :=
| Line (t : text)
| ErrorLine (e : failure).

(** The validator object and the console. *)
Record Process : Type := {
  this : RCIPValidator;
  console : list printed
}.

(** A computation that may print, update the validator and raise; what it
    printed and changed before it raised stays. *)
Definition io (A : Type) : Type := Process -> ended A * Process.

Definition ret {A : Type} (a : A) : io A := fun p => (Returns a, p).

Definition throw {A : Type} (e : failure) : io A := fun p => (Raises e, p).

Definition io_bind {A B : Type} (m : io A) (k : A -> io B) : io B :=
  fun p =>
    match m p with
    | (Returns a, p') => k a p'
    | (Raises e, p') => (Raises e, p')
    end.

Notation "x <-- m ;; k" := (io_bind m (fun x => k))
  (at level 61, m at next level, right associativity).

Definition print (t : text) : io unit :=
  fun p => (Returns tt, {| this := this p; console := (console p ++ [Line t])%list |}).

Definition lift {A : Type} (m : outcome A) : io A :=
  match m with
  | Ok a => ret a
  | Raise e => throw (Engine e)
  end.

Fixpoint io_for_each {A : Type} (body : A -> io unit) (l : list A) : io unit :=
  match l with
  | [] => ret tt
  | x :: l' => _ <-- body x ;; io_for_each body l'
  end.

Fixpoint io_fold {A St : Type} (body : A -> St -> io St) (l : list A) (s : St) : io St :=
  match l with
  | [] => ret s
  | x :: l' => s' <-- body x s ;; io_fold body l' s'
  end.

(** [enumerate(l, start)] *)
Fixpoint enumerate (start : nat) (l : list string) : list (nat * string) :=
  match l with
  | [] => []
  | x :: l' => (start, x) :: enumerate (S start) l'
  end.

(** [sep.join(v)]: the items must be strings. *)
Definition py_join (sep : string) (v : json) : outcome string :=
  items <- py_iter v ;;
  if forallb is_str items then Ok (join sep (map py_str items)) else Raise TypeError.

(** [d[k]] on the summary. *)
Definition info_item (d : pydict) (k : string) : io json :=
  lift (py_getitem (JDict d) k).

(** [init], with the reading of the schema file and the construction of the
    checker.  Both happen inside the [try]: an exception of the constructor
    leaves [self.schema] assigned and [self.validator] as it was, and goes
    through the two [except] clauses like any other. *)
Definition init_schema (env : Env) (schema_path : option (Path env)) : io unit :=
  fun p =>
    let self := this p in
    let schema_path :=
      match schema_path with
      | Some path => path
      | None =>
          child env (child env (package_dir env) "schemas")
            ("rcip-v" ++ schema_version self ++ ".json")
      end in
    match read_json env schema_path with
    | Decoded document =>
        (* self.schema = json.load(f) *)
        let loaded := {| schema_version := schema_version self;
                         schema := Some document;
                         validator := validator self;
                         stats := stats self |} in
        match Draft7 env document with
        | Returns checker =>
            print (check_mark
                     :: text_of (" RCIP Validator initialized with schema v"
                                   ++ schema_version self))
              {| this := init document (fun _ => checker) self; console := console p |}
        | Raises (FileNotFoundError _) =>
            (Raises (FileNotFoundError
                       ("Schema file not found: " ++ path_str env schema_path)),
             {| this := loaded; console := console p |})
        | Raises e => (Raises e, {| this := loaded; console := console p |})
        end
    | Missing =>
        (Raises (FileNotFoundError
                   ("Schema file not found: " ++ path_str env schema_path)), p)
    | Malformed e => (Raises (ValueError ("Invalid JSON in schema file: " ++ e)), p)
    | Unreadable => (Raises OtherError, p)
    end.

(** The call [self.validate_recipe(recipe)]. *)
Definition call_validate_recipe (recipe : json) : io ValidationResult :=
  fun p =>
    match validate_recipe (this p) recipe with
    | Ok (result, self') => (Returns result, {| this := self'; console := console p |})
    | Raise e => (Raises (Engine e), p)
    end.

(** [_print_result] *)
Definition _print_result (result : ValidationResult) (recipe_name : json) : io unit :=
  _ <-- print (text_of (String newline (times "=" 60))) ;;
  _ <-- print (text_of ("Recipe: " ++ py_str recipe_name)) ;;
  _ <-- print (text_of "Status: "
                 ++ (if valid result then check_mark :: text_of " VALID"
                     else cross_mark :: text_of " INVALID"))%list ;;
  _ <-- (if truthy (JDict (info result)) then
           _ <-- print (line_feed :: bar_chart :: text_of " Recipe Info:") ;;
           version <-- info_item (info result) "version" ;;
           _ <-- print (text_of ("  - RCIP Version: " ++ py_str version)) ;;
           ingredient_count <-- info_item (info result) "ingredient_count" ;;
           _ <-- print (text_of ("  - Ingredients: " ++ py_str ingredient_count)) ;;
           step_count <-- info_item (info result) "step_count" ;;
           _ <-- print (text_of ("  - Steps: " ++ py_str step_count)) ;;
           difficulty <-- info_item (info result) "difficulty" ;;
           _ <-- print (text_of ("  - Difficulty: " ++ py_str difficulty)) ;;
           total_time <-- info_item (info result) "total_time" ;;
           _ <-- print (text_of ("  - Total Time: " ++ py_str total_time ++ " minutes")) ;;
           allergens <-- info_item (info result) "allergens" ;;
           _ <-- (if truthy allergens then
                    joined <-- lift (py_join ", " allergens) ;;
                    print (text_of ("  - Allergens: " ++ joined))
                  else ret tt) ;;
           diet_labels <-- info_item (info result) "diet_labels" ;;
           if truthy diet_labels then
             joined <-- lift (py_join ", " diet_labels) ;;
             print (text_of ("  - Diet Labels: " ++ joined))
           else ret tt
         else ret tt) ;;
  _ <-- (match errors result with
         | [] => ret tt
         | _ =>
             _ <-- print (line_feed :: cross_mark
                            :: text_of (" Errors ("
                                          ++ str_nat (List.length (errors result))
                                          ++ "):")) ;;
             _ <-- io_for_each
                     (fun ie => print (text_of ("  " ++ str_nat (fst ie) ++ ". " ++ snd ie)))
                     (enumerate 1 (firstn 10 (errors result))) ;;
             if (10 <? List.length (errors result))%nat then
               print (text_of ("  ... and "
                                 ++ str_nat (List.length (errors result) - 10)
                                 ++ " more errors"))
             else ret tt
         end) ;;
  _ <-- (match warnings result with
         | [] => ret tt
         | _ =>
             _ <-- print (line_feed
                            :: warning_sign
                            ++ text_of ("  Warnings ("
                                          ++ str_nat (List.length (warnings result))
                                          ++ "):"))%list ;;
             io_for_each (fun warning => print (text_of ("  - " ++ warning)))
               (warnings result)
         end) ;;
  print (text_of (times "=" 60)).

(** [validate_file] *)
Definition validate_file (env : Env) (file_path : Path env) : io ValidationResult :=
  match read_json env file_path with
  | Decoded recipe =>
      _ <-- print (line_feed :: page_facing_up
                     :: text_of (" Validating: " ++ path_name env file_path)) ;;
      result <-- call_validate_recipe recipe ;;
      recipe_name <-- lift (meta <- py_get recipe "meta" (JDict []) ;;
                            py_get meta "name" (JStr "Unknown Recipe")) ;;
      _ <-- _print_result result recipe_name ;;
      ret result
  | Missing =>
      ret {| valid := false;
             errors := ["File not found: " ++ path_str env file_path];
             warnings := []; info := [] |}
  | Malformed e =>
      ret {| valid := false; errors := ["Invalid JSON: " ++ e];
             warnings := []; info := [] |}
  | Unreadable => throw OtherError
  end.

(** [x / y] for an int [x] and a positive int [y]: the correctly rounded
    quotient, or [OverflowError] when it does not fit a float. *)
Definition int_truediv (x : Z) (y : positive) : outcome pyfloat :=
  match x with
  | Z0 => Ok (Fzero false)
  | Zpos p =>
      match nearest_double p y with
      | S754_infinity _ => Raise OverflowError
      | r => Ok (of_spec r)
      end
  | Zneg p =>
      match nearest_double p y with
      | S754_infinity _ => Raise OverflowError
      | r => Ok (of_spec (SFopp r))
      end
  end.

(** [x * 100] for a float [x]. *)
Definition float_mul_100 (x : pyfloat) : pyfloat :=
  of_spec (SFmul prec64 emax64 (to_spec (canon x)) (S754_finite false 100 0)).

(** [format(x, '.0f')] *)
Definition format_0f (x : pyfloat) : string :=
  match x with
  | Fzero s => if s then "-0" else "0"
  | Finf s => if s then "-inf" else "inf"
  | Ffinite s m e =>
      let t := if 0 <=? e then Zpos m * 2 ^ e
               else round_half_even (Zpos m) (2 ^ (- e)) in
      (if s then "-" else "") ++ str_int t
  end.

(** [(count / validated) * 100], as it is printed with [:.0f]. *)
Definition rate (count : Z) (validated : positive) : outcome string :=
  q <- int_truediv count validated ;; Ok (format_0f (float_mul_100 q)).

(** [_print_summary] *)
Definition _print_summary : io unit :=
  fun p =>
    let stats := stats (this p) in
    (_ <-- print (text_of (String newline (times "=" 60))) ;;
     _ <-- print (chart_upwards :: text_of " VALIDATION SUMMARY") ;;
     _ <-- print (text_of (times "=" 60)) ;;
     _ <-- print (text_of ("Total Validated: " ++ str_int (validated stats))) ;;
     _ <-- (match validated stats with
            | Zpos n =>
                pass_rate <-- lift (rate (passed stats) n) ;;
                fail_rate <-- lift (rate (failed stats) n) ;;
                _ <-- print (check_mark
                               :: text_of (" Passed: " ++ str_int (passed stats)
                                             ++ " (" ++ pass_rate ++ "%)")) ;;
                print (cross_mark
                         :: text_of (" Failed: " ++ str_int (failed stats)
                                       ++ " (" ++ fail_rate ++ "%)"))
            | _ => ret tt
            end) ;;
     print (text_of (times "=" 60 ++ String newline ""))) p.

(** An entry of the list [validate_directory] returns: the dict with the
    keys [file] and [result]. *)
Record FileReport : Type := {
  report_file : string;
  report_result : ValidationResult
}.

(** [validate_directory] *)
Definition validate_directory (env : Env) (directory : Path env)
    : io (list FileReport) :=
  let recipe_files := (glob env directory "*.rcip" ++ glob env directory "*.json")%list in
  _ <-- print (line_feed :: magnifying_glass
                 :: text_of (" Found " ++ str_nat (List.length recipe_files)
                               ++ " recipe files to validate"
                               ++ String newline "")) ;;
  results <--
    io_fold
      (fun file_path results =>
         result <-- validate_file env file_path ;;
         ret (results
                ++ [{| report_file := path_name env file_path;
                       report_result := result |}])%list)
      recipe_files [] ;;
  _ <-- _print_summary ;;
  ret results.

(** The parsed command line: [args.target], [args.version], [args.schema]. *)
Record Args (env : Env) : Type := {
  arg_target : Path env;
  arg_version : string;
  arg_schema : option (Path env)
}.

Arguments arg_target {env} a.
Arguments arg_version {env} a.
Arguments arg_schema {env} a.

(** How [main] ends: it returns, or [sys.exit] raises [SystemExit]. *)
Inductive ending : Type :=
| Completed
| SystemExit (code : Z).

(** The body of the [try] statement of [main]; [Some code] stands for a
    call of [sys.exit(code)], which [except Exception] does not catch. *)
Definition main_body (env : Env) (args : Args env) : io (option Z) :=
  _ <-- init_schema env (arg_schema args) ;;
  if is_dir env (arg_target args) then
    _ <-- validate_directory env (arg_target args) ;; ret None
  else if is_file env (arg_target args) then
    _ <-- validate_file env (arg_target args) ;; ret None
  else
    _ <-- print (text_of ("Error: " ++ path_str env (arg_target args)
                            ++ " is not a valid file or directory")) ;;
    ret (Some 1).

(** [main], once the command line has been parsed: how it ends and what it
    has printed. *)
Definition main (env : Env) (args : Args env) : ending * list printed :=
  let validator := __init__ (arg_version args) in
  match main_body env args {| this := validator; console := [] |} with
  | (Returns None, p) => (Completed, console p)
  | (Returns (Some code), p) => (SystemExit code, console p)
  | (Raises e, p) => (SystemExit 1, (console p ++ [ErrorLine e])%list)
  end.

(** *** Vocabulary of the properties of the reports *)

(** [emits ok out m]: the computation [m] leaves the validator as it is,
    adds the entries [out] to the console, and then returns if [ok] holds
    and raises [TypeError] otherwise. *)
Definition emits (ok : bool) (out : list printed) (m : io unit) : Prop :=
  forall p,
    m p = (if ok then Returns tt else Raises (Engine TypeError),
           {| this := this p; console := (console p ++ out)%list |}).

(** The value can be joined by [', '.join], or is skipped because it is
    false as a condition. *)
Definition joinable (v : json) : bool :=
  negb (truthy v) || match py_join ", " v with Ok _ => true | Raise _ => false end.

(** The summary can be printed by [_print_result]. *)
Definition reportable (result : ValidationResult) : bool :=
  negb (truthy (JDict (info result)))
  || match lookup "allergens" (info result), lookup "diet_labels" (info result) with
     | Some allergens, Some diet_labels => joinable allergens && joinable diet_labels
     | _, _ => false
     end.

(** The lines of [_print_result] about the errors. *)
Definition error_lines (errors : list string) : list printed :=
  match errors with
  | [] => []
  | _ =>
      (Line (line_feed :: cross_mark
               :: text_of (" Errors (" ++ str_nat (List.length errors) ++ "):"))
         :: map (fun ie => Line (text_of ("  " ++ str_nat (fst ie) ++ ". " ++ snd ie)))
              (enumerate 1 (firstn 10 errors))
         ++ (if (10 <? List.length errors)%nat then
               [Line (text_of ("  ... and " ++ str_nat (List.length errors - 10)
                                 ++ " more errors"))]
             else []))%list
  end.

(** The line of [_print_result] that tells the validity. *)
Definition status_line (is_valid : bool) : printed :=
  Line (text_of "Status: "
          ++ (if is_valid then check_mark :: text_of " VALID"
              else cross_mark :: text_of " INVALID"))%list.

Definition is_decoded (l : loaded) : bool :=
  match l with Decoded _ => true | _ => false end.

(** The result [validate_file] returns for a file it cannot read. *)
Definition unread (message : string) : ValidationResult :=
  {| valid := false; errors := [message]; warnings := []; info := [] |}.

(** *** A sample environment

    Paths are pairs of a directory and a name.  The directory [recipes]
    holds a recipe, a file that is not JSON and an entry whose file is gone;
    the schema accepts every document. *)

Definition recipe_numeric_label : json :=
  sample_recipe "0.1"
    (JDict [("name", JStr "Toast"); ("diet_labels", JList [JStr "vegan"; JInt 1])])
    [sample_ingredient]
    [JDict [("step_id", JStr "s-1"); ("action", JStr "heat");
            ("target", JList [JStr "ing-1"])]].

(** The constructor of the samples: the checker that accepts every
    document for a schema that is an object or a boolean, and an exception
    for any other document, as the library raises one when it looks for the
    [$id] of the schema: [AttributeError] for an array, which has no [get];
    which exception it is for the other documents is left open. *)
Definition sample_Draft7 (document : json) : ended Draft7Validator :=
  match document with
  | JDict _ | JBool _ => Returns accept_all
  | JList _ => Raises (Engine AttributeError)
  | _ => Raises OtherError
  end.

Definition sample_read (path : string * string) : loaded :=
  if String.eqb (snd path) "toast.rcip" then Decoded recipe_two_ingredients
  else if String.eqb (snd path) "dangling.rcip" then Decoded recipe_dangling_ingredient
  else if String.eqb (snd path) "missing.rcip" then Decoded recipe_missing_allergens
  else if String.eqb (snd path) "labels.rcip" then Decoded recipe_numeric_label
  else if String.eqb (snd path) "broken.json" then
    Malformed "Expecting value: line 1 column 1 (char 0)"
  else if String.eqb (snd path) "rcip-v0.1.json" then Decoded (JDict [])
  else Missing.

Definition sample_env : Env :=
  {| Path := string * string;
     path_str := fun path => fst path ++ "/" ++ snd path;
     path_name := snd;
     child := fun path s => (fst path ++ "/" ++ snd path, s);
     package_dir := (".", "rcip");
     read_json := sample_read;
     glob := fun path pattern =>
               if String.eqb (snd path) "recipes" then
                 if String.eqb pattern "*.rcip" then [("./recipes", "toast.rcip")]
                 else [("./recipes", "broken.json"); ("./recipes", "gone.json")]
               else [];
     is_dir := fun path => String.eqb (snd path) "recipes";
     is_file := fun path =>
                  String.eqb (snd path) "toast.rcip"
                  || String.eqb (snd path) "missing.rcip"
                  || String.eqb (snd path) "labels.rcip";
     Draft7 := sample_Draft7 |}.

(** A process whose validator is initialised and has validated nothing. *)
Definition sample_process : Process :=
  {| this := sample_validator; console := [] |}.

(** The schema file [init] reads for the command line [args]. *)
Definition schema_file (env : Env) (args : Args env) : Path env :=
  match arg_schema args with
  | Some path => path
  | None =>
      child env (child env (package_dir env) "schemas")
        ("rcip-v" ++ arg_version args ++ ".json")
  end.

(** The line [init] prints. *)
Definition initialized_line (version : string) : printed :=
  Line (check_mark :: text_of (" RCIP Validator initialized with schema v" ++ version)).

(** The line [validate_file] prints before it validates. *)
Definition validating_line (name : string) : printed :=
  Line (line_feed :: page_facing_up :: text_of (" Validating: " ++ name)).

(** Command lines for the sample environment. *)
Definition sample_args (name : string) : Args sample_env :=
  Build_Args sample_env ("./recipes", name) "0.1" None.

(** An environment whose directory [recipes] holds a recipe and a file
    with a JSON array. *)
Definition array_env : Env :=
  {| Path := string * string;
     path_str := fun path => fst path ++ "/" ++ snd path;
     path_name := snd;
     child := fun path s => (fst path ++ "/" ++ snd path, s);
     package_dir := (".", "rcip");
     read_json := fun path =>
                    if String.eqb (snd path) "array.json" then
                      Decoded (JList [recipe_two_ingredients])
                    else sample_read path;
     glob := fun path pattern =>
               if String.eqb pattern "*.rcip" then [("./recipes", "toast.rcip")]
               else [("./recipes", "array.json")];
     is_dir := fun path => String.eqb (snd path) "recipes";
     is_file := fun path => negb (String.eqb (snd path) "recipes");
     Draft7 := sample_Draft7 |}.

(** The command line that validates a recipe of [array_env] with the JSON
    array as its schema file. *)
Definition array_schema_args : Args array_env :=
  Build_Args array_env ("./recipes", "toast.rcip") "0.1"
    (Some ("./recipes", "array.json")).

(** The [meta.diet_labels] of the document, when there are any, can be
    joined: they are a list of strings, a string or an object. *)
Definition labels_can_be_joined (recipe : json) : bool :=
  match recipe with
  | JDict d =>
      match lookup "meta" d with
      | Some (JDict meta) => absent_or holds_strings "diet_labels" meta
      | _ => true
      end
  | _ => false
  end.

(** A result with eleven errors and no summary. *)
Definition eleven_errors : ValidationResult :=
  {| valid := false;
     errors := ["e1"; "e2"; "e3"; "e4"; "e5"; "e6"; "e7"; "e8"; "e9"; "e10"; "e11"];
     warnings := []; info := [] |}.

(** An ingredient whose amount is the boolean [true]. *)
Definition ingredient_boolean_amount : pydict :=
  [("id", JStr "ing-1"); ("name", JStr "salt"); ("allergens", JList []);
   ("machine_amount", JDict [("value", JBool true); ("unit", JStr "pinch")])].

(** A recipe that names the allergen [Milk], with a capital letter. *)
Definition recipe_capital_allergen : json :=
  sample_recipe "0.1" sample_meta
    [JDict [("id", JStr "ing-1"); ("name", JStr "butter");
            ("allergens", JList [JStr "Milk"])]]
    [JDict [("step_id", JStr "s-1"); ("action", JStr "spread");
            ("target", JList [JStr "ing-1"])]].

(** *** The value of a number

    The exact value of a number of the document, as a rational: an int is
    itself and a float [m * 2^e] is that product. *)
Definition rational (v : json) : option Q :=
  match v with
  | JBool b => Some (if b then 1 else 0)%Q
  | JInt z => Some (inject_Z z)
  | JFloat (Fzero _) => Some 0%Q
  | JFloat (Ffinite s m e) =>
      Some (inject_Z (if s then Zneg m else Zpos m) * 2 ^ e)%Q
  | _ => None
  end.

(** A float of the document is a binary64 value: it has at most 53
    significant bits and its exponent is in range. *)
Definition binary64 (v : json) : bool :=
  match v with
  | JFloat (Ffinite _ m e) => bounded prec64 emax64 m e
  | _ => true
  end.

(** A recipe whose total time is the integer [10^400]. *)
Definition recipe_endless : json :=
  sample_recipe "0.1"
    (JDict [("name", JStr "Sourdough"); ("total_time_minutes", JInt (10 ^ 400))])
    [sample_ingredient]
    [JDict [("step_id", JStr "s-1"); ("action", JStr "ferment");
            ("target", JList [JStr "ing-1"])]].

(** A recipe whose total time is the float infinity, which [json.load]
    gives for [1e999] and for the literal [Infinity]. *)
Definition recipe_infinite : json :=
  sample_recipe "0.1"
    (JDict [("name", JStr "Sourdough"); ("total_time_minutes", JFloat (Finf false))])
    [sample_ingredient]
    [JDict [("step_id", JStr "s-1"); ("action", JStr "ferment");
            ("target", JList [JStr "ing-1"])]].

(** A recipe whose total time is the float [1503.0]. *)
Definition recipe_long_float : json :=
  sample_recipe "0.1"
    (JDict [("name", JStr "Sourdough");
            ("total_time_minutes", JFloat (Ffinite false (1503 * 2 ^ 42) (-42)))])
    [sample_ingredient]
    [JDict [("step_id", JStr "s-1"); ("action", JStr "ferment");
            ("target", JList [JStr "ing-1"])]].

(** *** A schema that types [hazards]

    The checker built from a schema whose steps have [hazards] of type
    [array]: one violation for each step whose [hazards] is present and is
    not a list, under the path [steps > i > hazards]. *)
Fixpoint hazards_violations (i : Z) (steps : list json) : list (list json * string) :=
  match steps with
  | [] => []
  | step :: rest =>
      let found :=
        match step with
        | JDict d =>
            match lookup "hazards" d with
            | Some hazards =>
                if is_list hazards then []
                else [([JStr "steps"; JInt i; JStr "hazards"],
                       py_repr hazards ++ " is not of type 'array'")]
            | None => []
            end
        | _ => []
        end in
      (found ++ hazards_violations (i + 1) rest)%list
  end.

Definition hazards_checker : Draft7Validator :=
  let violations doc :=
    match doc with
    | JDict d =>
        match lookup "steps" d with
        | Some (JList steps) => hazards_violations 0 steps
        | _ => []
        end
    | _ => []
    end in
  {| validate := fun doc => match violations doc with
                            | [] => None
                            | violation :: _ => Some (snd violation)
                            end;
     iter_errors := violations |}.

Definition hazards_validator : RCIPValidator :=
  init (JDict []) (fun _ => hazards_checker) (__init__ "0.1").

(** *** Rounding to a float

    The record [mrs] of a right shift stands for the quotient of [X] by the
    unit [U]: its mantissa is the integer part, its round bit tells whether
    the remainder is at least the half of the unit and its sticky bit
    whether the remainder is neither nothing nor that half. *)
Definition tracks (X U : Z) (mrs : shr_record) : Prop :=
  shr_m mrs = X / U /\
  (shr_r mrs = true <-> U <= 2 * (X mod U)) /\
  (shr_s mrs = true <-> X mod U <> 0 /\ 2 * (X mod U) <> U).

(** * Properties *)

(** ** The outcome monad *)

Lemma bind_Ok_inv {A B : Type} (m : outcome A) (k : A -> outcome B) (b : B) :
  bind m k = Ok b -> exists a, m = Ok a /\ k a = Ok b.
Proof.
  destruct m as [a|e]; simpl; intros H; [eauto | discriminate].
Qed.

(** ** Framing *)

Lemma merge_blank (r : ValidationResult) : merge r blank = r.
Proof.
  destruct r; unfold merge; simpl.
  now rewrite andb_true_r, !app_nil_r.
Qed.

Lemma merge_assoc (r a b : ValidationResult) :
  merge (merge r a) b = merge r (merge a b).
Proof.
  unfold merge; simpl. now rewrite andb_assoc, !app_assoc.
Qed.

Lemma merge_append_error (r d : ValidationResult) (m : string) :
  merge r (append_error m d) = append_error m (merge r d).
Proof.
  unfold merge, append_error, push; simpl. now rewrite app_assoc.
Qed.

Lemma merge_append_warning (r d : ValidationResult) (m : string) :
  merge r (append_warning m d) = append_warning m (merge r d).
Proof.
  unfold merge, append_warning, push; simpl. now rewrite app_assoc.
Qed.

Lemma merge_set_invalid (r d : ValidationResult) :
  merge r (set_invalid d) = set_invalid (merge r d).
Proof.
  unfold merge, set_invalid; simpl. now rewrite andb_false_r.
Qed.

Lemma framed_Ok : framed (fun r => Ok r).
Proof. intros r; simpl. now rewrite merge_blank. Qed.

Lemma framed_then (f g : ValidationResult -> outcome ValidationResult) :
  framed f -> framed g -> framed (fun r => r' <- f r ;; g r').
Proof.
  intros Hf Hg r. rewrite (Hf r).
  destruct (f blank) as [d|e]; simpl; [|reflexivity].
  rewrite (Hg (merge r d)), (Hg d).
  destruct (g blank) as [d'|e]; simpl; [|reflexivity].
  now rewrite merge_assoc.
Qed.

Lemma framed_bind {A : Type} (m : outcome A)
    (f : A -> ValidationResult -> outcome ValidationResult) :
  (forall a, framed (f a)) -> framed (fun r => a <- m ;; f a r).
Proof.
  intros Hf r. destruct m as [a|e]; simpl; [apply Hf | reflexivity].
Qed.

Lemma framed_fold_left {A : Type} (step : ValidationResult -> A -> ValidationResult)
    (l : list A) :
  (forall a, framed (fun r => Ok (step r a))) ->
  framed (fun r => Ok (fold_left step l r)).
Proof.
  intros Hs. induction l as [|a l IH]; simpl.
  - apply framed_Ok.
  - apply (framed_then (fun r => Ok (step r a)) (fun r => Ok (fold_left step l r)));
      auto.
Qed.

Lemma framed_for_each {A : Type} (body : A -> ValidationResult -> outcome ValidationResult)
    (l : list A) :
  (forall a, framed (body a)) -> framed (for_each body l).
Proof.
  intros Hb. induction l as [|a l IH]; simpl.
  - apply framed_Ok.
  - apply (framed_then (body a) (for_each body l)); auto.
Qed.

Lemma framed_for_enumerate {A : Type}
    (body : nat -> A -> ValidationResult -> outcome ValidationResult) (l : list A) :
  (forall i a, framed (body i a)) -> forall i, framed (for_enumerate body i l).
Proof.
  intros Hb. induction l as [|a l IH]; intros i; simpl.
  - apply framed_Ok.
  - apply (framed_then (body i a) (for_enumerate body (S i) l)); auto.
Qed.

Create Rewrite HintDb frame.

#[export] Hint Rewrite merge_append_error merge_append_warning merge_set_invalid
  merge_blank : frame.

Ltac frame_pure :=
  let r := fresh "r" in
  intros r; cbn [bind];
  repeat match goal with
         | |- context [if ?b then _ else _] => destruct b
         end;
  autorewrite with frame; reflexivity.

Ltac frame_step :=
  match goal with
  | |- framed (fun r => Ok (fold_left _ _ r)) => apply framed_fold_left; intros
  | |- framed (fun r => Ok _) => frame_pure
  | |- framed (fun r => Raise _) => intros ?; reflexivity
  | |- framed (fun r => if ?b then _ else _) => destruct b
  | |- framed (fun r => match ?x with _ => _ end) => destruct x
  | |- framed (for_each _ _) => apply framed_for_each; intros
  | |- framed (fun r => for_each _ _ r) => apply framed_for_each; intros
  | |- framed (for_enumerate _ _ _) => apply framed_for_enumerate; intros
  | |- framed (fun r => for_enumerate _ _ _ r) => apply framed_for_enumerate; intros
  | |- framed (fun r => let x := _ in _) => cbv zeta
  | |- framed (fun r => bind _ _) => first [apply framed_bind; intros | apply framed_then]
  end.

Lemma framed_validate_ingredient (ingredient : json) (index : nat) :
  framed (_validate_ingredient ingredient index).
Proof.
  unfold _validate_ingredient. repeat frame_step.
Qed.

Lemma framed_validate_step (step : json) (index : nat) :
  framed (_validate_step step index).
Proof.
  unfold _validate_step. repeat frame_step.
Qed.

Lemma framed_check_target (ingredient_ids step_ids : pyset) (step target : json) :
  framed (check_target ingredient_ids step_ids step target).
Proof.
  unfold check_target. repeat frame_step.
Qed.

Lemma framed_check_step_targets (ingredient_ids step_ids : pyset) (step : json) :
  framed (check_step_targets ingredient_ids step_ids step).
Proof.
  unfold check_step_targets. repeat frame_step. apply framed_check_target.
Qed.

Lemma framed_check_device_profile_ref (device_ids : pyset) (step : json) :
  framed (check_device_profile_ref device_ids step).
Proof.
  unfold check_device_profile_ref. repeat frame_step.
Qed.

Lemma framed_validate_references (recipe : json) :
  framed (_validate_references recipe).
Proof.
  unfold _validate_references. repeat frame_step.
  - apply framed_check_step_targets.
  - apply framed_check_device_profile_ref.
Qed.

Lemma framed_validate_custom_rules (self : RCIPValidator) (recipe : json) :
  framed (_validate_custom_rules self recipe).
Proof.
  unfold _validate_custom_rules. repeat frame_step.
  all: first [apply framed_validate_ingredient | apply framed_validate_step
             | apply framed_validate_references | idtac].
  all: repeat frame_step.
Qed.

Lemma framed_inv (f : ValidationResult -> outcome ValidationResult)
    (r r' : ValidationResult) :
  framed f -> f r = Ok r' -> exists d, f blank = Ok d /\ r' = merge r d.
Proof.
  intros Hf H. rewrite (Hf r) in H.
  destruct (f blank) as [d|e]; simpl in H; [|discriminate].
  exists d. split; [reflexivity | congruence].
Qed.

Lemma framed_run (f : ValidationResult -> outcome ValidationResult)
    (r d : ValidationResult) :
  framed f -> f blank = Ok d -> f r = Ok (merge r d).
Proof.
  intros Hf H. rewrite (Hf r), H. reflexivity.
Qed.

(** ** The shape of [validate_recipe] *)

Lemma validate_recipe_eq (self : RCIPValidator) (v : Draft7Validator) (recipe : json) :
  validator self = Some v ->
  validate_recipe self recipe =
  (d <- _validate_custom_rules self recipe blank ;;
   w <- _check_warnings recipe ;;
   i <- _get_recipe_info recipe ;;
   let r := assembled (schema_stage v recipe blank) d w i in
   Ok (r, counted self (valid r))).
Proof.
  intros Hv. unfold validate_recipe. rewrite Hv.
  change {| valid := true; errors := []; warnings := []; info := [] |} with blank.
  rewrite (framed_validate_custom_rules self recipe (schema_stage v recipe blank)).
  destruct (_validate_custom_rules self recipe blank) as [d|e]; simpl; [|reflexivity].
  destruct (_check_warnings recipe) as [w|e]; simpl; [|reflexivity].
  destruct (_get_recipe_info recipe) as [i|e]; simpl; [|reflexivity].
  unfold counted. rewrite Hv. reflexivity.
Qed.

Lemma validate_recipe_inv (self self' : RCIPValidator) (recipe : json)
    (r : ValidationResult) :
  validate_recipe self recipe = Ok (r, self') ->
  exists v d w i,
    validator self = Some v /\
    _validate_custom_rules self recipe blank = Ok d /\
    _check_warnings recipe = Ok w /\
    _get_recipe_info recipe = Ok i /\
    r = assembled (schema_stage v recipe blank) d w i /\
    self' = counted self (valid r).
Proof.
  intros H. destruct (validator self) as [v|] eqn:Hv.
  - rewrite (validate_recipe_eq self v recipe Hv) in H.
    destruct (_validate_custom_rules self recipe blank) as [d|e]; [|discriminate].
    destruct (_check_warnings recipe) as [w|e]; [|discriminate].
    destruct (_get_recipe_info recipe) as [i|e]; [|discriminate].
    simpl in H. inversion H; subst. exists v, d, w, i. repeat split; auto.
  - unfold validate_recipe in H. rewrite Hv in H. discriminate.
Qed.

Lemma custom_rules_schema_version (a b : RCIPValidator) (recipe : json)
    (r : ValidationResult) :
  schema_version a = schema_version b ->
  _validate_custom_rules a recipe r = _validate_custom_rules b recipe r.
Proof.
  intros H. unfold _validate_custom_rules. rewrite H. reflexivity.
Qed.

(** ** Idempotence *)

(** C8. Calling [validate_recipe] again on the same document, with the
    validator the first call left behind, returns the same result: the same
    [errors], [warnings] and [info] (and the same [valid]); the first call
    changed nothing of the validator but its [stats]. *)
Theorem validate_recipe_twice (self self1 : RCIPValidator) (recipe : json)
    (r1 : ValidationResult) :
  validate_recipe self recipe = Ok (r1, self1) ->
  schema_version self1 = schema_version self /\
  schema self1 = schema self /\
  validator self1 = validator self /\
  exists r2 self2,
    validate_recipe self1 recipe = Ok (r2, self2) /\
    errors r2 = errors r1 /\ warnings r2 = warnings r1 /\ info r2 = info r1 /\
    valid r2 = valid r1.
Proof.
  intros H.
  destruct (validate_recipe_inv _ _ _ _ H) as (v & d & w & i & Hv & Hd & Hw & Hi & Hr & Hs).
  subst self1. repeat split.
  exists r1, (counted (counted self (valid r1)) (valid r1)). split; [|auto].
  rewrite (validate_recipe_eq (counted self (valid r1)) v recipe Hv).
  rewrite (custom_rules_schema_version (counted self (valid r1)) self) by reflexivity.
  rewrite Hd, Hw, Hi. cbv zeta. cbn [bind]. rewrite <- Hr. reflexivity.
Qed.

Lemma validate_recipe_twice_witness :
  exists r self1 self2,
    validate_recipe sample_validator recipe_other_version = Ok (r, self1) /\
    validate_recipe self1 recipe_other_version = Ok (r, self2) /\
    stats self1 <> stats self2.
Proof.
  destruct (validate_recipe sample_validator recipe_other_version)
    as [[r self1]|e] eqn:E; [|vm_compute in E; discriminate].
  destruct (validate_recipe_twice _ _ _ _ E) as (_ & _ & _ & r2 & self2 & E2 & _).
  exists r, self1, self2. split; [reflexivity|].
  vm_compute in E. inversion E; subst. vm_compute in E2. inversion E2; subst.
  split; [reflexivity | discriminate].
Defined.

(** ** The session counters *)

Lemma count_balanced (b : bool) (s : ValidationStats) :
  validated s = passed s + failed s ->
  validated (count b s) = passed (count b s) + failed (count b s).
Proof.
  intros H. unfold count. destruct b; simpl; lia.
Qed.

Lemma perform_balanced (self : RCIPValidator) (c : call) :
  validated (stats self) = passed (stats self) + failed (stats self) ->
  validated (stats (perform self c))
  = passed (stats (perform self c)) + failed (stats (perform self c)).
Proof.
  intros H. destruct c as [recipe|]; simpl; [|reflexivity].
  destruct (validate_recipe self recipe) as [[r self']|e] eqn:E; [|exact H].
  destruct (validate_recipe_inv _ _ _ _ E) as (v & d & w & i & _ & _ & _ & _ & _ & Hs).
  subst self'. simpl. now apply count_balanced.
Qed.

Lemma session_balanced (calls : list call) (self : RCIPValidator) :
  validated (stats self) = passed (stats self) + failed (stats self) ->
  validated (stats (session self calls))
  = passed (stats (session self calls)) + failed (stats (session self calls)).
Proof.
  unfold session. revert self.
  induction calls as [|c calls IH]; intros self H; simpl; [exact H|].
  apply IH. now apply perform_balanced.
Qed.

(** C9. After any sequence of [validate_recipe] and [reset_stats] calls on a
    freshly initialised validator, [validated = passed + failed].  A call of
    [validate_recipe] that returns adds one to [validated], and one to
    [passed] when the result is valid, to [failed] otherwise; a call that
    raises changes no counter; [reset_stats] sets the three to zero, and
    [init] leaves them as they are. *)
Theorem stats_accounting :
  (forall (version : string) (loaded : json) (make : json -> Draft7Validator)
          (calls : list call),
     let self := session (init loaded make (__init__ version)) calls in
     validated (stats self) = passed (stats self) + failed (stats self)) /\
  (forall (self : RCIPValidator) (recipe : json),
     match validate_recipe self recipe with
     | Ok (r, self') =>
         validated (stats self') = validated (stats self) + 1 /\
         passed (stats self') = passed (stats self) + (if valid r then 1 else 0) /\
         failed (stats self') = failed (stats self) + (if valid r then 0 else 1)
     | Raise _ => perform self (Validate recipe) = self
     end) /\
  (forall self : RCIPValidator,
     stats (reset_stats self) = {| validated := 0; passed := 0; failed := 0 |}) /\
  (forall (loaded : json) (make : json -> Draft7Validator) (self : RCIPValidator),
     stats (init loaded make self) = stats self).
Proof.
  repeat split.
  - intros version loaded make calls self. apply session_balanced. reflexivity.
  - intros self recipe.
    destruct (validate_recipe self recipe) as [[r self']|e] eqn:E.
    + destruct (validate_recipe_inv _ _ _ _ E) as (v & d & w & i & _ & _ & _ & _ & _ & Hs).
      subst self'. unfold counted, count; simpl. destruct (valid r); simpl; lia.
    + simpl. rewrite E. reflexivity.
Qed.

(** ** Findings only accumulate *)

Ltac bind_inv H :=
  match type of H with
  | bind ?m _ = Ok _ =>
      let a := fresh "a" in
      let E := fresh "E" in
      destruct m as [a|] eqn:E; [cbn [bind] in H | discriminate H]
  end.

(** Runs a computation in a hypothesis to its end, case by case. *)
Ltac run H :=
  repeat first
    [ progress cbn [bind negb] in H
    | discriminate H
    | match type of H with
      | bind (if ?b then _ else _) _ = _ => destruct b
      | bind (match ?x with _ => _ end) _ = _ => destruct x
      | bind ?m _ = Ok _ =>
          let a := fresh "a" in
          let E := fresh "E" in
          destruct m as [a|] eqn:E
      | (if ?b then _ else _) = _ => destruct b
      | match ?x with _ => _ end = Ok _ => destruct x
      end ].

Lemma In_push (l : list string) (x y : string) :
  In y (push l x) <-> In y l \/ y = x.
Proof.
  unfold push. rewrite in_app_iff. simpl. intuition congruence.
Qed.

Lemma In_errors_merge (r d : ValidationResult) (m : string) :
  In m (errors (merge r d)) <-> In m (errors r) \/ In m (errors d).
Proof. unfold merge; simpl. apply in_app_iff. Qed.

Lemma In_warnings_merge (r d : ValidationResult) (m : string) :
  In m (warnings (merge r d)) <-> In m (warnings r) \/ In m (warnings d).
Proof. unfold merge; simpl. apply in_app_iff. Qed.

Lemma within_refl (r : ValidationResult) : within r r.
Proof. unfold within. auto. Qed.

Lemma within_trans (a b c : ValidationResult) : within a b -> within b c -> within a c.
Proof. unfold within. intuition. Qed.

Lemma within_merge_l (r d : ValidationResult) : within r (merge r d).
Proof.
  unfold within. repeat split.
  - intros m Hm. rewrite In_errors_merge. auto.
  - intros m Hm. rewrite In_warnings_merge. auto.
  - intros Hv. unfold merge; simpl. now rewrite Hv.
Qed.

Lemma within_merge_r (r d : ValidationResult) : within d (merge r d).
Proof.
  unfold within. repeat split.
  - intros m Hm. rewrite In_errors_merge. auto.
  - intros m Hm. rewrite In_warnings_merge. auto.
  - intros Hv. unfold merge; simpl. rewrite Hv. now rewrite andb_false_r.
Qed.

Lemma within_append_warning (r : ValidationResult) (m : string) :
  within r (append_warning m r).
Proof.
  unfold within, append_warning; simpl. repeat split; auto.
  intros m' Hm. apply In_push. auto.
Qed.

(** What one round of a loop finds is found by the loop. *)
Lemma for_each_In {A : Type} (body : A -> ValidationResult -> outcome ValidationResult)
    (l : list A) (x : A) (r r' : ValidationResult) :
  (forall a, framed (body a)) ->
  for_each body l r = Ok r' -> In x l ->
  exists d, body x blank = Ok d /\ within d r'.
Proof.
  intros Hb. revert r. induction l as [|a l IH]; intros r H Hin; [contradiction|].
  simpl in H. bind_inv H.
  destruct (framed_inv _ _ _ (Hb a) E) as (d & Hd & ->).
  destruct (framed_inv _ _ _ (framed_for_each body l Hb) H) as (dl & Hdl & ->).
  destruct Hin as [->|Hin].
  - exists d. split; [exact Hd|].
    eapply within_trans; [apply within_merge_r | apply within_merge_l].
  - destruct (IH _ H Hin) as (dx & Hdx & Hw).
    exists dx. split; [exact Hdx | exact Hw].
Qed.

Lemma for_enumerate_nth {A : Type}
    (body : nat -> A -> ValidationResult -> outcome ValidationResult)
    (l : list A) (n : nat) (x : A) (i : nat) (r r' : ValidationResult) :
  (forall i a, framed (body i a)) ->
  for_enumerate body i l r = Ok r' -> nth_error l n = Some x ->
  exists d, body (i + n)%nat x blank = Ok d /\ within d r'.
Proof.
  intros Hb. revert n i r. induction l as [|a l IH]; intros n i r H Hn.
  - destruct n; discriminate.
  - simpl in H. bind_inv H.
    destruct (framed_inv _ _ _ (Hb i a) E) as (d & Hd & ->).
    destruct (framed_inv _ _ _ (framed_for_enumerate body l Hb (S i)) H)
      as (dl & Hdl & ->).
    destruct n as [|n]; simpl in Hn.
    + inversion Hn; subst x. rewrite Nat.add_0_r.
      exists d. split; [exact Hd|].
      eapply within_trans; [apply within_merge_r | apply within_merge_l].
    + destruct (IH _ _ _ H Hn) as (dx & Hdx & Hw).
      exists dx. replace (i + S n)%nat with (S i + n)%nat by lia. auto.
Qed.

(** ** The warnings that are returned *)

Lemma Forall_push (P : string -> Prop) (l : list string) (x : string) :
  Forall P l -> P x -> Forall P (push l x).
Proof.
  intros Hl Hx. unfold push. apply Forall_app. split; [exact Hl | now constructor].
Qed.

Lemma Forall_if_push (P : string -> Prop) (b : bool) (l : list string) (x : string) :
  Forall P l -> P x -> Forall P (if b then push l x else l).
Proof.
  intros Hl Hx. destruct b; [now apply Forall_push | exact Hl].
Qed.

Lemma advisory_fixed (m : string) :
  In m ["Missing recommended field: meta.description";
        "Missing recommended field: meta.servings";
        "Missing recommended field: meta.difficulty";
        "No nutritional data provided for any ingredient";
        "No external IDs (USDA, GTIN, etc.) provided";
        "Device profiles defined but no sensors specified";
        "No images provided for recipe"] ->
  advisory m.
Proof. intros H. left. exact H. Qed.

(** Every message of [_check_warnings] is one of its eight advisories. *)
Lemma check_warnings_advisory (recipe : json) (w : list string) :
  _check_warnings recipe = Ok w -> Forall advisory w.
Proof.
  unfold _check_warnings. intros H. repeat bind_inv H.
  inversion H; subst w; clear H.
  apply Forall_if_push; [|apply advisory_fixed; simpl; tauto].
  match goal with
  | E : (if ?b then _ else _) = Ok ?w |- Forall advisory ?w =>
      assert (Hw : Forall advisory w); [|exact Hw];
      destruct b; [bind_inv E|]; inversion E; subst; clear E
  end.
  1: apply Forall_push; [|right; do 2 eexists; reflexivity].
  all: repeat (apply Forall_if_push; [|apply advisory_fixed; simpl; tauto]).
  all: constructor.
Qed.

(** No advisory starts like the version warning or like a finding on a step. *)
Lemma advisory_not_version (m rest : string) :
  advisory m -> m <> "Recipe version " ++ rest.
Proof.
  intros [H|(t & h & ->)]; simpl in *; [|discriminate].
  intuition (subst; discriminate).
Qed.

Lemma advisory_not_step (m rest : string) :
  advisory m -> m <> "Step " ++ rest.
Proof.
  intros [H|(t & h & ->)]; simpl in *; [|discriminate].
  intuition (subst; discriminate).
Qed.

Lemma returned_warnings (self self' : RCIPValidator) (recipe : json)
    (r : ValidationResult) :
  validate_recipe self recipe = Ok (r, self') ->
  _check_warnings recipe = Ok (warnings r).
Proof.
  intros H.
  destruct (validate_recipe_inv _ _ _ _ H) as (v & d & w & i & _ & _ & Hw & _ & -> & _).
  exact Hw.
Qed.

(** ** The stages of the custom rules *)

Lemma references_inv (recipe : json) (d : ValidationResult) :
  _validate_references recipe blank = Ok d ->
  exists ingredients ingredient_ids steps step_ids device_profiles device_ids d1 d2,
    items_of recipe "ingredients" = Ok ingredients /\
    id_set "id" ingredients = Ok ingredient_ids /\
    items_of recipe "steps" = Ok steps /\
    id_set "step_id" steps = Ok step_ids /\
    items_of recipe "device_profiles" = Ok device_profiles /\
    id_set "id" device_profiles = Ok device_ids /\
    for_each (check_step_targets ingredient_ids step_ids) steps blank = Ok d1 /\
    for_each (check_device_profile_ref device_ids) steps blank = Ok d2 /\
    d = merge d1 d2.
Proof.
  unfold _validate_references. intros H. repeat bind_inv H.
  destruct (framed_inv _ _ _
              (framed_for_each _ _ (framed_check_device_profile_ref _)) H)
    as (d2 & Hd2 & ->).
  do 8 eexists. repeat split; eauto.
Qed.

Lemma custom_rules_inv (self : RCIPValidator) (recipe : json) (d : ValidationResult) :
  _validate_custom_rules self recipe blank = Ok d ->
  exists ingredients steps d1 d2 d3,
    items_of recipe "ingredients" = Ok ingredients /\
    items_of recipe "steps" = Ok steps /\
    for_enumerate (fun i ingredient => _validate_ingredient ingredient i) 0
      ingredients blank = Ok d1 /\
    for_enumerate (fun i step => _validate_step step i) 0 steps blank = Ok d2 /\
    _validate_references recipe blank = Ok d3 /\
    within d1 d /\ within d2 d /\ within d3 d.
Proof.
  unfold _validate_custom_rules. intros H. repeat bind_inv H.
  match goal with
  | E : for_enumerate (fun i ingredient => _validate_ingredient ingredient i) _ _ _ = Ok _ |- _ =>
      destruct (framed_inv _ _ _
                  (framed_for_enumerate _ _
                     (fun i x => framed_validate_ingredient x i) 0) E)
        as (d1 & Hd1 & ->)
  end.
  match goal with
  | E : for_enumerate (fun i step => _validate_step step i) _ _ _ = Ok _ |- _ =>
      destruct (framed_inv _ _ _
                  (framed_for_enumerate _ _
                     (fun i x => framed_validate_step x i) 0) E)
        as (d2 & Hd2 & ->)
  end.
  match goal with
  | E : _validate_references _ _ = Ok _ |- _ =>
      destruct (framed_inv _ _ _ (framed_validate_references recipe) E)
        as (d3 & Hd3 & ->)
  end.
  assert (Hlast : exists r4, within r4 d /\ within d1 r4 /\ within d2 r4 /\ within d3 r4).
  { match goal with
    | E : _validate_references _ (merge _ _) = Ok ?r |- _ => exists r
    end.
    split.
    - match goal with
      | H : (if ?b then _ else _) = Ok d |- _ =>
          destruct b;
          [bind_inv H;
           match type of H with (if ?c then _ else _) = _ => destruct c end|];
          inversion H; subst;
          first [apply within_refl | apply within_append_warning]
      end.
    - split; [|split].
      + eapply within_trans; [apply within_merge_r|].
        eapply within_trans; apply within_merge_l.
      + eapply within_trans; [apply within_merge_r|]. apply within_merge_l.
      + apply within_merge_r. }
  destruct Hlast as (r4 & H4 & H1 & H2 & H3).
  do 5 eexists.
  repeat (split; [first [eassumption | reflexivity]|]).
  split; [|split]; eapply within_trans; eassumption.
Qed.

(** ** Validity and the list of errors *)

(** The configured version matters to the warnings of the custom rules only. *)
Lemma custom_rules_findings (a b : RCIPValidator) (recipe : json) (r : ValidationResult) :
  match _validate_custom_rules a recipe r, _validate_custom_rules b recipe r with
  | Ok x, Ok y => valid x = valid y /\ errors x = errors y
  | Raise e, Raise e' => e = e'
  | _, _ => False
  end.
Proof.
  unfold _validate_custom_rules.
  repeat match goal with
         | |- context [bind ?m _] =>
             match m with
             | bind _ _ => fail 1
             | _ => destruct m; cbn [bind]; [|reflexivity]
             end
         end.
  repeat match goal with
         | |- context [if ?c then _ else _] => destruct c; cbn [bind]
         end;
    try reflexivity; auto.
  all: repeat match goal with
         | |- context [bind ?m _] => destruct m; cbn [bind]; [|reflexivity]
         end;
    repeat match goal with
         | |- context [if ?c then _ else _] => destruct c; cbn [bind]
         end; auto.
Qed.

(** C1. The claim [valid == (errors == [])] fails on the code: for a
    document that the schema accepts and whose only defect is a step that
    targets the undeclared ingredient [ing-2], [validate_recipe] returns
    [valid = true] together with one error.  The branches that report a
    dangling reference, an unknown allergen, a bad machine amount or an
    unknown action append to [errors] without setting [valid] to false. *)
Theorem valid_with_errors (self : RCIPValidator) (v : Draft7Validator) :
  validator self = Some v ->
  validate v recipe_dangling_ingredient = None ->
  exists r self',
    validate_recipe self recipe_dangling_ingredient = Ok (r, self') /\
    valid r = true /\
    errors r = ["Step s-1: Invalid ingredient reference 'ing-2'"].
Proof.
  intros Hv Hs.
  rewrite (validate_recipe_eq self v _ Hv).
  pose proof (custom_rules_findings self sample_validator
                recipe_dangling_ingredient blank) as Hc.
  assert (H0 : exists d0,
             _validate_custom_rules sample_validator recipe_dangling_ingredient blank
             = Ok d0 /\ valid d0 = true
             /\ errors d0 = ["Step s-1: Invalid ingredient reference 'ing-2'"])
    by (eexists; split; [vm_compute; reflexivity | split; reflexivity]).
  destruct H0 as (d0 & E0 & Hval0 & Herr0). rewrite E0 in Hc.
  destruct (_validate_custom_rules self recipe_dangling_ingredient blank)
    as [d|e]; [|contradiction].
  destruct Hc as [Hval Herr]. rewrite Hval0 in Hval. rewrite Herr0 in Herr.
  assert (Hw : exists w, _check_warnings recipe_dangling_ingredient = Ok w)
    by (eexists; vm_compute; reflexivity).
  assert (Hi : exists i, _get_recipe_info recipe_dangling_ingredient = Ok i)
    by (eexists; vm_compute; reflexivity).
  destruct Hw as [w ->], Hi as [i ->]. cbn [bind]. cbv zeta.
  do 2 eexists. split; [reflexivity|].
  unfold assembled, schema_stage. rewrite Hs. simpl. rewrite Hval, Herr.
  split; reflexivity.
Qed.

Lemma valid_with_errors_witness :
  exists r self',
    validate_recipe sample_validator recipe_dangling_ingredient = Ok (r, self') /\
    valid r = true /\
    errors r = ["Step s-1: Invalid ingredient reference 'ing-2'"].
Proof.
  apply (valid_with_errors sample_validator accept_all); reflexivity.
Defined.

(** ** Warnings of the custom rules *)

Lemma getitem_contains (c v : json) (k : string) :
  py_getitem c k = Ok v -> py_contains k c = Ok true.
Proof.
  destruct c; simpl; try discriminate.
  unfold has_key. destruct (lookup k d); [reflexivity | discriminate].
Qed.

Lemma custom_rules_version_warning (self : RCIPValidator) (recipe version : json)
    (d : ValidationResult) :
  _validate_custom_rules self recipe blank = Ok d ->
  py_getitem recipe "rcip_version" = Ok version ->
  eq_str (schema_version self) version = false ->
  In ("Recipe version " ++ py_str version
        ++ " may not be fully compatible with validator version "
        ++ schema_version self) (warnings d).
Proof.
  unfold _validate_custom_rules. intros H Hg Hne.
  rewrite (getitem_contains _ _ _ Hg), Hg in H.
  repeat bind_inv H. rewrite Hne in H. simpl in H.
  inversion H; subst d. simpl. apply In_push. right. reflexivity.
Qed.

Lemma version_rule_findings (self : RCIPValidator) (recipe : json)
    (r r' : ValidationResult) :
  version_rule self recipe r = Ok r' -> valid r' = valid r /\ errors r' = errors r.
Proof.
  unfold version_rule. intros H. run H; inversion H; subst r'; split; reflexivity.
Qed.

(** C2. The version warning does not reach the caller.  When the document
    declares an [rcip_version] other than the configured schema version,
    [_validate_custom_rules] does append the warning to the result, but
    [validate_recipe] then overwrites [result.warnings] with the list of
    [_check_warnings], so the returned warnings never contain it.  The
    version check itself leaves [valid] and [errors] as they are. *)
Theorem version_warning_lost (self self' : RCIPValidator) (recipe version : json)
    (r : ValidationResult) :
  validate_recipe self recipe = Ok (r, self') ->
  py_getitem recipe "rcip_version" = Ok version ->
  eq_str (schema_version self) version = false ->
  let msg := "Recipe version " ++ py_str version
               ++ " may not be fully compatible with validator version "
               ++ schema_version self in
  (exists d, _validate_custom_rules self recipe blank = Ok d /\ In msg (warnings d)) /\
  ~ In msg (warnings r) /\
  (forall r0 r1, version_rule self recipe r0 = Ok r1 ->
                 valid r1 = valid r0 /\ errors r1 = errors r0).
Proof.
  intros H Hg Hne msg.
  pose proof (returned_warnings _ _ _ _ H) as Hw.
  destruct (validate_recipe_inv _ _ _ _ H) as (v & d & w & i & _ & Hd & _ & _ & _ & _).
  split; [|split].
  - exists d. split; [exact Hd|].
    apply (custom_rules_version_warning self recipe version d); assumption.
  - intros Hin.
    pose proof (check_warnings_advisory _ _ Hw) as Ha.
    rewrite Forall_forall in Ha.
    exact (advisory_not_version _ _ (Ha _ Hin) eq_refl).
  - intros r0 r1. apply version_rule_findings.
Qed.

Lemma version_warning_lost_witness :
  exists r self',
    validate_recipe sample_validator recipe_other_version = Ok (r, self') /\
    ~ In "Recipe version 0.2 may not be fully compatible with validator version 0.1"
        (warnings r).
Proof.
  destruct (validate_recipe sample_validator recipe_other_version)
    as [[r self']|e] eqn:E; [|vm_compute in E; discriminate].
  exists r, self'. split; [reflexivity|].
  exact (proj1 (proj2 (version_warning_lost sample_validator self' recipe_other_version
                         (JStr "0.2") r E eq_refl eq_refl))).
Defined.

Lemma custom_rules_device_warning (self : RCIPValidator) (recipe ref : json)
    (steps : list json) (step : pydict) (d : ValidationResult) :
  _validate_custom_rules self recipe blank = Ok d ->
  items_of recipe "steps" = Ok steps ->
  In (JDict step) steps ->
  lookup "device_profile_ref" step = Some ref ->
  (forall profiles device_ids,
     items_of recipe "device_profiles" = Ok profiles ->
     id_set "id" profiles = Ok device_ids ->
     set_mem ref device_ids = Ok false) ->
  In ("Step " ++ attribution step ++ ": Unknown device profile '" ++ py_str ref ++ "'")
     (warnings d).
Proof.
  intros Hd Hsteps Hin Href Hnot.
  destruct (custom_rules_inv _ _ _ Hd)
    as (ings & steps' & d1 & d2 & d3 & _ & Hs' & _ & _ & Hr & _ & _ & H3).
  destruct (references_inv _ _ Hr)
    as (ings2 & iids & steps2 & sids & dps & dids & t1 & t2
        & _ & _ & Hs2 & _ & Hdps & Hdids & _ & Hdev & ->).
  rewrite Hsteps in Hs2. inversion Hs2; subst steps2.
  destruct (for_each_In _ _ _ _ _ (framed_check_device_profile_ref dids) Hdev Hin)
    as (dx & Hdx & Hwx).
  apply H3. apply In_warnings_merge. right. apply Hwx.
  unfold check_device_profile_ref in Hdx. simpl in Hdx.
  unfold has_key in Hdx. rewrite Href in Hdx. cbn [bind] in Hdx.
  rewrite (Hnot _ _ Hdps Hdids) in Hdx. simpl in Hdx.
  inversion Hdx; subst dx. simpl. left.
  unfold attribution. destruct (lookup "step_id" step); reflexivity.
Qed.

Lemma device_loop_findings (device_ids : pyset) (steps : list json)
    (r r' : ValidationResult) :
  for_each (check_device_profile_ref device_ids) steps r = Ok r' ->
  valid r' = valid r /\ errors r' = errors r.
Proof.
  revert r. induction steps as [|step steps IH]; intros r H; simpl in H.
  - inversion H; subst. split; reflexivity.
  - bind_inv H. destruct (IH _ H) as [-> ->].
    unfold check_device_profile_ref in E.
    run E; inversion E; subst a; split; reflexivity.
Qed.

(** C3. The warning about an unknown device profile does not reach the
    caller either.  For a step whose [device_profile_ref] is not in the set
    of declared device profile ids, [_validate_references] appends the
    warning, and it is lost when [validate_recipe] overwrites
    [result.warnings]: the returned warnings never contain it.  The check of
    the device profile references adds no error and leaves [valid] as it
    is. *)
Theorem device_warning_lost (self self' : RCIPValidator) (recipe ref : json)
    (steps : list json) (step : pydict) (r : ValidationResult) :
  validate_recipe self recipe = Ok (r, self') ->
  items_of recipe "steps" = Ok steps ->
  In (JDict step) steps ->
  lookup "device_profile_ref" step = Some ref ->
  (forall profiles device_ids,
     items_of recipe "device_profiles" = Ok profiles ->
     id_set "id" profiles = Ok device_ids ->
     set_mem ref device_ids = Ok false) ->
  let msg := "Step " ++ attribution step ++ ": Unknown device profile '"
               ++ py_str ref ++ "'" in
  (exists d, _validate_custom_rules self recipe blank = Ok d /\ In msg (warnings d)) /\
  ~ In msg (warnings r) /\
  (forall device_ids r0 r1,
     for_each (check_device_profile_ref device_ids) steps r0 = Ok r1 ->
     valid r1 = valid r0 /\ errors r1 = errors r0).
Proof.
  intros H Hsteps Hin Href Hnot msg.
  pose proof (returned_warnings _ _ _ _ H) as Hw.
  destruct (validate_recipe_inv _ _ _ _ H) as (v & d & w & i & _ & Hd & _ & _ & _ & _).
  split; [|split].
  - exists d. split; [exact Hd|].
    now apply (custom_rules_device_warning self recipe ref steps step d).
  - intros Hi.
    pose proof (check_warnings_advisory _ _ Hw) as Ha.
    rewrite Forall_forall in Ha.
    exact (advisory_not_step _ _ (Ha _ Hi) eq_refl).
  - intros device_ids r0 r1. apply device_loop_findings.
Qed.

Lemma device_warning_lost_witness :
  exists r self',
    validate_recipe sample_validator recipe_unknown_device = Ok (r, self') /\
    ~ In "Step s-1: Unknown device profile 'oven-1'" (warnings r).
Proof.
  destruct (validate_recipe sample_validator recipe_unknown_device)
    as [[r self']|e] eqn:E; [|vm_compute in E; discriminate].
  exists r, self'. split; [reflexivity|].
  refine (proj1 (proj2 (device_warning_lost sample_validator self'
                          recipe_unknown_device (JStr "oven-1") _
                          [("step_id", JStr "s-1"); ("action", JStr "heat");
                           ("target", JList [JStr "ing-1"]);
                           ("device_profile_ref", JStr "oven-1")]
                          r E eq_refl _ eq_refl _))).
  - left. reflexivity.
  - intros profiles device_ids Hp Hi.
    vm_compute in Hp. inversion Hp; subst profiles.
    vm_compute in Hi. inversion Hi; subst device_ids. reflexivity.
Defined.

(** ** An invalid result has an error *)

Lemma sound_append_error (m : string) (r : ValidationResult) : sound (append_error m r).
Proof.
  intros _. unfold append_error, push; simpl. intros H.
  apply app_eq_nil in H. destruct H as [_ H]. discriminate.
Qed.

Lemma sound_append_warning (m : string) (r : ValidationResult) :
  sound r -> sound (append_warning m r).
Proof. unfold sound, append_warning; simpl. auto. Qed.

Lemma keeps_then (f g : ValidationResult -> outcome ValidationResult) :
  keeps f -> keeps g -> keeps (fun r => r' <- f r ;; g r').
Proof.
  intros Hf Hg r r' Hs H. bind_inv H. eauto.
Qed.

Lemma keeps_bind {A : Type} (m : outcome A)
    (f : A -> ValidationResult -> outcome ValidationResult) :
  (forall a, keeps (f a)) -> keeps (fun r => a <- m ;; f a r).
Proof.
  intros Hf r r' Hs H. bind_inv H. exact (Hf a r r' Hs H).
Qed.

Lemma keeps_fold_left {A : Type} (step : ValidationResult -> A -> ValidationResult)
    (l : list A) :
  (forall a r, sound r -> sound (step r a)) ->
  keeps (fun r => Ok (fold_left step l r)).
Proof.
  intros Hs r r' Hr H. inversion H; subst r'; clear H.
  revert r Hr. induction l as [|a l IH]; intros r Hr; simpl; auto.
Qed.

Lemma keeps_for_each {A : Type} (body : A -> ValidationResult -> outcome ValidationResult)
    (l : list A) :
  (forall a, keeps (body a)) -> keeps (for_each body l).
Proof.
  intros Hb. induction l as [|a l IH]; intros r r' Hs H; simpl in H.
  - inversion H; subst; exact Hs.
  - bind_inv H. exact (IH _ _ (Hb a _ _ Hs E) H).
Qed.

Lemma keeps_for_enumerate {A : Type}
    (body : nat -> A -> ValidationResult -> outcome ValidationResult) (l : list A) :
  (forall i a, keeps (body i a)) -> forall i, keeps (for_enumerate body i l).
Proof.
  intros Hb. induction l as [|a l IH]; intros i r r' Hs H; simpl in H.
  - inversion H; subst; exact Hs.
  - bind_inv H. exact (IH _ _ _ (Hb i a _ _ Hs E) H).
Qed.

Ltac keep_pure :=
  let r := fresh "r" in
  let r' := fresh "r'" in
  let Hs := fresh "Hs" in
  let H := fresh "H" in
  intros r r' Hs H; inversion H; subst r'; clear H;
  repeat match goal with
         | |- context [if ?b then _ else _] => destruct b
         end;
  repeat first [assumption | apply sound_append_error | apply sound_append_warning].

Ltac keep_step :=
  match goal with
  | |- keeps (fun r => Ok (fold_left _ _ r)) =>
      apply keeps_fold_left; intros;
      repeat match goal with
             | |- context [if ?b then _ else _] => destruct b
             end;
      first [assumption | apply sound_append_error | apply sound_append_warning;
                                                     assumption]
  | |- keeps (fun r => Ok _) => keep_pure
  | |- keeps (fun r => Raise _) => intros ? ? ? ?; discriminate
  | |- keeps (fun r => if ?b then _ else _) => destruct b
  | |- keeps (fun r => match ?x with _ => _ end) => destruct x
  | |- keeps (for_each _ _) => apply keeps_for_each; intros
  | |- keeps (fun r => for_each _ _ r) => apply keeps_for_each; intros
  | |- keeps (for_enumerate _ _ _) => apply keeps_for_enumerate; intros
  | |- keeps (fun r => for_enumerate _ _ _ r) => apply keeps_for_enumerate; intros
  | |- keeps (fun r => let x := _ in _) => cbv zeta
  | |- keeps (fun r => bind _ _) => first [apply keeps_bind; intros | apply keeps_then]
  end.

Lemma keeps_validate_ingredient (ingredient : json) (index : nat) :
  keeps (_validate_ingredient ingredient index).
Proof. unfold _validate_ingredient. repeat keep_step. Qed.

Lemma keeps_validate_step (step : json) (index : nat) :
  keeps (_validate_step step index).
Proof. unfold _validate_step. repeat keep_step. Qed.

Lemma keeps_validate_references (recipe : json) : keeps (_validate_references recipe).
Proof.
  unfold _validate_references, check_step_targets, check_device_profile_ref.
  repeat keep_step. unfold check_target. repeat keep_step.
Qed.

Lemma keeps_validate_custom_rules (self : RCIPValidator) (recipe : json) :
  keeps (_validate_custom_rules self recipe).
Proof.
  unfold _validate_custom_rules. repeat keep_step.
  all: first [apply keeps_validate_ingredient | apply keeps_validate_step
             | apply keeps_validate_references | idtac].
  all: repeat keep_step.
Qed.

Lemma sound_schema_stage (v : Draft7Validator) (recipe : json) :
  sound (schema_stage v recipe blank).
Proof.
  unfold schema_stage. destruct (validate v recipe) as [message|].
  - set (r0 := append_error ("Schema validation failed: " ++ message)
                 (set_invalid blank)).
    assert (H0 : sound r0) by apply sound_append_error.
    revert H0. generalize r0. clear r0.
    induction (iter_errors v recipe) as [|e l IH]; intros r0 H0; simpl; [exact H0|].
    apply IH. apply sound_append_error.
  - intros H. discriminate.
Qed.

(** Whenever the returned result is invalid, it has an error; what fails is
    the converse. *)
Lemma invalid_has_errors (self self' : RCIPValidator) (recipe : json)
    (r : ValidationResult) :
  validate_recipe self recipe = Ok (r, self') ->
  valid r = false -> errors r <> [].
Proof.
  intros H Hv.
  destruct (validate_recipe_inv _ _ _ _ H) as (v & d & w & i & _ & Hd & _ & _ & -> & _).
  unfold assembled in *; simpl in *. intros He.
  apply app_eq_nil in He. destruct He as [He1 He2].
  apply andb_false_iff in Hv. destruct Hv as [Hv|Hv].
  - exact (sound_schema_stage v recipe Hv He1).
  - assert (Hb : sound blank) by (intros Hb; discriminate).
    exact (keeps_validate_custom_rules self recipe blank d Hb Hd Hv He2).
Qed.

(** ** Sets of identifiers *)

Lemma py_eq_str (t : string) (v : json) : py_eq (JStr t) v = true -> v = JStr t.
Proof.
  destruct v; simpl; try discriminate.
  intros H. apply String.eqb_eq in H. now subst.
Qed.

Lemma existsb_py_eq_str (t : string) (s : pyset) :
  existsb (py_eq (JStr t)) s = true -> In (JStr t) s.
Proof.
  intros H. apply existsb_exists in H. destruct H as (v & Hin & Heq).
  apply py_eq_str in Heq. now subst.
Qed.

Lemma set_add_str (t : string) (v : json) (s s' : pyset) :
  set_add v s = Ok s' -> In (JStr t) s' -> In (JStr t) s \/ v = JStr t.
Proof.
  unfold set_add. destruct (hashable v); [|discriminate].
  destruct (existsb (py_eq v) s); intros H Hin; inversion H; subst s'; auto.
  apply in_app_iff in Hin. destruct Hin as [Hin|[Hv|[]]]; auto.
Qed.

(** A string in the set built by [id_set] is the identifier of an item. *)
Lemma id_set_str (field t : string) (items : list json) (s : pyset) :
  id_set field items = Ok s -> In (JStr t) s ->
  exists x, In x items /\ py_getitem x field = Ok (JStr t).
Proof.
  unfold id_set.
  assert (G : forall s0,
             for_each
               (fun x s =>
                  has <- py_contains field x ;;
                  if has then (v <- py_getitem x field ;; set_add v s) else Ok s)
               items s0 = Ok s ->
             In (JStr t) s ->
             In (JStr t) s0 \/ exists x, In x items /\ py_getitem x field = Ok (JStr t)).
  { induction items as [|x items IH]; intros s0 H Hin; simpl in H.
    - inversion H; subst. auto.
    - bind_inv H. bind_inv E.
      destruct (IH _ H Hin) as [Ha|(y & Hy & Hg)].
      + destruct a0.
        * bind_inv E.
          destruct (set_add_str _ _ _ _ E Ha) as [Hs | ->]; [auto|].
          right. exists x. split; [now left | assumption].
        * inversion E; subst. auto.
      + right. exists y. split; [now right | assumption]. }
  intros H Hin. destruct (G [] H Hin) as [[]|Hx]. exact Hx.
Qed.

Lemma set_mem_str (t : string) (s : pyset) :
  set_mem (JStr t) s = Ok (existsb (py_eq (JStr t)) s).
Proof. reflexivity. Qed.

(** ** Reference errors *)

Lemma returned_errors (self self' : RCIPValidator) (recipe : json)
    (r d : ValidationResult) (m : string) :
  validate_recipe self recipe = Ok (r, self') ->
  _validate_custom_rules self recipe blank = Ok d ->
  In m (errors d) -> In m (errors r).
Proof.
  intros H Hd Hm.
  destruct (validate_recipe_inv _ _ _ _ H) as (v & d' & w & i & _ & Hd' & _ & _ & -> & _).
  rewrite Hd in Hd'. inversion Hd'; subst d'.
  unfold assembled; simpl. apply in_app_iff. now right.
Qed.

(** The findings of [check_target] on one string of one step's [target]. *)
Lemma target_findings (self : RCIPValidator) (recipe : json) (steps targets : list json)
    (step : pydict) (t : string) (d : ValidationResult) :
  _validate_custom_rules self recipe blank = Ok d ->
  items_of recipe "steps" = Ok steps ->
  In (JDict step) steps ->
  lookup "target" step = Some (JList targets) ->
  In (JStr t) targets ->
  exists ingredients ingredient_ids step_ids dt,
    items_of recipe "ingredients" = Ok ingredients /\
    id_set "id" ingredients = Ok ingredient_ids /\
    id_set "step_id" steps = Ok step_ids /\
    check_target ingredient_ids step_ids (JDict step) (JStr t) blank = Ok dt /\
    within dt d.
Proof.
  intros Hd Hsteps Hin Htarget Ht.
  destruct (custom_rules_inv _ _ _ Hd)
    as (ings & steps' & d1 & d2 & d3 & _ & _ & _ & _ & Hr & _ & _ & H3).
  destruct (references_inv _ _ Hr)
    as (ings2 & iids & steps2 & sids & dps & dids & t1 & t2
        & Hi2 & Hiids & Hs2 & Hsids & _ & _ & Htargets & _ & ->).
  rewrite Hsteps in Hs2. inversion Hs2; subst steps2.
  destruct (for_each_In _ _ _ _ _ (framed_check_step_targets iids sids) Htargets Hin)
    as (ds & Hds & Hws).
  unfold check_step_targets in Hds. simpl in Hds.
  unfold has_key in Hds. rewrite Htarget in Hds. cbn [bind] in Hds.
  destruct (for_each_In _ _ _ _ _ (framed_check_target iids sids (JDict step)) Hds Ht)
    as (dt & Hdt & Hwt).
  exists ings2, iids, sids, dt. repeat (split; [assumption|]).
  eapply within_trans; [exact Hwt|].
  eapply within_trans; [exact Hws|].
  eapply within_trans; [apply within_merge_l | exact H3].
Qed.

Lemma get_step_id (step : pydict) :
  exists id, py_get (JDict step) "step_id" (JStr "?") = Ok id
             /\ py_str id = attribution step.
Proof.
  unfold attribution. simpl. destruct (lookup "step_id" step); eauto.
Qed.

(** The error on a reference to an ingredient that is not declared. *)
Lemma dangling_ingredient_error (self self' : RCIPValidator) (recipe : json)
    (r : ValidationResult) (steps targets : list json) (step : pydict) (t : string) :
  validate_recipe self recipe = Ok (r, self') ->
  items_of recipe "steps" = Ok steps ->
  In (JDict step) steps ->
  lookup "target" step = Some (JList targets) ->
  In (JStr t) targets ->
  prefix "ing-" t = true ->
  (forall ingredients ingredient,
     items_of recipe "ingredients" = Ok ingredients ->
     In ingredient ingredients ->
     py_getitem ingredient "id" <> Ok (JStr t)) ->
  In ("Step " ++ attribution step ++ ": Invalid ingredient reference '" ++ t ++ "'")
     (errors r).
Proof.
  intros H Hsteps Hin Htarget Ht Hprefix Hnone.
  destruct (validate_recipe_inv _ _ _ _ H) as (v & d & w & i & _ & Hd & _ & _ & _ & _).
  apply (returned_errors _ _ _ _ _ _ H Hd).
  destruct (target_findings _ _ _ _ _ _ _ Hd Hsteps Hin Htarget Ht)
    as (ings & iids & sids & dt & Hings & Hiids & _ & Hdt & Hw).
  apply Hw.
  unfold check_target in Hdt. rewrite Hprefix, set_mem_str in Hdt.
  destruct (existsb (py_eq (JStr t)) iids) eqn:Hmem.
  - apply existsb_py_eq_str in Hmem.
    destruct (id_set_str _ _ _ _ Hiids Hmem) as (x & Hx & Hg).
    destruct (Hnone _ _ Hings Hx Hg).
  - cbn [bind negb] in Hdt.
    destruct (get_step_id step) as (id & Hid & Hs). rewrite Hid in Hdt.
    cbn [bind] in Hdt. inversion Hdt; subst dt. simpl. left. now rewrite Hs.
Qed.

(** ** Ingredients and their allergens *)

Lemma items_of_dict (recipe : json) (field : string) (l : list json) :
  items_of recipe field = Ok l -> exists d, recipe = JDict d.
Proof.
  unfold items_of. destruct recipe; simpl; try discriminate. eauto.
Qed.

Lemma for_each_raises {A St : Type} (body : A -> St -> outcome St) (l : list A)
    (n : nat) (x : A) :
  nth_error l n = Some x ->
  (forall s, exists e, body x s = Raise e) ->
  forall s, exists e, for_each body l s = Raise e.
Proof.
  intros Hn Hx. revert n Hn.
  induction l as [|a l IH]; intros n Hn s; [destruct n; discriminate|].
  simpl. destruct n as [|n]; simpl in Hn.
  - inversion Hn; subst a. destruct (Hx s) as [e ->]. simpl. eauto.
  - destruct (body a s) as [s'|e]; simpl; eauto.
Qed.

Lemma get_recipe_info_raises (recipe allergens : json) (ingredients : list json)
    (n : nat) (ingredient : pydict) :
  items_of recipe "ingredients" = Ok ingredients ->
  nth_error ingredients n = Some (JDict ingredient) ->
  lookup "allergens" ingredient = Some allergens ->
  not_iterable allergens = true ->
  exists e, _get_recipe_info recipe = Raise e.
Proof.
  intros Hi Hn Ha Hnot.
  destruct (items_of_dict _ _ _ Hi) as [d ->].
  unfold _get_recipe_info. rewrite Hi. cbn [py_get bind].
  destruct (for_each_raises
              (fun ingredient s =>
                 allergens <- (v <- py_get ingredient "allergens" (JList []) ;; py_iter v) ;;
                 for_each set_add allergens s)
              ingredients n (JDict ingredient) Hn) with (s := @nil json) as [e He].
  - intros s. simpl. rewrite Ha.
    destruct allergens; try discriminate; simpl; eauto.
  - unfold collect_allergens. rewrite He. simpl. eauto.
Qed.

(** C4. The claim holds when [allergens] is missing or is a string or an
    object, but not for every value that is not a sequence: when the
    [allergens] of an ingredient is [null], a boolean or a number,
    [validate_recipe] returns no result at all.  The error is appended by
    [_validate_ingredient], and then [_get_recipe_info] iterates over
    [ingredient.get('allergens', [])] without the type check and raises. *)
Theorem non_iterable_allergens_raise (self : RCIPValidator) (recipe allergens : json)
    (ingredients : list json) (n : nat) (ingredient : pydict) :
  items_of recipe "ingredients" = Ok ingredients ->
  nth_error ingredients n = Some (JDict ingredient) ->
  lookup "allergens" ingredient = Some allergens ->
  not_iterable allergens = true ->
  exists e, validate_recipe self recipe = Raise e.
Proof.
  intros Hi Hn Ha Hnot.
  destruct (validator self) as [v|] eqn:Hv.
  - rewrite (validate_recipe_eq self v recipe Hv).
    destruct (_validate_custom_rules self recipe blank); simpl; eauto.
    destruct (_check_warnings recipe); simpl; eauto.
    destruct (get_recipe_info_raises _ _ _ _ _ Hi Hn Ha Hnot) as [e ->].
    simpl. eauto.
  - unfold validate_recipe. rewrite Hv. eauto.
Qed.

Lemma non_iterable_allergens_raise_witness :
  validate_recipe sample_validator recipe_null_allergens = Raise TypeError.
Proof.
  destruct (non_iterable_allergens_raise sample_validator recipe_null_allergens JNull
              [JDict [("id", JStr "ing-1"); ("name", JStr "bread"); ("allergens", JNull)]]
              0 [("id", JStr "ing-1"); ("name", JStr "bread"); ("allergens", JNull)]
              eq_refl eq_refl eq_refl eq_refl) as [e He].
  rewrite He. vm_compute in He. inversion He. reflexivity.
Defined.

(** What [_validate_ingredient] finds when [allergens] is missing or is not a
    list. *)
Lemma ingredient_allergens_findings (ingredient : pydict) (index : nat)
    (d : ValidationResult) :
  _validate_ingredient (JDict ingredient) index blank = Ok d ->
  match lookup "allergens" ingredient with
  | None =>
      valid d = false /\
      In ("Ingredient " ++ str_nat index ++ ": Missing required allergens field")
         (errors d)
  | Some (JList _) => True
  | Some _ =>
      valid d = false /\
      In ("Ingredient " ++ str_nat index ++ ": allergens must be an array") (errors d)
  end.
Proof.
  unfold _validate_ingredient. intros H.
  cbn [py_contains py_getitem] in H. unfold has_key in H.
  destruct (lookup "allergens" ingredient) as [al|]; [destruct al|]; try exact I.
  all: run H; inversion H; subst d;
    repeat match goal with
           | |- context [if ?b then _ else _] => destruct b
           end;
    cbn [valid errors append_error append_warning set_invalid];
    (split; [reflexivity | rewrite ?In_push; auto 6]).
Qed.

(** When [validate_recipe] returns a result for a document with an ingredient
    whose [allergens] is missing or is not a list, the result is invalid and
    has the error with the ingredient's index. *)
Lemma allergens_reported (self self' : RCIPValidator) (recipe : json)
    (r : ValidationResult) (ingredients : list json) (n : nat) (ingredient : pydict) :
  validate_recipe self recipe = Ok (r, self') ->
  items_of recipe "ingredients" = Ok ingredients ->
  nth_error ingredients n = Some (JDict ingredient) ->
  match lookup "allergens" ingredient with
  | None =>
      valid r = false /\
      In ("Ingredient " ++ str_nat n ++ ": Missing required allergens field") (errors r)
  | Some (JList _) => True
  | Some _ =>
      valid r = false /\
      In ("Ingredient " ++ str_nat n ++ ": allergens must be an array") (errors r)
  end.
Proof.
  intros H Hi Hn.
  destruct (validate_recipe_inv _ _ _ _ H) as (v & d & w & i & _ & Hd & _ & _ & Hr & _).
  destruct (custom_rules_inv _ _ _ Hd)
    as (ings & steps & d1 & d2 & d3 & Hi' & _ & H1 & _ & _ & (He & _ & Hv) & _ & _).
  rewrite Hi in Hi'. inversion Hi'; subst ings.
  destruct (for_enumerate_nth _ _ _ _ _ _ _
              (fun i x => framed_validate_ingredient x i) H1 Hn)
    as (dx & Hdx & (Hex & _ & Hvx)).
  simpl in Hdx. pose proof (ingredient_allergens_findings _ _ _ Hdx) as Hf.
  assert (G : forall m, valid dx = false /\ In m (errors dx) ->
                        valid r = false /\ In m (errors r)).
  { intros m [Hvd Hm]. subst r. unfold assembled; simpl. split.
    - rewrite (Hv (Hvx Hvd)). apply andb_false_r.
    - apply in_app_iff. right. auto. }
  destruct (lookup "allergens" ingredient) as [al|]; [destruct al|]; auto.
Qed.

(** ** The warning on long cooking times *)

Lemma getitem_get (c v default : json) (k : string) :
  py_getitem c k = Ok v -> py_get c k default = Ok v.
Proof.
  destruct c; simpl; try discriminate.
  destruct (lookup k d); [auto | discriminate].
Qed.

Lemma long_time_message (recipe meta total_time : json) (w : list string) :
  _check_warnings recipe = Ok w ->
  py_get recipe "meta" (JDict []) = Ok meta ->
  py_getitem meta "total_time_minutes" = Ok total_time ->
  py_gt_int total_time 1440 = Ok true ->
  exists hours,
    py_div_60 total_time = Ok hours /\
    In ("Very long cooking time (" ++ py_str total_time ++ " min / "
          ++ format_1f hours ++ " hours)") w.
Proof.
  unfold _check_warnings. intros H Hmeta Hget Hgt.
  rewrite Hmeta in H. cbn [bind] in H.
  rewrite (getitem_get _ _ (JInt 0) _ Hget) in H.
  repeat first [progress cbn [bind] in H | bind_inv H].
  match goal with
  | E : py_gt_int total_time 1440 = Ok ?b |- _ =>
      assert (Hb : b = true) by congruence; subst b
  end.
  match goal with
  | E : bind (py_div_60 total_time) _ = Ok _ |- _ => bind_inv E; inversion E; subst
  end.
  eexists. split; [reflexivity|].
  inversion H; subst w.
  match goal with
  | |- In _ (if ?b then _ else _) => destruct b
  end; rewrite ?In_push; auto.
Qed.

(** ** Documents that differ in one field *)

Lemma lookup_set_key_same (k : string) (v : json) (d : pydict) :
  lookup k (set_key k v d) = Some v.
Proof.
  induction d as [|[k' v'] d IH]; simpl.
  - now rewrite String.eqb_refl.
  - destruct (String.eqb k' k) eqn:E; simpl.
    + now rewrite String.eqb_refl.
    + now rewrite E.
Qed.

Lemma same_but_set_key (k : string) (v : json) (d : pydict) :
  same_but k (set_key k v d) d.
Proof.
  intros k' Hk. induction d as [|[k1 v1] d IH]; simpl.
  - destruct (String.eqb k k') eqn:E; [|reflexivity].
    apply String.eqb_eq in E. congruence.
  - destruct (String.eqb k1 k) eqn:E; simpl.
    + apply String.eqb_eq in E. subst k1.
      destruct (String.eqb k k') eqn:E'; [|reflexivity].
      apply String.eqb_eq in E'. congruence.
    + destruct (String.eqb k1 k'); auto.
Qed.

Lemma lookup_del_key_same (k : string) (d : pydict) : lookup k (del_key k d) = None.
Proof.
  induction d as [|[k' v'] d IH]; simpl; [reflexivity|].
  destruct (String.eqb k' k) eqn:E; simpl; [exact IH|]. now rewrite E.
Qed.

Lemma same_but_del_key (k : string) (d : pydict) : same_but k (del_key k d) d.
Proof.
  intros k' Hk. induction d as [|[k1 v1] d IH]; simpl; [reflexivity|].
  destruct (String.eqb k1 k) eqn:E; simpl.
  - apply String.eqb_eq in E. subst k1.
    destruct (String.eqb k k') eqn:E'; [|exact IH].
    apply String.eqb_eq in E'. congruence.
  - destruct (String.eqb k1 k'); auto.
Qed.

(** Rewrites every access to dict [a] into the same access to dict [b],
    given [H : same_but K a b]. *)
Ltac agree H a :=
  cbn [py_contains py_getitem py_get]; unfold has_key;
  repeat match goal with
         | |- context [lookup ?k a] =>
             rewrite (H k)
               by first [assumption | apply not_eq_sym; assumption
                        | intros X; discriminate X]
         end.

Lemma bind_cong {A B : Type} (m m' : outcome A) (k k' : A -> outcome B) :
  m = m' -> (forall a, k a = k' a) -> bind m k = bind m' k'.
Proof.
  intros -> Hk. destruct m'; simpl; auto.
Qed.

Lemma for_each_swap {A St : Type} (body : A -> St -> outcome St) (pre post : list A)
    (x x' : A) :
  (forall s, body x' s = body x s) ->
  forall s, for_each body (pre ++ x' :: post) s = for_each body (pre ++ x :: post) s.
Proof.
  intros Hx. induction pre as [|a pre IH]; intros s; simpl.
  - now rewrite Hx.
  - destruct (body a s); simpl; auto.
Qed.

Lemma for_enumerate_swap {A St : Type} (body : nat -> A -> St -> outcome St)
    (pre post : list A) (x x' : A) :
  (forall i s, body i x' s = body i x s) ->
  forall i s,
    for_enumerate body i (pre ++ x' :: post) s
    = for_enumerate body i (pre ++ x :: post) s.
Proof.
  intros Hx. induction pre as [|a pre IH]; intros i s; simpl.
  - now rewrite Hx.
  - destruct (body i a s); simpl; auto.
Qed.

Lemma for_each_app {A St : Type} (body : A -> St -> outcome St) (l1 l2 : list A) (s : St) :
  for_each body (l1 ++ l2) s = (s' <- for_each body l1 s ;; for_each body l2 s').
Proof.
  revert s. induction l1 as [|a l1 IH]; intros s; simpl; [reflexivity|].
  destruct (body a s); simpl; auto.
Qed.

(** *** Steps that differ in one field *)

Section StepsAgree.
Variable K : string.
Variables a b : pydict.
Hypothesis Hsame : same_but K a b.

Lemma validate_step_agree (i : nat) (r : ValidationResult) :
  K <> "step_id" -> K <> "action" -> K <> "hazards" ->
  _validate_step (JDict a) i r = _validate_step (JDict b) i r.
Proof.
  intros H1 H2 H3. unfold _validate_step. agree Hsame a. reflexivity.
Qed.

Lemma id_set_body_agree (field : string) (s : pyset) :
  K <> field ->
  (has <- py_contains field (JDict a) ;;
   if has then (v <- py_getitem (JDict a) field ;; set_add v s) else Ok s)
  = (has <- py_contains field (JDict b) ;;
     if has then (v <- py_getitem (JDict b) field ;; set_add v s) else Ok s).
Proof.
  intros H1. assert (H1' : field <> K) by congruence.
  agree Hsame a. reflexivity.
Qed.

Lemma check_target_agree (ingredient_ids step_ids : pyset) (t : json)
    (r : ValidationResult) :
  K <> "step_id" ->
  check_target ingredient_ids step_ids (JDict a) t r
  = check_target ingredient_ids step_ids (JDict b) t r.
Proof.
  intros H1. unfold check_target. agree Hsame a. reflexivity.
Qed.

Lemma check_step_targets_agree (ingredient_ids step_ids : pyset)
    (r : ValidationResult) :
  K <> "step_id" -> K <> "target" ->
  check_step_targets ingredient_ids step_ids (JDict a) r
  = check_step_targets ingredient_ids step_ids (JDict b) r.
Proof.
  intros H1 H2. unfold check_step_targets. agree Hsame a.
  destruct (lookup "target" b) as [t|]; simpl; [|reflexivity].
  destruct t; try reflexivity.
  revert r. induction l as [|t l IH]; intros r; simpl; [reflexivity|].
  rewrite (check_target_agree _ _ _ _ H1).
  destruct (check_target ingredient_ids step_ids (JDict b) t r); simpl; auto.
Qed.

Lemma check_device_profile_ref_agree (device_ids : pyset) (r : ValidationResult) :
  K <> "step_id" -> K <> "device_profile_ref" ->
  check_device_profile_ref device_ids (JDict a) r
  = check_device_profile_ref device_ids (JDict b) r.
Proof.
  intros H1 H2. unfold check_device_profile_ref. agree Hsame a. reflexivity.
Qed.
End StepsAgree.

(** *** The parts of the custom rules *)

Ltac bind_cases :=
  repeat match goal with
         | |- bind ?m _ = _ => destruct m; cbn [bind]; [|reflexivity]
         end.

Lemma references_split (recipe : json) (r : ValidationResult) :
  _validate_references recipe r
  = (r' <- references_targets recipe r ;; references_devices recipe r').
Proof.
  unfold _validate_references, references_targets, references_devices.
  bind_cases. reflexivity.
Qed.

Lemma custom_rules_split (self : RCIPValidator) (recipe : json) (r : ValidationResult) :
  _validate_custom_rules self recipe r
  = (r3 <- rules_before_references recipe r ;;
     r4 <- _validate_references recipe r3 ;;
     version_rule self recipe r4).
Proof.
  unfold _validate_custom_rules, rules_before_references, version_rule.
  bind_cases. reflexivity.
Qed.

Lemma framed_references_devices (recipe : json) : framed (references_devices recipe).
Proof.
  unfold references_devices. repeat frame_step. apply framed_check_device_profile_ref.
Qed.

Lemma framed_version_rule (self : RCIPValidator) (recipe : json) :
  framed (version_rule self recipe).
Proof. unfold version_rule. repeat frame_step. Qed.

(** *** Documents that differ in their steps *)

Lemma items_of_lookup (d : pydict) (field : string) (l : list json) :
  lookup field d = Some (JList l) -> items_of (JDict d) field = Ok l.
Proof. intros H. unfold items_of. simpl. now rewrite H. Qed.

Section RecipesAgree.
Variables d d' : pydict.
Variables steps steps' : list json.
Hypothesis Hsame : same_but "steps" d' d.
Hypothesis Hsteps : lookup "steps" d = Some (JList steps).
Hypothesis Hsteps' : lookup "steps" d' = Some (JList steps').

Lemma items_of_agree (field : string) :
  field <> "steps" -> items_of (JDict d') field = items_of (JDict d) field.
Proof.
  intros H. unfold items_of. agree Hsame d'. reflexivity.
Qed.

Lemma rules_before_references_agree (r : ValidationResult) :
  (forall i r, for_enumerate (fun i step => _validate_step step i) i steps' r
               = for_enumerate (fun i step => _validate_step step i) i steps r) ->
  rules_before_references (JDict d') r = rules_before_references (JDict d) r.
Proof.
  intros Hloop. unfold rules_before_references.
  rewrite (items_of_lookup _ _ _ Hsteps), (items_of_lookup _ _ _ Hsteps').
  rewrite (items_of_agree "ingredients") by discriminate.
  agree Hsame d'.
  repeat (apply bind_cong; [reflexivity | intros]).
  apply Hloop.
Qed.

Lemma version_rule_agree (self : RCIPValidator) (r : ValidationResult) :
  version_rule self (JDict d') r = version_rule self (JDict d) r.
Proof. unfold version_rule. agree Hsame d'. reflexivity. Qed.

Lemma references_devices_agree (r : ValidationResult) :
  (forall ids r, for_each (check_device_profile_ref ids) steps' r
                 = for_each (check_device_profile_ref ids) steps r) ->
  references_devices (JDict d') r = references_devices (JDict d) r.
Proof.
  intros Hloop. unfold references_devices.
  rewrite (items_of_lookup _ _ _ Hsteps), (items_of_lookup _ _ _ Hsteps').
  rewrite (items_of_agree "device_profiles") by discriminate.
  repeat (apply bind_cong; [reflexivity | intros]).
  apply Hloop.
Qed.

Lemma references_targets_agree (r : ValidationResult) :
  id_set "step_id" steps' = id_set "step_id" steps ->
  (forall iids sids r, for_each (check_step_targets iids sids) steps' r
                       = for_each (check_step_targets iids sids) steps r) ->
  references_targets (JDict d') r = references_targets (JDict d) r.
Proof.
  intros Hids Hloop. unfold references_targets.
  rewrite (items_of_lookup _ _ _ Hsteps), (items_of_lookup _ _ _ Hsteps').
  rewrite (items_of_agree "ingredients") by discriminate.
  apply bind_cong; [reflexivity | intros ingredients].
  apply bind_cong; [reflexivity | intros ingredient_ids].
  cbn [bind]. rewrite Hids.
  apply bind_cong; [reflexivity | intros step_ids].
  apply Hloop.
Qed.

Lemma check_warnings_agree : _check_warnings (JDict d') = _check_warnings (JDict d).
Proof.
  unfold _check_warnings.
  rewrite (items_of_agree "ingredients") by discriminate.
  agree Hsame d'. reflexivity.
Qed.

Lemma get_recipe_info_agree :
  List.length steps' = List.length steps ->
  _get_recipe_info (JDict d') = _get_recipe_info (JDict d).
Proof.
  intros Hlen. unfold _get_recipe_info.
  rewrite (items_of_agree "ingredients") by discriminate.
  cbn [py_get]. rewrite Hsteps, Hsteps'. cbn [bind py_len]. rewrite Hlen.
  unfold has_key.
  repeat match goal with
         | |- context [lookup ?k d'] =>
             rewrite (Hsame k) by (intros X; discriminate X)
         end.
  reflexivity.
Qed.
End RecipesAgree.

(** ** A [hazards] field that is not a list *)

Lemma validate_step_hazards (step : pydict) (hazards : json) (i : nat)
    (r : ValidationResult) :
  lookup "hazards" step = Some hazards -> is_list hazards = false ->
  _validate_step (JDict (del_key "hazards" step)) i r = _validate_step (JDict step) i r.
Proof.
  intros Hh Hl. unfold _validate_step.
  pose proof (same_but_del_key "hazards" step) as Hsame.
  cbn [py_contains py_getitem]. unfold has_key.
  rewrite (Hsame "step_id") by (intros X; discriminate X).
  rewrite (Hsame "action") by (intros X; discriminate X).
  rewrite lookup_del_key_same, Hh.
  repeat (apply bind_cong; [reflexivity | intros]).
  cbn [bind]. destruct hazards; try reflexivity. discriminate Hl.
Qed.

Lemma id_set_swap (field K : string) (a b : pydict) (pre post : list json) :
  same_but K a b -> K <> field ->
  id_set field (pre ++ JDict a :: post) = id_set field (pre ++ JDict b :: post).
Proof.
  intros Hsame HK. unfold id_set. apply for_each_swap.
  intros s. now apply (id_set_body_agree K a b Hsame).
Qed.




(** ** Unresolved step references *)

Lemma shifted_start (msg : string) (r : ValidationResult) :
  shifted msg r (append_error msg r).
Proof.
  exists r, blank. now rewrite !merge_blank.
Qed.

Lemma framed_shifted (msg : string) (f : ValidationResult -> outcome ValidationResult)
    (r0 r r0' : ValidationResult) :
  framed f -> shifted msg r0 r -> f r0 = Ok r0' ->
  exists r', f r = Ok r' /\ shifted msg r0' r'.
Proof.
  intros Hf (a & d & -> & ->) H.
  destruct (framed_inv _ _ _ Hf H) as (df & Hdf & ->).
  exists (merge (merge (append_error msg a) d) df). split.
  - now apply framed_run.
  - exists a, (merge d df). now rewrite !merge_assoc.
Qed.

Lemma shifted_errors (msg : string) (r0 r : ValidationResult) :
  shifted msg r0 r -> errors r0 = [] -> errors r = [msg].
Proof.
  intros (a & d & -> & ->) H. simpl in *.
  apply app_eq_nil in H. destruct H as [-> ->]. reflexivity.
Qed.

Lemma for_each_ext {A St : Type} (f g : A -> St -> outcome St) (l : list A) :
  (forall x s, f x s = g x s) -> forall s, for_each f l s = for_each g l s.
Proof.
  intros H. induction l as [|a l IH]; intros s; simpl; [reflexivity|].
  rewrite H. destruct (g a s); simpl; auto.
Qed.

Lemma for_each_shift (msg : string)
    (body : json -> ValidationResult -> outcome ValidationResult)
    (pre post : list json) (x x0 : json) :
  (forall a, framed (body a)) ->
  (forall r r0', body x0 r = Ok r0' ->
                 exists r', body x r = Ok r' /\ shifted msg r0' r') ->
  forall r r0',
    for_each body (pre ++ x0 :: post) r = Ok r0' ->
    exists r', for_each body (pre ++ x :: post) r = Ok r' /\ shifted msg r0' r'.
Proof.
  intros Hb Hx r r0' H.
  rewrite for_each_app in H. rewrite for_each_app.
  bind_inv H. cbn [bind]. simpl in H. simpl. bind_inv H.
  destruct (Hx _ _ E0) as (r1 & -> & Hs). cbn [bind].
  exact (framed_shifted msg _ _ _ _ (framed_for_each body post Hb) Hs H).
Qed.

(** The step with the unresolved reference, against the same step without
    that entry of its [target]. *)
Lemma check_step_targets_shift (msg : string) (ingredient_ids step_ids : pyset)
    (step : pydict) (tpre tpost : list json) (t : json) :
  lookup "target" step = Some (JList (tpre ++ t :: tpost)) ->
  (forall r, check_target ingredient_ids step_ids (JDict step) t r
             = Ok (append_error msg r)) ->
  forall r r0',
    check_step_targets ingredient_ids step_ids
      (JDict (set_key "target" (JList (tpre ++ tpost)) step)) r = Ok r0' ->
    exists r',
      check_step_targets ingredient_ids step_ids (JDict step) r = Ok r' /\
      shifted msg r0' r'.
Proof.
  intros Ht Hmsg r r0'. unfold check_step_targets.
  cbn [py_contains py_getitem]. unfold has_key.
  rewrite lookup_set_key_same, Ht. cbn [bind].
  rewrite (for_each_ext _ (check_target ingredient_ids step_ids (JDict step)))
    by (intros x s;
        apply (check_target_agree "target" _ _ (same_but_set_key "target" _ step));
        discriminate).
  rewrite !for_each_app. intros H. bind_inv H. cbn [bind]. simpl.
  rewrite Hmsg. cbn [bind].
  exact (framed_shifted msg _ _ _ _
           (framed_for_each _ tpost
              (framed_check_target ingredient_ids step_ids (JDict step)))
           (shifted_start msg a) H).
Qed.

Lemma not_in_id_set (field t : string) (items : list json) (s : pyset) :
  id_set field items = Ok s ->
  (forall x, In x items -> py_getitem x field <> Ok (JStr t)) ->
  set_mem (JStr t) s = Ok false.
Proof.
  intros Hs Hnone. rewrite set_mem_str.
  destruct (existsb (py_eq (JStr t)) s) eqn:E; [|reflexivity].
  apply existsb_py_eq_str in E.
  destruct (id_set_str _ _ _ _ Hs E) as (x & Hx & Hg).
  destruct (Hnone x Hx Hg).
Qed.

(** What [check_target] finds for a reference to the result of a step that
    does not exist. *)
Lemma check_target_unresolved (ingredient_ids step_ids : pyset) (step : pydict)
    (t : string) (r : ValidationResult) :
  prefix "ing-" t = false ->
  contains ":result" t = true ->
  set_mem (JStr (before_first ":" t)) step_ids = Ok false ->
  check_target ingredient_ids step_ids (JDict step) (JStr t) r
  = Ok (append_error
          ("Step " ++ attribution step ++ ": Invalid step reference '" ++ t ++ "'") r).
Proof.
  intros Hp Hc Hm. unfold check_target. rewrite Hp, Hc. cbn [bind].
  rewrite Hm. cbn [bind negb].
  destruct (get_step_id step) as (id & -> & <-). reflexivity.
Qed.

Lemma same_but_with_steps (pre post : list json) (step d : pydict) :
  same_but "steps" (with_steps pre post step d) d.
Proof. apply same_but_set_key. Qed.

Lemma lookup_with_steps (pre post : list json) (step d : pydict) :
  lookup "steps" (with_steps pre post step d) = Some (JList (pre ++ JDict step :: post)).
Proof. apply lookup_set_key_same. Qed.

Lemma same_but_with_targets (tpre tpost : list json) (step : pydict) :
  same_but "target" (with_targets tpre tpost step) step.
Proof. apply same_but_set_key. Qed.

Section Unresolved.
Variable d : pydict.
Variables pre post tpre tpost : list json.
Variable step : pydict.
Variable t : string.
Hypothesis Hsteps : lookup "steps" d = Some (JList (pre ++ JDict step :: post)).
Hypothesis Htarget : lookup "target" step = Some (JList (tpre ++ JStr t :: tpost)).
Hypothesis Hprefix : prefix "ing-" t = false.
Hypothesis Hresult : contains ":result" t = true.
Hypothesis Hnone :
  forall other, In other (pre ++ JDict step :: post) ->
                py_getitem other "step_id" <> Ok (JStr (before_first ":" t)).

Lemma references_targets_shift (r r0' : ValidationResult) :
  references_targets (JDict (with_steps pre post (with_targets tpre tpost step) d)) r
  = Ok r0' ->
  exists r',
    references_targets (JDict d) r = Ok r' /\
    shifted ("Step " ++ attribution step ++ ": Invalid step reference '" ++ t ++ "'")
      r0' r'.
Proof.
  set (step0 := with_targets tpre tpost step).
  set (d0 := with_steps pre post step0 d).
  set (msg := "Step " ++ attribution step ++ ": Invalid step reference '" ++ t ++ "'").
  pose proof (same_but_with_steps pre post step0 d) as Hsame.
  pose proof (lookup_with_steps pre post step0 d) as Hsteps0.
  pose proof (same_but_with_targets tpre tpost step) as Hstep.
  fold step0 in Hstep. fold d0 in Hsame, Hsteps0.
  unfold references_targets.
  rewrite (items_of_lookup _ _ _ Hsteps), (items_of_lookup _ _ _ Hsteps0).
  rewrite (items_of_agree d d0 Hsame "ingredients") by discriminate.
  intros H. bind_inv H. bind_inv H. cbn [bind] in H |- *.
  rewrite (id_set_swap "step_id" "target" _ _ pre post Hstep) in H by discriminate.
  bind_inv H.
  repeat match goal with
         | E : ?m = Ok _ |- context [bind ?m _] => rewrite E; cbn [bind]
         end.
  apply (for_each_shift msg _ pre post (JDict step) (JDict step0)).
  - intros x. apply framed_check_step_targets.
  - apply (check_step_targets_shift msg _ _ step tpre tpost (JStr t) Htarget).
    intros r1. apply check_target_unresolved; auto.
    now apply (not_in_id_set "step_id" _ (pre ++ JDict step :: post)).
  - exact H.
Qed.

Lemma custom_rules_shift (self : RCIPValidator) (r r0' : ValidationResult) :
  _validate_custom_rules self
    (JDict (with_steps pre post (with_targets tpre tpost step) d)) r = Ok r0' ->
  exists r',
    _validate_custom_rules self (JDict d) r = Ok r' /\
    shifted ("Step " ++ attribution step ++ ": Invalid step reference '" ++ t ++ "'")
      r0' r'.
Proof.
  set (step0 := with_targets tpre tpost step).
  set (d0 := with_steps pre post step0 d).
  set (msg := "Step " ++ attribution step ++ ": Invalid step reference '" ++ t ++ "'").
  pose proof (same_but_with_steps pre post step0 d) as Hsame.
  pose proof (lookup_with_steps pre post step0 d) as Hsteps0.
  pose proof (same_but_with_targets tpre tpost step) as Hstep.
  fold step0 in Hstep. fold d0 in Hsame, Hsteps0.
  rewrite !custom_rules_split.
  rewrite (rules_before_references_agree d d0 _ _ Hsame Hsteps Hsteps0)
    by (intros i s; apply for_enumerate_swap; intros j s';
        apply (validate_step_agree "target" _ _ Hstep); discriminate).
  intros H. bind_inv H. cbn [bind].
  rewrite references_split in H. rewrite references_split.
  bind_inv H. bind_inv E0.
  match goal with
  | E : references_targets (JDict d0) _ = Ok _ |- _ =>
      destruct (references_targets_shift _ _ E) as (r1 & -> & Hs1)
  end.
  cbn [bind].
  match goal with
  | E : references_devices (JDict d0) _ = Ok _ |- _ =>
      rewrite (references_devices_agree d d0 _ _ Hsame Hsteps Hsteps0) in E
        by (intros ids s; apply for_each_swap; intros s';
            apply (check_device_profile_ref_agree "target" _ _ Hstep); discriminate);
      destruct (framed_shifted msg _ _ _ _ (framed_references_devices (JDict d)) Hs1 E)
        as (r2 & -> & Hs2)
  end.
  cbn [bind].
  rewrite (version_rule_agree d d0 Hsame) in H.
  exact (framed_shifted msg _ _ _ _ (framed_version_rule self (JDict d)) Hs2 H).
Qed.

Lemma validate_recipe_shift (self self0 : RCIPValidator) (v : Draft7Validator)
    (r0 : ValidationResult) :
  validator self = Some v ->
  validate v (JDict d) = None ->
  validate_recipe self (JDict (with_steps pre post (with_targets tpre tpost step) d))
  = Ok (r0, self0) ->
  errors r0 = [] ->
  exists r self',
    validate_recipe self (JDict d) = Ok (r, self') /\
    errors r = ["Step " ++ attribution step ++ ": Invalid step reference '" ++ t ++ "'"].
Proof.
  intros Hv Hschema H0 Herr.
  pose proof (same_but_with_steps pre post (with_targets tpre tpost step) d) as Hsame.
  pose proof (lookup_with_steps pre post (with_targets tpre tpost step) d) as Hsteps0.
  destruct (validate_recipe_inv _ _ _ _ H0)
    as (v' & c0 & w & i & Hv' & Hc0 & Hw & Hi & -> & _).
  rewrite Hv in Hv'. inversion Hv'; subst v'.
  unfold assembled in Herr; simpl in Herr.
  apply app_eq_nil in Herr. destruct Herr as [_ Herr].
  destruct (custom_rules_shift self _ _ Hc0) as (c & Hc & Hs).
  rewrite (validate_recipe_eq self v (JDict d) Hv), Hc.
  rewrite <- (check_warnings_agree d _ Hsame), Hw.
  rewrite <- (get_recipe_info_agree d _ _ _ Hsame Hsteps Hsteps0), Hi
    by (rewrite !length_app; reflexivity).
  cbn [bind]. cbv zeta. do 2 eexists. split; [reflexivity|].
  unfold assembled, schema_stage. rewrite Hschema. simpl.
  exact (shifted_errors _ _ _ Hs Herr).
Qed.
End Unresolved.

Lemma unresolved_reference_error (self self' : RCIPValidator) (recipe : json)
    (r : ValidationResult) (steps targets : list json) (step : pydict) (t : string) :
  validate_recipe self recipe = Ok (r, self') ->
  items_of recipe "steps" = Ok steps ->
  In (JDict step) steps ->
  lookup "target" step = Some (JList targets) ->
  In (JStr t) targets ->
  contains ":result" t = true ->
  (forall other, In other steps ->
                 py_getitem other "step_id" <> Ok (JStr (before_first ":" t))) ->
  In ("Step " ++ attribution step ++ ": Invalid step reference '" ++ t ++ "'") (errors r)
  \/ (prefix "ing-" t = true /\
      In ("Step " ++ attribution step ++ ": Invalid ingredient reference '" ++ t ++ "'")
         (errors r)).
Proof.
  intros H Hsteps Hin Htarget Ht Hc Hnone.
  destruct (validate_recipe_inv _ _ _ _ H) as (v & d & w & i & _ & Hd & _ & _ & _ & _).
  destruct (target_findings _ _ _ _ _ _ _ Hd Hsteps Hin Htarget Ht)
    as (ings & iids & sids & dt & _ & _ & Hsids & Hdt & (Hw & _)).
  pose proof (not_in_id_set "step_id" _ _ _ Hsids Hnone) as Hmem.
  assert (Hstep : forall r0,
             Ok (append_error
                   ("Step " ++ attribution step ++ ": Invalid step reference '"
                      ++ t ++ "'") r0) = Ok dt ->
             In ("Step " ++ attribution step ++ ": Invalid step reference '" ++ t ++ "'")
                (errors r)).
  { intros r0 Heq. inversion Heq; subst dt.
    apply (returned_errors _ _ _ _ _ _ H Hd). apply Hw. cbn [errors append_error].
    apply In_push. now right. }
  destruct (prefix "ing-" t) eqn:Hp.
  - unfold check_target in Hdt. rewrite Hp, set_mem_str in Hdt. cbn [bind] in Hdt.
    destruct (existsb (py_eq (JStr t)) iids); cbn [bind negb] in Hdt.
    + rewrite Hc, Hmem in Hdt. cbn [bind negb] in Hdt.
      destruct (get_step_id step) as (id & Hid & Hs). rewrite Hid in Hdt.
      cbn [bind] in Hdt. rewrite Hs in Hdt. left. exact (Hstep _ Hdt).
    + destruct (get_step_id step) as (id & Hid & Hs). rewrite Hid in Hdt.
      cbn [bind] in Hdt. rewrite Hs in Hdt. inversion Hdt; subst dt.
      right. split; [reflexivity|].
      apply (returned_errors _ _ _ _ _ _ H Hd). apply Hw. cbn [errors append_error].
      apply In_push. now right.
  - rewrite (check_target_unresolved iids sids step t blank Hp Hc Hmem) in Hdt.
    left. exact (Hstep _ Hdt).
Qed.

(** ** Documents on which [validate_recipe] returns *)

Lemma for_each_total {A St : Type} (body : A -> St -> outcome St) (l : list A) :
  (forall x, In x l -> forall s, exists s', body x s = Ok s') ->
  forall s, exists s', for_each body l s = Ok s'.
Proof.
  induction l as [|a l IH]; intros Hb s; simpl; [eauto|].
  destruct (Hb a (or_introl eq_refl) s) as [s1 ->]. simpl.
  apply IH. intros x Hx. apply Hb. now right.
Qed.

Lemma for_enumerate_total {A St : Type} (body : nat -> A -> St -> outcome St)
    (l : list A) :
  (forall x, In x l -> forall i s, exists s', body i x s = Ok s') ->
  forall i s, exists s', for_enumerate body i l s = Ok s'.
Proof.
  induction l as [|a l IH]; intros Hb i s; simpl; [eauto|].
  destruct (Hb a (or_introl eq_refl) i s) as [s1 ->]. simpl.
  apply IH. intros x Hx. apply Hb. now right.
Qed.

Lemma py_any_total {A : Type} (f : A -> outcome bool) (l : list A) :
  (forall x, In x l -> exists b, f x = Ok b) -> exists b, py_any f l = Ok b.
Proof.
  induction l as [|a l IH]; intros Hf; simpl; [eauto|].
  destruct (Hf a (or_introl eq_refl)) as [b ->]. simpl.
  destruct b; [eauto|]. apply IH. intros x Hx. apply Hf. now right.
Qed.

Lemma typed_items (p : json -> bool) (field : string) (d : pydict) :
  absent_or (list_of p) field d = true ->
  exists l, items_of (JDict d) field = Ok l /\ forallb p l = true.
Proof.
  unfold absent_or, items_of. simpl.
  destruct (lookup field d) as [v|]; [|exists []; auto].
  destruct v; simpl; try discriminate. eauto.
Qed.

(** Splits the cases of every dict access in the goal, then of every test. *)
Ltac by_cases :=
  cbn [py_contains py_getitem py_get]; unfold has_key, absent_or in *;
  repeat match goal with
         | |- context [lookup ?k ?m] =>
             let v := fresh "v" in destruct (lookup k m) as [v|]
         end;
  repeat match goal with
         | H : false = true |- _ => discriminate H
         | H : true = true |- _ => clear H
         | H : ?p ?v = true |- _ => is_var v; destruct v; simpl in H
         end;
  cbn [bind negb re_match py_contains py_getitem py_get]; unfold has_key;
  repeat match goal with
         | |- context [lookup ?k ?m] =>
             let v := fresh "v" in destruct (lookup k m) as [v|]
         end;
  repeat first
    [ progress cbn [bind negb is_number py_lt_int py_gt_int as_number set_mem hashable]
    | match goal with
      | |- context [is_number ?v] => is_var v; destruct v
      | |- context [hashable ?v] => is_var v; destruct v
      | |- context [py_lt_int (JFloat ?f) _] => is_var f; destruct f
      | |- context [py_gt_int (JFloat ?f) _] => is_var f; destruct f
      | |- context [if ?b then _ else _] => destruct b
      | |- exists _, match ?x with _ => _ end = _ => destruct x
      | |- exists _, bind (match ?x with _ => _ end) _ = _ => destruct x
      end ];
  eauto.

Lemma validate_ingredient_total (x : json) (i : nat) (r : ValidationResult) :
  typed_ingredient x = true -> exists r', _validate_ingredient x i r = Ok r'.
Proof.
  destruct x; simpl; try discriminate. intros H.
  apply andb_prop in H. destruct H as [H Hm]. apply andb_prop in H. destruct H as [Hi Ha].
  unfold _validate_ingredient. by_cases.
Qed.

Lemma validate_step_total (x : json) (i : nat) (r : ValidationResult) :
  typed_step x = true -> exists r', _validate_step x i r = Ok r'.
Proof.
  destruct x; simpl; try discriminate. intros H.
  apply andb_prop in H. destruct H as [Hi _].
  unfold _validate_step. by_cases.
Qed.

Lemma id_set_total (p : json -> bool) (field : string) (items : list json) :
  (forall x, p x = true -> exists d, x = JDict d /\ absent_or hashable field d = true) ->
  forallb p items = true ->
  exists s, id_set field items = Ok s.
Proof.
  intros Hp Hall. unfold id_set. apply for_each_total.
  intros x Hx s. rewrite forallb_forall in Hall.
  destruct (Hp x (Hall x Hx)) as (d & -> & Hh).
  unfold absent_or in Hh. cbn [py_contains py_getitem]. unfold has_key.
  destruct (lookup field d) as [v|]; cbn [bind]; [|eauto].
  unfold set_add. rewrite Hh. eauto.
Qed.

Lemma check_target_total (ingredient_ids step_ids : pyset) (step : pydict)
    (t : json) (r : ValidationResult) :
  exists r', check_target ingredient_ids step_ids (JDict step) t r = Ok r'.
Proof.
  unfold check_target. destruct t; eauto.
  cbn [set_mem hashable py_get bind].
  destruct (prefix "ing-" s); cbn [bind].
  - destruct (negb (existsb (py_eq (JStr s)) ingredient_ids)); [eauto|].
    destruct (contains ":result" s); [|eauto].
    destruct (negb (existsb (py_eq (JStr (before_first ":" s))) step_ids)); eauto.
  - destruct (contains ":result" s); [|eauto].
    destruct (negb (existsb (py_eq (JStr (before_first ":" s))) step_ids)); eauto.
Qed.

Lemma check_step_targets_total (ingredient_ids step_ids : pyset) (x : json)
    (r : ValidationResult) :
  typed_step x = true ->
  exists r', check_step_targets ingredient_ids step_ids x r = Ok r'.
Proof.
  destruct x; simpl; try discriminate. intros _.
  unfold check_step_targets. cbn [py_contains py_getitem]. unfold has_key.
  destruct (lookup "target" d) as [t|]; cbn [bind]; [|eauto].
  destruct t; eauto.
  apply for_each_total. intros t _ s. apply check_target_total.
Qed.

Lemma check_device_profile_ref_total (device_ids : pyset) (x : json)
    (r : ValidationResult) :
  typed_step x = true ->
  exists r', check_device_profile_ref device_ids x r = Ok r'.
Proof.
  destruct x; simpl; try discriminate. intros H.
  apply andb_prop in H. destruct H as [_ Hr].
  unfold absent_or in Hr. unfold check_device_profile_ref.
  cbn [py_contains py_getitem py_get]. unfold has_key.
  destruct (lookup "device_profile_ref" d) as [ref|]; cbn [bind]; [|eauto].
  unfold set_mem. rewrite Hr. cbn [bind].
  destruct (negb (existsb (py_eq ref) device_ids)); eauto.
Qed.

Lemma for_each_invariant {A St : Type} (P : St -> Prop) (body : A -> St -> outcome St)
    (l : list A) :
  (forall x, In x l -> forall s, P s -> exists s', body x s = Ok s' /\ P s') ->
  forall s, P s -> exists s', for_each body l s = Ok s' /\ P s'.
Proof.
  induction l as [|a l IH]; intros Hb s Hs; simpl; [eauto|].
  destruct (Hb a (or_introl eq_refl) s Hs) as (s1 & -> & H1). simpl.
  apply IH; [|exact H1]. intros x Hx. apply Hb. now right.
Qed.

Lemma set_add_strings (v : json) (s : pyset) :
  is_str v = true -> all_strings s ->
  exists s', set_add v s = Ok s' /\ all_strings s'.
Proof.
  intros Hv Hs. destruct v; try discriminate. unfold set_add. simpl.
  destruct (existsb (py_eq (JStr s0)) s); eexists; split; try reflexivity; auto.
  apply Forall_app. split; [exact Hs | now constructor].
Qed.

Lemma iter_strings (v : json) :
  holds_strings v = true -> exists l, py_iter v = Ok l /\ all_strings l.
Proof.
  destruct v; simpl; try discriminate; intros H; eexists; (split; [reflexivity|]).
  - unfold all_strings. apply Forall_map. apply Forall_forall. reflexivity.
  - unfold all_strings. apply Forall_forall. intros x Hx.
    rewrite forallb_forall in H. auto.
  - unfold all_strings. apply Forall_map. apply Forall_forall. reflexivity.
Qed.

Lemma collect_allergens_total (ingredients : list json) :
  forallb typed_ingredient ingredients = true ->
  exists s, collect_allergens ingredients = Ok s /\ all_strings s.
Proof.
  intros Hall. rewrite forallb_forall in Hall.
  unfold collect_allergens. apply for_each_invariant; [|constructor].
  intros x Hx s Hs. specialize (Hall x Hx).
  destruct x; try discriminate. simpl in Hall.
  apply andb_prop in Hall. destruct Hall as [Hall _].
  apply andb_prop in Hall. destruct Hall as [_ Ha].
  unfold absent_or in Ha. cbn [py_get bind].
  assert (Hi : exists l,
             py_iter (match lookup "allergens" d with
                      | Some v => v
                      | None => JList []
                      end) = Ok l /\ all_strings l).
  { destruct (lookup "allergens" d) as [v|]; [now apply iter_strings|].
    exists []. split; [reflexivity | constructor]. }
  destruct Hi as (l & -> & Hl). cbn [bind].
  apply for_each_invariant; [|exact Hs].
  intros v Hv s1 Hs1. apply set_add_strings; [|exact Hs1].
  unfold all_strings in Hl. rewrite Forall_forall in Hl. auto.
Qed.

Lemma sorted_insert_strings (x : json) (l : list json) :
  is_str x = true -> all_strings l ->
  exists l', sorted_insert x l = Ok l' /\ all_strings l'.
Proof.
  intros Hx Hl. destruct x; try discriminate.
  induction Hl as [|y l Hy Hl IH]; simpl.
  - eexists. split; [reflexivity|]. repeat constructor.
  - destruct y; try discriminate. simpl.
    destruct (String.ltb s s0).
    + eexists. split; [reflexivity|]. repeat constructor; auto.
    + destruct IH as (l' & -> & Hl'). simpl.
      eexists. split; [reflexivity|]. constructor; auto.
Qed.

Lemma sorted_strings (l : list json) :
  all_strings l -> exists l', py_sorted l = Ok l' /\ all_strings l'.
Proof.
  intros Hl. induction Hl as [|x l Hx Hl IH]; simpl.
  - exists []. split; [reflexivity | constructor].
  - destruct IH as (l' & -> & Hl'). simpl. now apply sorted_insert_strings.
Qed.

Lemma typed_len (p : json -> bool) (field : string) (d : pydict) :
  absent_or (list_of p) field d = true ->
  exists n, (v <- py_get (JDict d) field (JList []) ;; py_len v) = Ok n.
Proof.
  unfold absent_or. cbn [py_get bind].
  destruct (lookup field d) as [v|]; [|simpl; eauto].
  destruct v; simpl; try discriminate. eauto.
Qed.

Section Typed.
Variable d : pydict.
Hypothesis Htyped : typed_recipe (JDict d) = true.

Lemma typed_parts :
  absent_or is_str "id" d = true /\
  (exists l, items_of (JDict d) "ingredients" = Ok l
             /\ forallb typed_ingredient l = true) /\
  (exists l, items_of (JDict d) "steps" = Ok l /\ forallb typed_step l = true) /\
  (exists l, items_of (JDict d) "device_profiles" = Ok l
             /\ forallb typed_profile l = true) /\
  absent_or typed_meta "meta" d = true.
Proof.
  simpl in Htyped.
  repeat match goal with
         | H : _ && _ = true |- _ => apply andb_prop in H; destruct H
         end.
  repeat split; auto using typed_items.
Qed.

Lemma references_total (r : ValidationResult) :
  exists r', _validate_references (JDict d) r = Ok r'.
Proof.
  destruct typed_parts as (_ & (ings & Hi & Hit) & (steps & Hs & Hst)
                           & (dps & Hd & Hdt) & _).
  unfold _validate_references. rewrite Hi, Hs, Hd. cbn [bind].
  destruct (id_set_total typed_ingredient "id" ings) as [iids ->]; [|exact Hit|].
  { intros x Hx. destruct x; try discriminate. exists d0. split; [reflexivity|].
    simpl in Hx. apply andb_prop in Hx. destruct Hx as [Hx _].
    apply andb_prop in Hx. destruct Hx as [Hx _].
    unfold absent_or in *. destruct (lookup "id" d0) as [[]|]; auto; discriminate. }
  destruct (id_set_total typed_step "step_id" steps) as [sids ->]; [|exact Hst|].
  { intros x Hx. destruct x; try discriminate. exists d0. split; [reflexivity|].
    simpl in Hx. apply andb_prop in Hx. destruct Hx as [Hx _].
    unfold absent_or in *. destruct (lookup "step_id" d0) as [[]|]; auto; discriminate. }
  cbn [bind].
  destruct (for_each_total (check_step_targets iids sids) steps) with (s := r)
    as [r1 ->].
  { intros x Hx s. apply check_step_targets_total.
    rewrite forallb_forall in Hst. auto. }
  cbn [bind].
  destruct (id_set_total typed_profile "id" dps) as [dids ->]; [|exact Hdt|].
  { intros x Hx. destruct x; try discriminate. eauto. }
  cbn [bind]. apply for_each_total.
  intros x Hx s. apply check_device_profile_ref_total.
  rewrite forallb_forall in Hst. auto.
Qed.

Lemma loops_total (r : ValidationResult) :
  exists r',
    (ingredients <- items_of (JDict d) "ingredients" ;;
     result <-
       for_enumerate (fun i ingredient => _validate_ingredient ingredient i) 0
         ingredients r ;;
     steps <- items_of (JDict d) "steps" ;;
     for_enumerate (fun i step => _validate_step step i) 0 steps result) = Ok r'.
Proof.
  destruct typed_parts as (_ & (ings & Hi & Hit) & (steps & Hs & Hst) & _ & _).
  rewrite Hi, Hs. cbn [bind].
  destruct (for_enumerate_total
              (fun i ingredient => _validate_ingredient ingredient i) ings)
    with (i := 0%nat) (s := r) as [r2 ->].
  { intros x Hx i s. apply validate_ingredient_total.
    rewrite forallb_forall in Hit. auto. }
  cbn [bind]. apply for_enumerate_total.
  intros x Hx i s. apply validate_step_total.
  rewrite forallb_forall in Hst. auto.
Qed.

Lemma rules_before_references_total (r : ValidationResult) :
  exists r', rules_before_references (JDict d) r = Ok r'.
Proof.
  destruct typed_parts as (Hid & _).
  unfold rules_before_references, absent_or in *.
  cbn [py_contains py_getitem]. unfold has_key.
  destruct (lookup "id" d) as [[]|]; try discriminate Hid; cbn [bind re_match].
  - destruct (negb (matches RECIPE_ID_PATTERN s)); cbn [bind]; apply loops_total.
  - apply loops_total.
Qed.

Lemma version_rule_total (self : RCIPValidator) (r : ValidationResult) :
  exists r', version_rule self (JDict d) r = Ok r'.
Proof.
  unfold version_rule. cbn [py_contains py_getitem]. unfold has_key.
  destruct (lookup "rcip_version" d) as [v|]; cbn [bind]; [|eauto].
  destruct (negb (eq_str (schema_version self) v)); eauto.
Qed.

Lemma custom_rules_total (self : RCIPValidator) (r : ValidationResult) :
  exists r', _validate_custom_rules self (JDict d) r = Ok r'.
Proof.
  rewrite custom_rules_split.
  destruct (rules_before_references_total r) as [r3 ->]. cbn [bind].
  destruct (references_total r3) as [r4 ->]. cbn [bind].
  apply version_rule_total.
Qed.

Lemma typed_meta_get :
  exists m, py_get (JDict d) "meta" (JDict []) = Ok (JDict m)
            /\ absent_or fits_float "total_time_minutes" m = true.
Proof.
  destruct typed_parts as (_ & _ & _ & _ & Hm).
  unfold absent_or in Hm. cbn [py_get].
  destruct (lookup "meta" d) as [v|].
  - destruct v; try discriminate. eauto.
  - exists []. split; reflexivity.
Qed.

Lemma long_time_total (m : pydict) :
  absent_or fits_float "total_time_minutes" m = true ->
  exists t b,
    py_get (JDict m) "total_time_minutes" (JInt 0) = Ok t /\
    py_gt_int t 1440 = Ok b /\
    (b = true -> exists hours, py_div_60 t = Ok hours).
Proof.
  unfold absent_or, fits_float. cbn [py_get].
  destruct (lookup "total_time_minutes" m) as [t|].
  - intros H. apply andb_prop in H. destruct H as [Hn Hd].
    destruct (py_div_60 t) as [h|] eqn:E; [|discriminate].
    assert (Hg : exists b, py_gt_int t 1440 = Ok b).
    { unfold py_gt_int. destruct t; try discriminate; simpl; eauto.
      destruct f; simpl; eauto. }
    destruct Hg as [b Hb]. exists t, b. eauto.
  - intros _. exists (JInt 0), false. repeat split. discriminate.
Qed.

Lemma check_warnings_total : exists w, _check_warnings (JDict d) = Ok w.
Proof.
  destruct typed_parts as (_ & (ings & Hi & Hit) & _ & _ & _).
  destruct typed_meta_get as (m & Hm & Ht).
  destruct (long_time_total m Ht) as (t & long & Hget & Hgt & Hdiv).
  unfold _check_warnings. rewrite Hm, Hi. cbn [bind py_contains].
  rewrite Hget. cbn [bind]. rewrite Hgt. cbn [bind].
  rewrite forallb_forall in Hit.
  destruct (py_any_total (py_contains "nutritional") ings) as [b1 ->].
  { intros x Hx. specialize (Hit x Hx). destruct x; try discriminate. simpl. eauto. }
  cbn [bind].
  destruct (py_any_total
              (fun ing => v <- py_get ing "external_ids" (JDict []) ;; Ok (truthy v))
              ings) as [b2 ->].
  { intros x Hx. specialize (Hit x Hx). destruct x; try discriminate. simpl. eauto. }
  cbn [bind py_get].
  match goal with
  | |- context [if ?b then _ else Ok false] => destruct b; cbn [bind]
  end.
  all: destruct long; cbn [bind]; [destruct (Hdiv eq_refl) as [h ->]; cbn [bind]|];
    eauto.
Qed.

Lemma get_recipe_info_total : exists i, _get_recipe_info (JDict d) = Ok i.
Proof.
  destruct typed_parts as (_ & (ings & Hi & Hit) & _ & _ & _).
  destruct typed_meta_get as (m & Hm & _).
  destruct (collect_allergens_total ings Hit) as (s & Hs & Hstr).
  destruct (sorted_strings s Hstr) as (l & Hl & _).
  assert (Hn1 : exists n, (v <- py_get (JDict d) "ingredients" (JList []) ;; py_len v)
                          = Ok n).
  { apply (typed_len typed_ingredient). simpl in Htyped.
    repeat match goal with
           | H : _ && _ = true |- _ => apply andb_prop in H; destruct H
           end; assumption. }
  assert (Hn2 : exists n, (v <- py_get (JDict d) "steps" (JList []) ;; py_len v) = Ok n).
  { apply (typed_len typed_step). simpl in Htyped.
    repeat match goal with
           | H : _ && _ = true |- _ => apply andb_prop in H; destruct H
           end; assumption. }
  destruct Hn1 as [n1 Hn1], Hn2 as [n2 Hn2].
  unfold _get_recipe_info. rewrite Hm, Hi. cbn [bind].
  rewrite Hs. cbn [bind]. rewrite Hn1, Hn2. cbn [bind py_get]. rewrite Hl.
  cbn [bind]. eauto.
Qed.
End Typed.

(** On a document of the expected types, an initialised validator returns a
    result. *)
Lemma validate_recipe_returns (self : RCIPValidator) (v : Draft7Validator)
    (recipe : json) :
  validator self = Some v ->
  typed_recipe recipe = true ->
  exists r self', validate_recipe self recipe = Ok (r, self').
Proof.
  intros Hv Ht. destruct recipe; try discriminate.
  rewrite (validate_recipe_eq self v _ Hv).
  destruct (custom_rules_total d Ht self blank) as [c ->].
  destruct (check_warnings_total d Ht) as [w ->].
  destruct (get_recipe_info_total d Ht) as [i ->].
  cbn [bind]. cbv zeta. eauto.
Qed.

(** ** Rounding to a float *)

Lemma digits2_pos_bounds (p : positive) :
  2 ^ (Zpos (digits2_pos p) - 1) <= Zpos p < 2 ^ Zpos (digits2_pos p).
Proof.
  induction p as [p IH|p IH|]; cbn [digits2_pos].
  - rewrite Pos2Z.inj_succ. unfold Z.succ.
    replace (Z.pos (digits2_pos p) + 1 - 1) with (Z.succ (Z.pos (digits2_pos p) - 1)) by lia.
    rewrite Z.pow_succ_r by lia. rewrite Z.pow_add_r by lia.
    change (2 ^ 1) with 2. lia.
  - rewrite Pos2Z.inj_succ. unfold Z.succ.
    replace (Z.pos (digits2_pos p) + 1 - 1) with (Z.succ (Z.pos (digits2_pos p) - 1)) by lia.
    rewrite Z.pow_succ_r by lia. rewrite Z.pow_add_r by lia.
    change (2 ^ 1) with 2. lia.
  - cbn. lia.
Qed.

Lemma pow2_pos (n : Z) : 0 <= n -> 0 < 2 ^ n.
Proof. intros H. apply Z.pow_pos_nonneg; lia. Qed.

(** The number of bits of [m] is [d] when [2^(d-1) <= m < 2^d]. *)
Lemma digits2_pos_unique (p : positive) (d : Z) :
  2 ^ (d - 1) <= Zpos p < 2 ^ d -> 0 < d -> Zpos (digits2_pos p) = d.
Proof.
  intros [Hl Hu] Hd.
  destruct (digits2_pos_bounds p) as [Bl Bu].
  assert (H1 : d - 1 < Zpos (digits2_pos p)).
  { apply (Z.pow_lt_mono_r_iff 2); lia. }
  assert (H2 : Zpos (digits2_pos p) - 1 < d).
  { apply (Z.pow_lt_mono_r_iff 2); lia. }
  lia.
Qed.

Lemma div_mod_twice (X U : Z) :
  0 < U ->
  X / (2 * U) = X / U / 2 /\ X mod (2 * U) = X mod U + U * ((X / U) mod 2).
Proof.
  intros HU. split.
  - rewrite Z.div_div by lia. now rewrite (Z.mul_comm U 2).
  - rewrite (Z.mul_comm 2 U). apply Z.rem_mul_r; lia.
Qed.

Lemma tracks_shr_1 (X U : Z) (mrs : shr_record) :
  0 <= X -> 0 < U -> tracks X U mrs -> tracks X (2 * U) (shr_1 mrs).
Proof.
  intros HX HU (Hm & Hr & Hs).
  destruct (div_mod_twice X U HU) as [Hd Hmod].
  pose proof (Z.mod_pos_bound X U HU) as Hrho.
  pose proof (Z.div_pos X U HX HU) as Hq.
  pose proof (Z.mod_pos_bound (X / U) 2 ltac:(lia)) as Hb.
  pose proof (Z.div_mod (X / U) 2 ltac:(lia)) as Hq2.
  assert (Hor : orb (shr_r mrs) (shr_s mrs) = true <-> X mod U <> 0).
  { rewrite orb_true_iff, Hr, Hs. lia. }
  destruct mrs as [m r s]. cbn [shr_m shr_r shr_s] in *.
  unfold tracks. rewrite Hd, Hmod.
  destruct m as [|[p|p|]|p]; cbn [shr_1 shr_m shr_r shr_s]; try lia.
  - rewrite <- Hm in *. change (0 mod 2) with 0 in *. change (0 / 2) with 0.
    split; [reflexivity|]. rewrite Hor. split; [|lia].
    split; [discriminate | lia].
  - rewrite <- Hm in *.
    assert (Hp : Z.pos p~1 / 2 = Z.pos p /\ Z.pos p~1 mod 2 = 1).
    { rewrite Pos2Z.inj_xI in *. lia. }
    destruct Hp as [-> ->]. split; [reflexivity|]. rewrite Hor. split; [|lia].
    split; [lia | reflexivity].
  - rewrite <- Hm in *.
    assert (Hp : Z.pos p~0 / 2 = Z.pos p /\ Z.pos p~0 mod 2 = 0).
    { rewrite Pos2Z.inj_xO in *. lia. }
    destruct Hp as [-> ->]. split; [reflexivity|]. rewrite Hor. split; [|lia].
    split; [discriminate | lia].
  - rewrite <- Hm in *. change (1 / 2) with 0. change (1 mod 2) with 1 in *.
    split; [reflexivity|]. rewrite Hor. split; [|lia].
    split; [lia | reflexivity].
Qed.

Lemma tracks_iter_pos (n : positive) :
  forall (X U : Z) (mrs : shr_record),
    0 <= X -> 0 < U -> tracks X U mrs ->
    tracks X (U * 2 ^ Zpos n) (SpecFloat.iter_pos shr_1 n mrs).
Proof.
  induction n as [n IH|n IH|]; intros X U mrs HX HU H; cbn [SpecFloat.iter_pos].
  - pose proof (pow2_pos (Zpos n) ltac:(lia)) as Hp.
    replace (U * 2 ^ Z.pos n~1) with (2 * U * 2 ^ Zpos n * 2 ^ Zpos n).
    + apply IH; [lia | nia |]. apply IH; [lia | lia |]. now apply tracks_shr_1.
    + replace (Z.pos n~1) with (1 + Zpos n + Zpos n) by lia.
      rewrite !Z.pow_add_r by lia. change (2 ^ 1) with 2. ring.
  - pose proof (pow2_pos (Zpos n) ltac:(lia)) as Hp.
    replace (U * 2 ^ Z.pos n~0) with (U * 2 ^ Zpos n * 2 ^ Zpos n).
    + apply IH; [lia | nia |]. now apply IH.
    + replace (Z.pos n~0) with (Zpos n + Zpos n) by lia.
      rewrite !Z.pow_add_r by lia. ring.
  - change (2 ^ 1) with 2. rewrite Z.mul_comm. now apply tracks_shr_1.
Qed.

(** The location of a remainder, as a record. *)
Lemma tracks_new_location (X D : Z) :
  0 <= X -> 0 < D ->
  tracks X D (shr_record_of_loc (X / D) (new_location D (X mod D))).
Proof.
  intros HX HD.
  pose proof (Z.mod_pos_bound X D HD) as Hr.
  unfold tracks, new_location, new_location_even, new_location_odd.
  destruct (Z.even D) eqn:Hev.
  - destruct (Z.eqb_spec (X mod D) 0) as [H0|H0].
    + cbn [shr_record_of_loc shr_m shr_r shr_s].
      repeat split; try discriminate; try lia.
    + destruct (Z.compare_spec (2 * (X mod D)) D) as [H|H|H];
        cbn [shr_record_of_loc shr_m shr_r shr_s];
        repeat split; try discriminate; try reflexivity; try lia.
  - assert (Hodd : 2 * (X mod D) <> D).
    { intros E. rewrite <- E, Z.even_mul in Hev. discriminate Hev. }
    destruct (Z.eqb_spec (X mod D) 0) as [H0|H0].
    + cbn [shr_record_of_loc shr_m shr_r shr_s].
      repeat split; try discriminate; try lia.
    + destruct (Z.compare_spec (2 * (X mod D) + 1) D) as [H|H|H];
        cbn [shr_record_of_loc shr_m shr_r shr_s];
        repeat split; try discriminate; try reflexivity; try lia.
Qed.

Lemma tracks_exact (m : Z) :
  0 <= m -> tracks m 1 (shr_record_of_loc m loc_Exact).
Proof.
  intros Hm. unfold tracks. cbn. rewrite Z.div_1_r, Z.mod_1_r.
  repeat split; try discriminate; lia.
Qed.

(** Rounding to the nearest integer is off by a half of the unit at most. *)
Lemma round_nearest_even_near (X U : Z) (mrs : shr_record) :
  0 <= X -> 0 < U -> tracks X U mrs ->
  let M := round_nearest_even (shr_m mrs) (loc_of_shr_record mrs) in
  (M = X / U \/ M = X / U + 1) /\ 2 * Z.abs (M * U - X) <= U.
Proof.
  intros HX HU (Hm & Hr & Hs) M.
  pose proof (Z.mod_pos_bound X U HU) as Hrho.
  pose proof (Z.div_mod X U ltac:(lia)) as Hdm.
  destruct mrs as [m [|] [|]]; cbn [shr_m shr_r shr_s] in *; subst m;
    unfold M; cbn [loc_of_shr_record round_nearest_even].
  - split; [now right|]. assert (U <= 2 * (X mod U)) by now apply Hr. nia.
  - assert (U <= 2 * (X mod U)) by now apply Hr.
    assert (Hhalf : 2 * (X mod U) = U).
    { destruct (Z.eq_dec (2 * (X mod U)) U) as [E|E]; [exact E|].
      assert (false = true) by (apply Hs; lia). discriminate. }
    destruct (Z.even (X / U)); (split; [tauto|nia]).
  - split; [now left|].
    assert (~ U <= 2 * (X mod U)) by (intros C; apply Hr in C; discriminate C). nia.
  - split; [now left|].
    assert (~ U <= 2 * (X mod U)) by (intros C; apply Hr in C; discriminate C). nia.
Qed.

Lemma fexp_normal (e : Z) : -1021 <= e -> fexp 53 1024 e = e - 53.
Proof. intros H. unfold fexp, emin. lia. Qed.

(** A mantissa of 53 bits or more is shifted to 53 bits. *)
Lemma shr_fexp_normal (p : positive) (e : Z) (l : location) :
  2 ^ 52 <= Zpos p -> -1074 <= e ->
  let n := Zpos (digits2_pos p) - 53 in
  0 <= n /\
  shr_fexp 53 1024 (Zpos p) e l = shr (shr_record_of_loc (Zpos p) l) e n.
Proof.
  intros Hp He n. destruct (digits2_pos_bounds p) as [_ Hu].
  assert (Hd : 52 < Zpos (digits2_pos p)).
  { apply (Z.pow_lt_mono_r_iff 2); lia. }
  split; [unfold n; lia|].
  unfold shr_fexp. cbn [Zdigits2]. rewrite fexp_normal by lia.
  unfold n. f_equal. lia.
Qed.

Lemma shr_tracks (X U : Z) (mrs : shr_record) (e n : Z) :
  0 <= X -> 0 < U -> 0 <= n -> tracks X U mrs ->
  tracks X (U * 2 ^ n) (fst (shr mrs e n)) /\ snd (shr mrs e n) = e + n.
Proof.
  intros HX HU Hn H. destruct n as [|n|n]; cbn [shr fst snd]; try lia.
  - change (2 ^ 0) with 1. rewrite Z.mul_1_r, Z.add_0_r. now split.
  - split; [|reflexivity]. now apply tracks_iter_pos.
Qed.

Lemma div_pow2_bounds (q d : Z) :
  53 <= d -> 2 ^ (d - 1) <= q < 2 ^ d ->
  2 ^ 52 <= q / 2 ^ (d - 53) < 2 ^ 53.
Proof.
  intros Hd [Hl Hu].
  pose proof (pow2_pos (d - 53) ltac:(lia)) as Hp.
  replace (d - 1) with (52 + (d - 53)) in Hl by lia.
  replace d with (53 + (d - 53)) in Hu by lia.
  rewrite Z.pow_add_r in Hl, Hu by lia.
  split.
  - apply Z.div_le_lower_bound; lia.
  - apply Z.div_lt_upper_bound; lia.
Qed.

(** [binary_round_aux] on a quotient of at least 53 bits: the result is the
    float [M * 2^(e0 + n)], within the relative error [2^-53] of the
    quotient, or an infinity when the exponent is out of range. *)
Lemma binary_round_aux_near (sx : bool) (X U0 e0 : Z) (l : location) :
  0 < U0 -> 2 ^ 52 <= X / U0 -> -1074 <= e0 ->
  tracks X U0 (shr_record_of_loc (X / U0) l) ->
  exists (M : positive) (n : Z),
    0 <= n /\
    binary_round_aux 53 1024 sx (X / U0) e0 l
    = (if e0 + n <=? 971 then S754_finite sx M (e0 + n) else S754_infinity sx) /\
    2 ^ 52 <= Zpos M < 2 ^ 53 /\
    2 ^ 53 * Z.abs (Zpos M * (U0 * 2 ^ n) - X) <= X.
Proof.
  intros HU Hq He Ht.
  assert (HX : 0 <= X).
  { destruct (Z.le_gt_cases 0 X) as [H|H]; [exact H|].
    assert (X / U0 < 0) by (apply Z.div_lt_upper_bound; lia). lia. }
  destruct (X / U0) as [|q|q] eqn:Eq; try lia.
  destruct (shr_fexp_normal q e0 l Hq He) as [Hn Hshr].
  set (n := Zpos (digits2_pos q) - 53) in *.
  destruct (shr_tracks X U0 (shr_record_of_loc (Zpos q) l) e0 n HX HU Hn Ht) as [Ht1 He1].
  pose proof (pow2_pos n Hn) as Hpn.
  set (U := U0 * 2 ^ n) in *.
  assert (HUp : 0 < U) by (unfold U; nia).
  assert (Hm1 : 2 ^ 52 <= X / U < 2 ^ 53).
  { unfold U. rewrite <- Z.div_div by lia. rewrite Eq.
    unfold n. apply div_pow2_bounds.
    - fold n. lia.
    - apply digits2_pos_bounds. }
  unfold binary_round_aux. rewrite Hshr.
  destruct (shr (shr_record_of_loc (Zpos q) l) e0 n) as [mrs' e'] eqn:E1.
  cbn [fst snd] in Ht1, He1. subst e'.
  destruct (round_nearest_even_near X U mrs' HX HUp Ht1) as [HM Herr].
  set (M1 := round_nearest_even (shr_m mrs') (loc_of_shr_record mrs')) in *.
  pose proof (Z.mod_pos_bound X U HUp) as Hrho.
  pose proof (Z.div_mod X U ltac:(lia)) as Hdm.
  assert (HM1 : 2 ^ 52 <= M1 <= 2 ^ 53) by lia.
  destruct M1 as [|M|M] eqn:EM; try lia.
  destruct (Z.eq_dec (Zpos M) (2 ^ 53)) as [Htop|Htop].
  - (* the rounding carried into a 54th bit *)
    exists (4503599627370496)%positive, (n + 1).
    split; [lia|].
    assert (HMv : M = 9007199254740992%positive).
    { apply Pos2Z.inj. rewrite Htop. reflexivity. }
    subst M. split.
    + unfold shr_fexp. cbn [Zdigits2 digits2_pos Pos.succ]. rewrite fexp_normal by lia.
      replace (Z.pos 54 + (e0 + n) - 53 - (e0 + n)) with 1 by lia.
      cbn [shr shr_record_of_loc SpecFloat.iter_pos shr_1 shr_m].
      replace (e0 + n + 1) with (e0 + (n + 1)) by lia.
      change (Z.sub 1024 53) with 971. reflexivity.
    + split; [cbn; lia|].
      rewrite Z.pow_add_r by lia. change (2 ^ 1) with 2.
      fold U. replace (U0 * (2 ^ n * 2)) with (2 * U) by (unfold U; ring).
      change (2 ^ 53) with 9007199254740992 in *.
      change (2 ^ 52) with 4503599627370496 in *. nia.
  - exists M, n. split; [exact Hn|].
    assert (Hd : Zpos (digits2_pos M) = 53).
    { apply digits2_pos_unique; [|lia]. change (53 - 1) with 52. lia. }
    split.
    + unfold shr_fexp. cbn [Zdigits2]. rewrite Hd, fexp_normal by lia.
      replace (53 + (e0 + n) - 53 - (e0 + n)) with 0 by lia.
      cbn [shr shr_record_of_loc shr_m].
      change (Z.sub 1024 53) with 971. reflexivity.
    + split; [lia|]. fold U.
      change (2 ^ 53) with 9007199254740992 in *.
      change (2 ^ 52) with 4503599627370496 in *. nia.
Qed.

(** The quotient of a positive float or int [m1 * 2^e1] of at least [2^10]
    by 60, as [SFdiv] computes it. *)
Lemma SFdiv_60_near (m1 : positive) (e1 : Z) :
  let d1 := Zpos (digits2_pos m1) in
  let e' := Z.min (d1 + e1 - 59) e1 in
  11 <= d1 + e1 -> -1074 <= e1 ->
  exists (M : positive) (n : Z),
    0 <= n /\
    SFdiv 53 1024 (S754_finite false m1 e1) (S754_finite false 60 0)
    = (if e' + n <=? 971 then S754_finite false M (e' + n) else S754_infinity false) /\
    2 ^ 52 <= Zpos M < 2 ^ 53 /\
    2 ^ 53 * Z.abs (Zpos M * (60 * 2 ^ n) - Zpos m1 * 2 ^ (e1 - e'))
    <= Zpos m1 * 2 ^ (e1 - e').
Proof.
  intros d1 e' Hd He.
  set (X := Zpos m1 * 2 ^ (e1 - e')).
  assert (Hs : 0 <= e1 - e') by (unfold e'; lia).
  assert (Hs58 : 58 <= d1 - 1 + (e1 - e')) by (unfold e'; lia).
  pose proof (pow2_pos (e1 - e') Hs) as Hps.
  assert (HX : 2 ^ 58 <= X).
  { destruct (digits2_pos_bounds m1) as [Hl _]. fold d1 in Hl.
    assert (2 ^ 58 <= 2 ^ (d1 - 1 + (e1 - e'))) by (apply Z.pow_le_mono_r; lia).
    rewrite Z.pow_add_r in H by (unfold d1; lia). unfold X.
    pose proof (pow2_pos (d1 - 1) ltac:(unfold d1; lia)). nia. }
  assert (Hq : 2 ^ 52 <= X / 60).
  { apply Z.div_le_lower_bound; [lia|].
    change (2 ^ 52) with 4503599627370496. change (2 ^ 58) with 288230376151711744 in HX.
    lia. }
  assert (He' : -1074 <= e') by (unfold e'; lia).
  destruct (binary_round_aux_near false X 60 e' (new_location 60 (X mod 60))
              ltac:(lia) Hq He' (tracks_new_location X 60 ltac:(lia) ltac:(lia)))
    as (M & n & Hn & Hr & HM & Herr).
  exists M, n. split; [exact Hn|]. split; [|split; [exact HM | exact Herr]].
  rewrite <- Hr. unfold SFdiv, SFdiv_core_binary.
  cbn [Zdigits2 xorb]. change (digits2_pos 60) with 6%positive. fold d1.
  rewrite fexp_normal by lia.
  replace (Z.min (d1 + e1 - (6 + 0) - 53) (e1 - 0)) with e' by (unfold e'; lia).
  replace (e1 - 0 - e') with (e1 - e') by lia.
  assert (Hm' : match e1 - e' with
                | 0 => Z.pos m1
                | Z.pos _ => Z.shiftl (Z.pos m1) (e1 - e')
                | Z.neg _ => 0
                end = X).
  { unfold X. destruct (e1 - e') as [|s|s] eqn:Es; try lia.
    now rewrite Z.shiftl_mul_pow2 by lia. }
  rewrite Hm'.
  change (IntDef.Z.div_eucl X 60) with (Z.div_eucl X 60).
  unfold Z.div, Z.modulo. destruct (Z.div_eucl X 60) as [q r]. reflexivity.
Qed.

(** A binary64 value is its own canonical representation. *)
Lemma canon_bounded (s : bool) (m : positive) (e : Z) :
  bounded prec64 emax64 m e = true -> canon (Ffinite s m e) = Ffinite s m e.
Proof.
  unfold bounded, canonical_mantissa, prec64, emax64. intros H.
  apply andb_true_iff in H. destruct H as [Hc Hb].
  apply Z.eqb_eq in Hc. apply Z.leb_le in Hb.
  unfold canon, prec64, emax64, binary_round, shl_align. rewrite Hc, Z.sub_diag.
  unfold binary_round_aux, shr_fexp. cbn [Zdigits2]. rewrite Hc, Z.sub_diag.
  cbn [shr shr_record_of_loc shr_m loc_of_shr_record round_nearest_even Zdigits2].
  rewrite Hc, Z.sub_diag. cbn [shr shr_m].
  change (Z.sub 1024 53) with 971 in *.
  destruct (Z.leb_spec e 971); [reflexivity | lia].
Qed.

(** A binary64 value has 53 bits, or the least exponent. *)
Lemma bounded_exponent (m : positive) (e : Z) :
  bounded prec64 emax64 m e = true ->
  -1074 <= e /\ (Zpos (digits2_pos m) = 53 \/ e = -1074 /\ Zpos (digits2_pos m) < 53).
Proof.
  unfold bounded, canonical_mantissa, prec64, emax64, fexp, emin. intros H.
  apply andb_true_iff in H. destruct H as [Hc _]. apply Z.eqb_eq in Hc. lia.
Qed.

Lemma round_half_even_near (num den : Z) :
  0 <= num -> 0 < den ->
  0 <= round_half_even num den /\
  2 * Z.abs (round_half_even num den * den - num) <= den.
Proof.
  intros Hn Hd. unfold round_half_even.
  pose proof (Z.mod_pos_bound num den Hd) as Hr.
  pose proof (Z.div_mod num den ltac:(lia)) as Hdm.
  pose proof (Z.div_pos num den Hn Hd) as Hq.
  destruct (Z.compare_spec (2 * (num mod den)) den) as [H|H|H].
  - destruct (Z.even (num / den)); split; try lia; nia.
  - split; [lia | nia].
  - split; [lia | nia].
Qed.

(** What [format(x, '.1f')] writes for a positive float [M * 2^E]: the
    tenths [T] nearest to ten times its value, as [T / 10], a point and the
    digit [T mod 10]. *)
Lemma format_1f_tenths (M : positive) (E : Z) :
  exists q d,
    format_1f (Ffinite false M E) = str_int q ++ "." ++ str_int d /\
    0 <= q /\ 0 <= d <= 9 /\
    (0 <= E -> 10 * q + d = Zpos M * 10 * 2 ^ E) /\
    (E < 0 -> 2 * Z.abs ((10 * q + d) * 2 ^ (- E) - Zpos M * 10) <= 2 ^ (- E)).
Proof.
  unfold format_1f.
  set (T := if 0 <=? E then Z.pos M * 10 * 2 ^ E
            else round_half_even (Z.pos M * 10) (2 ^ (- E))).
  assert (HT : 0 <= T /\
               (0 <= E -> T = Zpos M * 10 * 2 ^ E) /\
               (E < 0 -> 2 * Z.abs (T * 2 ^ (- E) - Zpos M * 10) <= 2 ^ (- E))).
  { unfold T. destruct (Z.leb_spec 0 E) as [H|H].
    - pose proof (pow2_pos E H). split; [nia|]. split; [reflexivity | lia].
    - pose proof (pow2_pos (- E) ltac:(lia)) as Hp.
      destruct (round_half_even_near (Zpos M * 10) (2 ^ (- E)) ltac:(lia) Hp).
      split; [assumption|]. split; [lia | intros _; assumption]. }
  destruct HT as (HT0 & Hpos & Hneg).
  pose proof (Z.mod_pos_bound T 10 ltac:(lia)) as Hr.
  pose proof (Z.div_mod T 10 ltac:(lia)) as Hdm.
  pose proof (Z.div_pos T 10 HT0 ltac:(lia)) as Hq.
  exists (T / 10), (T mod 10).
  split; [reflexivity|]. split; [lia|]. split; [lia|].
  rewrite <- Hdm. split; assumption.
Qed.

(** ** The value of a float, as a rational *)

Lemma Qpow2_pos (e : Z) : (0 < 2 ^ e)%Q.
Proof. apply Qpower_0_lt. reflexivity. Qed.

Lemma Qpow2_add (a b : Z) : (2 ^ (a + b) == 2 ^ a * 2 ^ b)%Q.
Proof. apply Qpower_plus. intros H. discriminate H. Qed.

Lemma Qpow2_Z (n : Z) : 0 <= n -> (2 ^ n == inject_Z (2 ^ n))%Q.
Proof. intros H. now rewrite Zpower_Qpower. Qed.

Lemma Qpow2_le (a b : Z) : a <= b -> (2 ^ a <= 2 ^ b)%Q.
Proof. intros H. apply Qpower_le_compat_l; [exact H | discriminate]. Qed.

(** A positive value of more than [2^10] has that many bits before the
    point. *)
Lemma bits_of_value (m : positive) (e : Z) :
  (1440 < inject_Z (Zpos m) * 2 ^ e)%Q -> 11 <= Zpos (digits2_pos m) + e.
Proof.
  intros H. destruct (Z.le_gt_cases 11 (Zpos (digits2_pos m) + e)) as [G|G]; [exact G|].
  exfalso. destruct (digits2_pos_bounds m) as [_ Hu].
  rewrite Zlt_Qlt in Hu. rewrite <- Qpow2_Z in Hu by lia.
  pose proof (Qpow2_pos e) as He.
  assert (Hlt : (inject_Z (Zpos m) * 2 ^ e < 2 ^ Zpos (digits2_pos m) * 2 ^ e)%Q).
  { apply Qmult_lt_compat_r; assumption. }
  rewrite <- Qpow2_add in Hlt.
  pose proof (Qpow2_le (Zpos (digits2_pos m) + e) 10 ltac:(lia)) as Hle.
  change (2 ^ 10)%Q with 1024%Q in Hle. lra.
Qed.

Lemma inject_Z_nonneg (z : Z) : 0 <= z -> (0 <= inject_Z z)%Q.
Proof. intros H. change 0%Q with (inject_Z 0). now rewrite <- Zle_Qle. Qed.

Lemma inject_Z_positive (z : Z) : 0 < z -> (0 < inject_Z z)%Q.
Proof. intros H. change 0%Q with (inject_Z 0). now rewrite <- Zlt_Qlt. Qed.

(** Linear arithmetic over the rationals, once the divisions by the
    constants of this file are written as products. *)
Ltac linear_rational :=
  unfold Qdiv in *;
  change (/ 60)%Q with (1 # 60)%Q in *;
  change (/ 10)%Q with (1 # 10)%Q in *;
  change (/ 2 ^ 53)%Q with (1 # 9007199254740992)%Q in *;
  change (/ 9007199254740992)%Q with (1 # 9007199254740992)%Q in *;
  lra.

(** The sixtieth of a positive value [x = m1 * 2^e1] above 1440 and in the
    range of the floats: [SFdiv] gives a finite float, and [format_1f]
    writes it as a number of tenths that is off by a half tenth and the
    rounding error of the division at most. *)
Lemma sixtieth_tenths (m1 : positive) (e1 : Z) (x : Q) :
  (x == inject_Z (Zpos m1) * 2 ^ e1)%Q ->
  -1074 <= e1 -> (1440 < x)%Q -> (x < inject_Z (2 ^ 1024))%Q ->
  exists (M : positive) (E q d : Z),
    SFdiv 53 1024 (S754_finite false m1 e1) (S754_finite false 60 0)
    = S754_finite false M E /\
    format_1f (Ffinite false M E) = str_int q ++ "." ++ str_int d /\
    0 <= q /\ 0 <= d <= 9 /\
    (Qabs (inject_Z q + inject_Z d / 10 - x / 60) <= (1 # 20) + x / 60 / 2 ^ 53)%Q.
Proof.
  intros Hx He Hlo Hhi.
  assert (Hbits : 11 <= Zpos (digits2_pos m1) + e1).
  { apply bits_of_value. now rewrite <- Hx. }
  destruct (SFdiv_60_near m1 e1 Hbits He) as (M & n & Hn & Hdiv & HM & Herr).
  set (e' := Z.min (Zpos (digits2_pos m1) + e1 - 59) e1) in *.
  set (X := Zpos m1 * 2 ^ (e1 - e')) in *.
  assert (Hs : 0 <= e1 - e') by (unfold e'; lia).
  pose proof (Qpow2_pos e') as Hp.
  set (p := (2 ^ e')%Q) in *.
  set (Xq := inject_Z X).
  set (Mn := inject_Z (Zpos M * 2 ^ n)).
  (* the value and the float, over the unit [p] *)
  assert (HxX : (x == Xq * p)%Q).
  { rewrite Hx. unfold Xq, X, p. rewrite inject_Z_mult, <- Qpow2_Z by lia.
    rewrite <- Qmult_assoc, <- Qpow2_add. now replace (e1 - e' + e') with e1 by lia. }
  assert (Hf : (inject_Z (Zpos M) * 2 ^ (e' + n) == Mn * p)%Q).
  { unfold Mn, p. rewrite inject_Z_mult, <- Qpow2_Z by lia.
    rewrite <- Qmult_assoc, <- Qpow2_add. now replace (n + e') with (e' + n) by lia. }
  set (f := (inject_Z (Zpos M) * 2 ^ (e' + n))%Q) in *.
  (* the error of the division *)
  assert (HXq : (0 <= Xq)%Q).
  { apply inject_Z_nonneg. unfold X. pose proof (pow2_pos _ Hs). nia. }
  assert (Hdiff : (-Xq <= 9007199254740992 * (60 * Mn - Xq) <= Xq)%Q).
  { assert (HZ : - X <= 2 ^ 53 * (Zpos M * 2 ^ n * 60 - X) <= X).
    { replace (Zpos M * 2 ^ n * 60) with (Zpos M * (60 * 2 ^ n)) by ring. lia. }
    change (2 ^ 53) with 9007199254740992 in HZ.
    destruct HZ as [Hl Hu]. rewrite Zle_Qle in Hl, Hu.
    rewrite inject_Z_opp in Hl.
    rewrite inject_Z_mult in Hl, Hu.
    unfold Z.sub in Hl, Hu. rewrite inject_Z_plus, inject_Z_opp, inject_Z_mult in Hl, Hu.
    fold Xq Mn in Hl, Hu. change (inject_Z 60) with 60%Q in Hl, Hu.
    change (inject_Z 9007199254740992) with 9007199254740992%Q in Hl, Hu.
    split; lra. }
  assert (Hscaled : (-(Xq * p) <= 9007199254740992 * (60 * (Mn * p) - Xq * p)
                     <= Xq * p)%Q).
  { destruct Hdiff as [Hl Hu].
    apply (Qmult_le_compat_r _ _ p) in Hl; [|now apply Qlt_le_weak].
    apply (Qmult_le_compat_r _ _ p) in Hu; [|now apply Qlt_le_weak].
    clear - Hl Hu. clearbody p Xq Mn. split; lra. }
  assert (Hdivq : (Qabs (f - x / 60) <= x / 60 / 2 ^ 53)%Q).
  { rewrite Hf, HxX.
    apply Qabs_Qle_condition. destruct Hscaled as [Hl Hu].
    clear - Hl Hu. clearbody p Xq Mn. split; linear_rational. }
  (* the exponent is in range *)
  assert (HE : e' + n <= 971).
  { destruct (Z.le_gt_cases (e' + n) 971) as [G|G]; [exact G|]. exfalso.
    assert (Hfx : (f <= x)%Q).
    { rewrite Hf, HxX. destruct Hscaled as [Hl Hu].
      assert (H0 : (0 <= Xq * p)%Q)
        by (apply Qmult_le_0_compat; [exact HXq | now apply Qlt_le_weak]).
      clear - Hl Hu H0. clearbody p Xq Mn. lra. }
    assert (Hbig : (inject_Z (2 ^ 1024) <= f)%Q).
    { unfold f. pose proof (Qpow2_le 972 (e' + n) ltac:(lia)) as Hle.
      rewrite (Qpow2_Z 972) in Hle by lia.
      destruct HM as [HMl _]. rewrite Zle_Qle in HMl.
      pose proof (Qpow2_pos (e' + n)) as Hpe.
      replace (2 ^ 1024) with (2 ^ 52 * 2 ^ 972) by reflexivity.
      rewrite inject_Z_mult.
      assert (H972 : (0 <= inject_Z (2 ^ 972))%Q) by (apply inject_Z_nonneg; lia).
      assert (H52 : (0 <= inject_Z (2 ^ 52))%Q) by (apply inject_Z_nonneg; lia).
      apply Qle_trans with (inject_Z (2 ^ 52) * 2 ^ (e' + n))%Q.
      - rewrite !(Qmult_comm (inject_Z (2 ^ 52))).
        apply Qmult_le_compat_r; assumption.
      - apply Qmult_le_compat_r; [assumption | lra]. }
    lra. }
  assert (HEb : (e' + n <=? 971) = true) by (apply Z.leb_le; exact HE).
  rewrite HEb in Hdiv.
  destruct (format_1f_tenths M (e' + n)) as (q & d & Hfmt & Hq & Hd & Hpos & Hneg).
  exists M, (e' + n), q, d.
  split; [exact Hdiv|]. split; [exact Hfmt|]. split; [exact Hq|]. split; [exact Hd|].
  (* the tenths *)
  assert (Hten : (Qabs (inject_Z q + inject_Z d / 10 - f) <= 1 # 20)%Q).
  { set (Tq := (inject_Z q + inject_Z d / 10)%Q).
    assert (HT : (inject_Z (10 * q + d) == 10 * Tq)%Q).
    { unfold Tq. rewrite inject_Z_plus, inject_Z_mult. change (inject_Z 10) with 10%Q.
      field. }
    destruct (Z.le_gt_cases 0 (e' + n)) as [G|G].
    - specialize (Hpos G). rewrite Hpos in HT.
      rewrite !inject_Z_mult, <- Qpow2_Z in HT by lia.
      change (inject_Z 10) with 10%Q in HT. fold f in HT.
      apply Qabs_Qle_condition.
      assert (Hfq : (f * 10 == inject_Z (Zpos M) * 10 * 2 ^ (e' + n))%Q)
        by (unfold f; ring).
      split; lra.
    - specialize (Hneg G).
      set (r := 2 ^ (- (e' + n))) in *.
      assert (Hr : 0 < r) by (apply pow2_pos; lia).
      assert (HZ : - r <= 2 * ((10 * q + d) * r - Zpos M * 10) <= r) by lia.
      destruct HZ as [Hl Hu]. rewrite Zle_Qle in Hl, Hu.
      rewrite inject_Z_opp in Hl. rewrite inject_Z_mult in Hl, Hu.
      unfold Z.sub in Hl, Hu.
      rewrite inject_Z_plus, inject_Z_opp, !inject_Z_mult in Hl, Hu.
      rewrite HT in Hl, Hu.
      change (inject_Z 10) with 10%Q in Hl, Hu. change (inject_Z 2) with 2%Q in Hl, Hu.
      pose proof (Qpow2_pos (e' + n)) as Hu0.
      assert (Hur : (2 ^ (e' + n) * inject_Z r == 1)%Q).
      { unfold r. rewrite <- Qpow2_Z by lia. rewrite <- Qpow2_add.
        now replace (e' + n + - (e' + n)) with 0 by lia. }
      apply inject_Z_positive in Hr.
      unfold f. set (u := (2 ^ (e' + n))%Q) in *. set (rq := inject_Z r) in *.
      set (Mq := inject_Z (Zpos M)) in *.
      apply Qabs_Qle_condition.
      apply (Qmult_le_compat_r _ _ u) in Hl; [|lra].
      apply (Qmult_le_compat_r _ _ u) in Hu; [|lra].
      assert (H1 : (- (rq * u) <= 2 * (10 * Tq * (rq * u) - Mq * u * 10))%Q) by lra.
      assert (H2 : (2 * (10 * Tq * (rq * u) - Mq * u * 10) <= rq * u)%Q) by lra.
      assert (Hru : (rq * u == 1)%Q) by (rewrite Qmult_comm; exact Hur).
      rewrite Hru in H1, H2. split; lra. }
  apply Qabs_Qle_condition in Hten. apply Qabs_Qle_condition in Hdivq.
  apply Qabs_Qle_condition. split; linear_rational.
Qed.

(** A float above 1440 compares as greater with the int 1440. *)
Lemma above_1440 (m : positive) (e : Z) :
  (1440 < inject_Z (Zpos m) * 2 ^ e)%Q ->
  xnum_compare (XFin (Zpos m) e) (XFin 1440 0) = Gt.
Proof.
  intros H. cbn [xnum_compare].
  set (k := Z.min e 0).
  assert (Hk : 0 <= 0 - k) by (unfold k; lia).
  assert (Hj : 0 <= e - k) by (unfold k; lia).
  apply Z.compare_gt_iff. rewrite Zlt_Qlt, !inject_Z_mult.
  rewrite <- !Qpow2_Z by assumption.
  replace (e - k) with (e + (0 - k)) by lia. rewrite Qpow2_add.
  pose proof (Qpow2_pos (0 - k)) as Hp.
  change (inject_Z 1440) with 1440%Q.
  rewrite Qmult_assoc. apply Qmult_lt_compat_r; assumption.
Qed.

(** The hours of the warning on a long cooking time.  For a number [x] of
    minutes above 1440 and in the range of the floats, the comparison with
    1440 holds, the division by 60 gives a float, and its format [.1f] is a
    number [q.d] of hours with one decimal digit that differs from [x / 60]
    by a half tenth and the relative rounding error [2^-53] of the division
    at most. *)
Lemma hours_of_minutes (v : json) (x : Q) :
  rational v = Some x -> binary64 v = true ->
  (1440 < x)%Q -> (x < inject_Z (2 ^ 1024))%Q ->
  py_gt_int v 1440 = Ok true /\
  exists hours q d,
    py_div_60 v = Ok hours /\
    format_1f hours = str_int q ++ "." ++ str_int d /\
    0 <= q /\ 0 <= d <= 9 /\
    (Qabs (inject_Z q + inject_Z d / 10 - x / 60) <= (1 # 20) + x / 60 / 2 ^ 53)%Q.
Proof.
  intros Hv Hb Hlo Hhi.
  destruct v as [| b | z | [s|s|s m e] | | |]; try discriminate Hv.
  - (* a boolean is 0 or 1 *)
    injection Hv as <-. destruct b; lra.
  - (* an int *)
    injection Hv as <-.
    assert (Hz : 1440 < z) by (rewrite Zlt_Qlt; exact Hlo).
    destruct z as [|p|p]; try lia.
    split.
    { unfold py_gt_int. cbn [as_number xnum_compare].
      change (Z.min 0 0) with 0. change (0 - 0) with 0. change (2 ^ 0) with 1.
      rewrite !Z.mul_1_r.
      destruct (Z.compare_spec (Zpos p) 1440); (reflexivity || lia). }
    destruct (sixtieth_tenths p 0 (inject_Z (Zpos p))) as (M & E & q & d & Hdiv & Hrest);
      [change (2 ^ 0)%Q with 1%Q; now rewrite Qmult_1_r | lia | exact Hlo | exact Hhi |].
    exists (Ffinite false M E), q, d. split; [|exact Hrest].
    cbn [py_div_60 int_div_60]. unfold nearest_double, prec64, emax64.
    rewrite Hdiv. reflexivity.
  - (* a zero *)
    injection Hv as <-. lra.
  - (* a finite float *)
    injection Hv as <-. cbn [binary64] in Hb.
    destruct (bounded_exponent m e Hb) as [He _].
    pose proof (Qpow2_pos e) as Hp.
    destruct s.
    { exfalso.
      assert (Hneg : (inject_Z (Zneg m) * 2 ^ e <= 0)%Q).
      { rewrite <- (Qmult_0_l (2 ^ e)).
        apply Qmult_le_compat_r; [|now apply Qlt_le_weak].
        change 0%Q with (inject_Z 0). rewrite <- Zle_Qle. lia. }
      lra. }
    split.
    { unfold py_gt_int. cbn [as_number]. now rewrite above_1440. }
    destruct (sixtieth_tenths m e (inject_Z (Zpos m) * 2 ^ e))
      as (M & E & q & d & Hdiv & Hrest);
      [reflexivity | exact He | exact Hlo | exact Hhi |].
    exists (Ffinite false M E), q, d. split; [|exact Hrest].
    cbn [py_div_60]. unfold float_div_60. rewrite (canon_bounded false m e Hb).
    cbn [to_spec]. unfold prec64, emax64. rewrite Hdiv. reflexivity.
Qed.

(** ** Reference errors and the long cooking time, on returned results *)

(** C5. When a step's [target] list contains a string that starts with
    [ing-] and is the [id] of no ingredient of the document, the errors of
    the returned result contain the error on that reference, attributed to
    the step's [step_id], or to [?] when the step has none; and on a
    document of the expected types [validate_recipe] does return such a
    result. *)
Theorem dangling_ingredient_reported (self : RCIPValidator) (recipe : json)
    (steps targets : list json) (step : pydict) (t : string) :
  items_of recipe "steps" = Ok steps ->
  In (JDict step) steps ->
  lookup "target" step = Some (JList targets) ->
  In (JStr t) targets ->
  prefix "ing-" t = true ->
  (forall ingredients ingredient,
     items_of recipe "ingredients" = Ok ingredients ->
     In ingredient ingredients ->
     py_getitem ingredient "id" <> Ok (JStr t)) ->
  let msg := "Step " ++ attribution step ++ ": Invalid ingredient reference '"
               ++ t ++ "'" in
  (forall r self', validate_recipe self recipe = Ok (r, self') -> In msg (errors r)) /\
  (forall v, validator self = Some v -> typed_recipe recipe = true ->
             exists r self',
               validate_recipe self recipe = Ok (r, self') /\ In msg (errors r)).
Proof.
  intros Hsteps Hin Htarget Ht Hprefix Hnone msg.
  assert (G : forall r self',
             validate_recipe self recipe = Ok (r, self') -> In msg (errors r)).
  { intros r self' H.
    exact (dangling_ingredient_error self self' recipe r steps targets step t
             H Hsteps Hin Htarget Ht Hprefix Hnone). }
  split; [exact G|].
  intros v Hv Htyped.
  destruct (validate_recipe_returns self v recipe Hv Htyped) as (r & self' & H).
  exists r, self'. split; [exact H | exact (G r self' H)].
Qed.

Lemma dangling_ingredient_reported_witness :
  exists r self',
    validate_recipe sample_validator recipe_dangling_ingredient = Ok (r, self') /\
    In "Step s-1: Invalid ingredient reference 'ing-2'" (errors r).
Proof.
  refine (proj2 (dangling_ingredient_reported sample_validator
                   recipe_dangling_ingredient _ [JStr "ing-2"]
                   [("step_id", JStr "s-1"); ("action", JStr "heat");
                    ("target", JList [JStr "ing-2"])]
                   "ing-2" eq_refl _ eq_refl _ eq_refl _)
            accept_all eq_refl eq_refl).
  - left. reflexivity.
  - left. reflexivity.
  - intros ingredients ingredient Hi Hin.
    vm_compute in Hi. inversion Hi; subst ingredients.
    destruct Hin as [Hx|[]]. subst ingredient. vm_compute. discriminate.
Defined.

(** C6. A string of a step's [target] that contains [:result] and whose part
    before the first colon is the [step_id] of no step yields an error on
    that step: the error on the step reference, or, when the string also
    starts with [ing-] and is no ingredient id, the error on the ingredient
    reference; on a document of the expected types [validate_recipe] does
    return a result with that error.  And a document that the schema accepts
    and in which one [target] entry is [s-1:result] while no step has the
    [step_id] [s-1], being without errors once that entry is taken out,
    yields exactly one error: the one on the unresolved step reference. *)
Theorem unresolved_result_reported :
  (forall (self : RCIPValidator) (recipe : json) (steps targets : list json)
          (step : pydict) (t : string),
     items_of recipe "steps" = Ok steps ->
     In (JDict step) steps ->
     lookup "target" step = Some (JList targets) ->
     In (JStr t) targets ->
     contains ":result" t = true ->
     (forall other, In other steps ->
                    py_getitem other "step_id" <> Ok (JStr (before_first ":" t))) ->
     let reported (r : ValidationResult) :=
       In ("Step " ++ attribution step ++ ": Invalid step reference '" ++ t ++ "'")
          (errors r)
       \/ (prefix "ing-" t = true /\
           In ("Step " ++ attribution step ++ ": Invalid ingredient reference '"
                 ++ t ++ "'") (errors r)) in
     (forall r self', validate_recipe self recipe = Ok (r, self') -> reported r) /\
     (forall v, validator self = Some v -> typed_recipe recipe = true ->
                exists r self',
                  validate_recipe self recipe = Ok (r, self') /\ reported r)) /\
  (forall (self self0 : RCIPValidator) (v : Draft7Validator) (d : pydict)
          (pre post tpre tpost : list json) (step : pydict) (r0 : ValidationResult),
     validator self = Some v ->
     validate v (JDict d) = None ->
     lookup "steps" d = Some (JList (pre ++ JDict step :: post)) ->
     lookup "target" step = Some (JList (tpre ++ JStr "s-1:result" :: tpost)) ->
     (forall other, In other (pre ++ JDict step :: post) ->
                    py_getitem other "step_id" <> Ok (JStr "s-1")) ->
     validate_recipe self
       (JDict (set_key "steps"
                 (JList (pre ++ JDict (set_key "target" (JList (tpre ++ tpost)) step)
                             :: post)) d))
     = Ok (r0, self0) ->
     errors r0 = [] ->
     exists r self',
       validate_recipe self (JDict d) = Ok (r, self') /\
       errors r = ["Step " ++ attribution step
                     ++ ": Invalid step reference 's-1:result'"]).
Proof.
  split.
  - intros self recipe steps targets step t Hsteps Hin Htarget Ht Hc Hnone reported.
    assert (G : forall r self',
               validate_recipe self recipe = Ok (r, self') -> reported r).
    { intros r self' H.
      exact (unresolved_reference_error self self' recipe r steps targets step t
               H Hsteps Hin Htarget Ht Hc Hnone). }
    split; [exact G|].
    intros v Hv Htyped.
    destruct (validate_recipe_returns self v recipe Hv Htyped) as (r & self' & H).
    exists r, self'. split; [exact H | exact (G r self' H)].
  - intros self self0 v d pre post tpre tpost step r0 Hv Hs Hsteps Htarget Hnone H0 He.
    exact (validate_recipe_shift d pre post tpre tpost step "s-1:result"
             Hsteps Htarget eq_refl eq_refl Hnone self self0 v r0 Hv Hs H0 He).
Qed.

Lemma unresolved_result_reported_witness :
  exists r self',
    validate_recipe sample_validator (JDict recipe_unresolved_result) = Ok (r, self') /\
    errors r = ["Step s-2: Invalid step reference 's-1:result'"].
Proof.
  assert (H0 : exists r0 self0,
             validate_recipe sample_validator
               (JDict (set_key "steps"
                         (JList ([] ++ JDict (set_key "target"
                                                (JList ([JStr "ing-1"] ++ []))
                                                step_unresolved_result) :: []))
                         recipe_unresolved_result))
             = Ok (r0, self0) /\ errors r0 = []).
  { do 2 eexists. split; [vm_compute; reflexivity | reflexivity]. }
  destruct H0 as (r0 & self0 & H0 & He).
  apply (proj2 unresolved_result_reported sample_validator self0 accept_all
           recipe_unresolved_result [] [] [JStr "ing-1"] [] step_unresolved_result r0
           eq_refl eq_refl eq_refl eq_refl); [|exact H0|exact He].
  intros other [<-|[]]. vm_compute. discriminate.
Defined.

Lemma append_inner (a b c : string) : (a ++ b) ++ c = a ++ b ++ c.
Proof. induction a as [|x a IH]; simpl; [reflexivity | now rewrite IH]. Qed.

(** C7, as amended.  When [meta.total_time_minutes] is a number [x] greater
    than 1440 and below [2^1024], an int or a binary64 float, the returned
    warnings contain the message on the long cooking time, and the hours it
    gives are a numeral [q.d] with one decimal digit whose value differs from
    [x / 60] by a half tenth and the relative rounding error [2^-53] of the
    float division at most; for an int below [2^53] that is: sixty times the
    hours shown differ from the minutes by 3 at most.  For 1500 minutes the
    message contains [25.0 hours].  On a document of the expected types
    [validate_recipe] does return a result with that warning.  (The
    infinite float, whose hours read [inf], and the ints whose sixtieth
    fits no float, for which the division raises [OverflowError], are left
    out; the example after the theorem shows both.) *)
Theorem long_time_warning (self : RCIPValidator) (recipe meta total_time : json)
    (x : Q) :
  py_get recipe "meta" (JDict []) = Ok meta ->
  py_getitem meta "total_time_minutes" = Ok total_time ->
  rational total_time = Some x ->
  binary64 total_time = true ->
  (1440 < x)%Q ->
  (x < inject_Z (2 ^ 1024))%Q ->
  let reported (r : ValidationResult) :=
    (exists (minutes : string) (q d : Z),
       In ("Very long cooking time (" ++ minutes ++ " min / "
             ++ str_int q ++ "." ++ str_int d ++ " hours)") (warnings r) /\
       0 <= q /\ 0 <= d <= 9 /\
       (Qabs (inject_Z q + inject_Z d / 10 - x / 60) <= (1 # 20) + x / 60 / 2 ^ 53)%Q /\
       (forall z, total_time = JInt z -> z < 2 ^ 53 ->
                  Z.abs (60 * q + 6 * d - z) <= 3)) /\
    (total_time = JInt 1500 ->
     exists w, In w (warnings r) /\ contains "25.0 hours" w = true) in
  (forall r self', validate_recipe self recipe = Ok (r, self') -> reported r) /\
  (forall v, validator self = Some v -> typed_recipe recipe = true ->
             exists r self', validate_recipe self recipe = Ok (r, self') /\ reported r).
Proof.
  intros Hmeta Hget Hx Hb Hlo Hhi reported.
  destruct (hours_of_minutes total_time x Hx Hb Hlo Hhi)
    as (Hgt & hours & q & d & Hdiv & Hfmt & Hq & Hd & Hnear).
  assert (G : forall r self',
             validate_recipe self recipe = Ok (r, self') -> reported r).
  { intros r self' H.
    pose proof (returned_warnings _ _ _ _ H) as Hw.
    destruct (long_time_message _ _ _ _ Hw Hmeta Hget Hgt) as (hours' & Hdiv' & Hin).
    assert (hours' = hours) by congruence. subst hours'.
    split.
    - exists (py_str total_time), q, d.
      rewrite Hfmt in Hin. rewrite !append_inner in Hin.
      split; [exact Hin|]. split; [exact Hq|]. split; [exact Hd|].
      split; [exact Hnear|].
      intros z -> Hz. cbn [rational] in Hx. injection Hx as <-.
      apply Qabs_Qle_condition in Hnear.
      rewrite Zlt_Qlt in Hz. change (inject_Z (2 ^ 53)) with 9007199254740992%Q in Hz.
      assert (Hz0 : (0 < inject_Z z)%Q) by lra.
      assert (Hlt : -4 < 60 * q + 6 * d - z < 4).
      { rewrite !Zlt_Qlt. unfold Z.sub.
        rewrite !inject_Z_plus, !inject_Z_opp, !inject_Z_mult.
        change (inject_Z 60) with 60%Q. change (inject_Z 6) with 6%Q.
        change (inject_Z (-4)) with (-4)%Q. change (inject_Z 4) with 4%Q.
        destruct Hnear as [Hl Hu]. split; linear_rational. }
      lia.
    - intros ->. vm_compute in Hdiv. inversion Hdiv; subst hours.
      eexists. split; [exact Hin|]. vm_compute. reflexivity. }
  split; [exact G|].
  intros v Hv Htyped.
  destruct (validate_recipe_returns self v recipe Hv Htyped) as (r & self' & H).
  exists r, self'. split; [exact H | exact (G r self' H)].
Qed.

Lemma long_time_warning_witness :
  (exists r self' w,
     validate_recipe sample_validator recipe_long = Ok (r, self') /\
     In w (warnings r) /\ contains "25.0 hours" w = true) /\
  (exists r self' minutes q d,
     validate_recipe sample_validator recipe_long_float = Ok (r, self') /\
     In ("Very long cooking time (" ++ minutes ++ " min / "
           ++ str_int q ++ "." ++ str_int d ++ " hours)") (warnings r) /\
     0 <= d <= 9).
Proof.
  split.
  - destruct (proj2 (long_time_warning sample_validator recipe_long
                       (JDict [("name", JStr "Sourdough");
                               ("total_time_minutes", JInt 1500)])
                       (JInt 1500) (inject_Z 1500)
                       eq_refl eq_refl eq_refl eq_refl eq_refl eq_refl)
                accept_all eq_refl eq_refl)
      as (r & self' & H & _ & H25).
    destruct (H25 eq_refl) as (w & Hin & Hc).
    exists r, self', w. auto.
  - assert (Hlo : (1440 < inject_Z (Zpos (1503 * 2 ^ 42)) * 2 ^ (-42))%Q)
      by (vm_compute; reflexivity).
    assert (Hhi : (inject_Z (Zpos (1503 * 2 ^ 42)) * 2 ^ (-42) < inject_Z (2 ^ 1024))%Q)
      by (vm_compute; reflexivity).
    destruct (proj2 (long_time_warning sample_validator recipe_long_float
                       (JDict [("name", JStr "Sourdough");
                               ("total_time_minutes",
                                JFloat (Ffinite false (1503 * 2 ^ 42) (-42)))])
                       (JFloat (Ffinite false (1503 * 2 ^ 42) (-42)))
                       (inject_Z (Zpos (1503 * 2 ^ 42)) * 2 ^ (-42))%Q
                       eq_refl eq_refl eq_refl eq_refl Hlo Hhi)
                accept_all eq_refl eq_refl)
      as (r & self' & H & (minutes & q & d & Hin & _ & Hd & _) & _).
    exists r, self', minutes, q, d. auto.
Defined.

(** C7 as stated fails outside that range.  The float infinity is greater
    than 1440 and the warning then reads [inf hours], without a decimal
    place; with [total_time_minutes = 10^400], an int greater than 1440, the
    division by 60 overflows and [validate_recipe] raises [OverflowError]
    instead of returning a result with the warning. *)
Lemma long_time_out_of_range :
  (py_gt_int (JFloat (Finf false)) 1440 = Ok true /\
   exists r self',
     validate_recipe sample_validator recipe_infinite = Ok (r, self') /\
     warnings r = ["Missing recommended field: meta.description";
                   "Missing recommended field: meta.servings";
                   "Missing recommended field: meta.difficulty";
                   "No nutritional data provided for any ingredient";
                   "No external IDs (USDA, GTIN, etc.) provided";
                   "Very long cooking time (inf min / inf hours)";
                   "No images provided for recipe"]) /\
  (1440 < 10 ^ 400 /\
   py_gt_int (JInt (10 ^ 400)) 1440 = Ok true /\
   validate_recipe sample_validator recipe_endless = Raise OverflowError).
Proof.
  split.
  - split; [reflexivity|].
    destruct (validate_recipe sample_validator recipe_infinite)
      as [[r self']|e] eqn:E; [|vm_compute in E; discriminate E].
    exists r, self'. split; [reflexivity|].
    vm_compute in E. injection E as <- _. reflexivity.
  - split; [reflexivity|]. split; vm_compute; reflexivity.
Qed.
(** ** What decides validity *)

Lemma valid_fold_left {A : Type} (step : ValidationResult -> A -> ValidationResult)
    (l : list A) :
  (forall r a, valid (step r a) = valid r) ->
  forall r, valid (fold_left step l r) = valid r.
Proof.
  intros Hs. induction l as [|a l IH]; intros r; simpl; [reflexivity|].
  now rewrite IH, Hs.
Qed.

(** Closes a goal that says that appended findings leave [valid] as it is. *)
Ltac valid_kept :=
  repeat match goal with
         | H : Ok _ = Ok _ |- _ => injection H as <-
         | |- context [if ?b then _ else _] => destruct b
         end;
  reflexivity.

Lemma not_contains_getitem (c v : json) (k : string) :
  py_contains k c = Ok false -> py_getitem c k <> Ok v.
Proof.
  destruct c; simpl; try discriminate. unfold has_key.
  destruct (lookup k d); discriminate.
Qed.

(** The check of an identifier that opens [_validate_ingredient],
    [_validate_step] and [_validate_custom_rules]. *)
Lemma valid_id_check (pattern : regex) (field : string) (item : json) (has_id : bool)
    (msg : json -> string) (r r' : ValidationResult) :
  py_contains field item = Ok has_id ->
  (if has_id then
     id <- py_getitem item field ;;
     m <- re_match pattern id ;;
     if negb m then Ok (append_error (msg id) (set_invalid r)) else Ok r
   else Ok r) = Ok r' ->
  (valid r' = true <-> valid r = true /\ well_formed_id pattern field item).
Proof.
  unfold well_formed_id. intros Hc H. destruct has_id.
  - bind_inv H. bind_inv H. destruct a0; cbn [negb] in H; injection H as <-.
    + split; [intros Hr; split; [exact Hr|] | tauto].
      intros id Hid. congruence.
    + cbn [valid append_error set_invalid]. split; [discriminate|].
      intros [_ Hw]. specialize (Hw _ eq_refl). congruence.
  - injection H as <-. split; [intros Hr; split; [exact Hr|] | tauto].
    intros id Hid. now apply not_contains_getitem with (v := id) in Hc.
Qed.

Lemma valid_ingredient (ingredient : json) (index : nat) (r d : ValidationResult) :
  _validate_ingredient ingredient index r = Ok d ->
  (valid d = true <->
   valid r = true /\
   well_formed_id INGREDIENT_ID_PATTERN "id" ingredient /\ lists_allergens ingredient).
Proof.
  unfold _validate_ingredient, lists_allergens. intros H.
  bind_inv H. bind_inv H. bind_inv H. bind_inv H.
  assert (Hv : valid d = valid a2).
  { clear E E0 E1 E2. run H; valid_kept. }
  clear H. rewrite Hv. clear Hv d.
  apply (valid_id_check _ _ _ _ _ _ _ E) in E0.
  rewrite <- and_assoc, <- E0. clear E0 E.
  destruct a1; cbn [negb] in E2.
  - bind_inv E2. destruct a1; injection E2 as <-; cbn [valid append_error set_invalid].
    6: { rewrite valid_fold_left by (intros; valid_kept). split; [eauto | tauto]. }
    all: split; [discriminate | intros [_ [l' Hl]]; congruence].
  - injection E2 as <-. cbn [valid append_error set_invalid]. split; [discriminate|].
    intros [_ [l Hl]]. now apply not_contains_getitem with (v := JList l) in E1.
Qed.

Lemma valid_step (step : json) (index : nat) (r d : ValidationResult) :
  _validate_step step index r = Ok d ->
  (valid d = true <-> valid r = true /\ well_formed_id STEP_ID_PATTERN "step_id" step).
Proof.
  unfold _validate_step. intros H.
  bind_inv H. bind_inv H. bind_inv H. bind_inv H.
  assert (Hv : valid d = valid a2).
  { clear E E0 E1 E2. run H; try valid_kept.
    all: injection H as <-; rewrite valid_fold_left by (intros; valid_kept); valid_kept. }
  assert (Hv' : valid a2 = valid a0).
  { clear E E0 E1 H Hv. run E2; valid_kept. }
  rewrite Hv, Hv'. exact (valid_id_check _ _ _ _ _ _ _ E E0).
Qed.

Lemma valid_for_enumerate {A : Type}
    (body : nat -> A -> ValidationResult -> outcome ValidationResult) (P : A -> Prop)
    (l : list A) :
  (forall i a r d, body i a r = Ok d -> (valid d = true <-> valid r = true /\ P a)) ->
  forall i r d, for_enumerate body i l r = Ok d ->
  (valid d = true <-> valid r = true /\ Forall P l).
Proof.
  intros Hb. induction l as [|a l IH]; intros i r d H; simpl in H.
  - injection H as <-. split; [auto | tauto].
  - bind_inv H. apply IH in H. apply Hb in E. rewrite H, E, Forall_cons_iff. tauto.
Qed.

Lemma valid_for_each {A : Type} (body : A -> ValidationResult -> outcome ValidationResult)
    (l : list A) :
  (forall a r d, body a r = Ok d -> valid d = valid r) ->
  forall r d, for_each body l r = Ok d -> valid d = valid r.
Proof.
  intros Hb. induction l as [|a l IH]; intros r d H; simpl in H.
  - now injection H as <-.
  - bind_inv H. apply IH in H. apply Hb in E. congruence.
Qed.

Lemma valid_check_target (ingredient_ids step_ids : pyset) (step target : json)
    (r d : ValidationResult) :
  check_target ingredient_ids step_ids step target r = Ok d -> valid d = valid r.
Proof.
  unfold check_target. intros H. run H; valid_kept.
Qed.

Lemma valid_references (recipe : json) (r d : ValidationResult) :
  _validate_references recipe r = Ok d -> valid d = valid r.
Proof.
  unfold _validate_references. intros H.
  repeat bind_inv H.
  apply device_loop_findings in H. destruct H as [-> _].
  match goal with
  | E : for_each (check_step_targets _ _) _ _ = Ok _ |- _ => revert E
  end.
  apply valid_for_each. clear. intros step r d H.
  unfold check_step_targets in H. run H; try valid_kept.
  revert H. apply valid_for_each. intros target r' d'. apply valid_check_target.
Qed.

Lemma valid_schema_stage (v : Draft7Validator) (recipe : json) :
  valid (schema_stage v recipe blank) = true <-> validate v recipe = None.
Proof.
  unfold schema_stage. destruct (validate v recipe) as [message|].
  - rewrite valid_fold_left by reflexivity. simpl. split; discriminate.
  - simpl. tauto.
Qed.

(** X1. A returned result is valid exactly when the schema checker accepts
    the document, the identifiers of the recipe, of its ingredients and of
    its steps have the required format where they are present, and every
    ingredient has a list of allergens; no other check bears on [valid]. *)
Theorem validity_criterion (self self' : RCIPValidator) (v : Draft7Validator)
    (recipe : json) (r : ValidationResult) (ingredients steps : list json) :
  validate_recipe self recipe = Ok (r, self') ->
  validator self = Some v ->
  items_of recipe "ingredients" = Ok ingredients ->
  items_of recipe "steps" = Ok steps ->
  (valid r = true <->
   validate v recipe = None /\
   well_formed_id RECIPE_ID_PATTERN "id" recipe /\
   Forall (fun ingredient =>
             well_formed_id INGREDIENT_ID_PATTERN "id" ingredient
             /\ lists_allergens ingredient) ingredients /\
   Forall (well_formed_id STEP_ID_PATTERN "step_id") steps).
Proof.
  intros H Hv Hi Hs.
  apply validate_recipe_inv in H.
  destruct H as (v' & d & w & i & Hv' & Hd & _ & _ & -> & _).
  assert (v' = v) by congruence. subst v'.
  cbn [valid assembled]. rewrite andb_true_iff, valid_schema_stage.
  rewrite custom_rules_split in Hd.
  bind_inv Hd. bind_inv Hd.
  apply version_rule_findings in Hd. destruct Hd as [-> _].
  apply valid_references in E0. rewrite E0. clear E0 a0.
  unfold rules_before_references in E.
  bind_inv E. bind_inv E. rewrite Hi in E. cbn [bind] in E. bind_inv E.
  rewrite Hs in E. cbn [bind] in E.
  apply (valid_id_check _ _ _ _ _ _ _ E0) in E1.
  apply (valid_for_enumerate _ _ _
           (fun i a r d => valid_ingredient a i r d)) in E2.
  apply (valid_for_enumerate _ _ _ (fun i a r d => valid_step a i r d)) in E.
  rewrite E, E2, E1. cbn [valid blank]. tauto.
Qed.

Lemma validity_criterion_witness :
  exists r self',
    validate_recipe sample_validator recipe_dangling_ingredient = Ok (r, self') /\
    valid r = true.
Proof.
  destruct (validate_recipe sample_validator recipe_dangling_ingredient)
    as [[r self']|e] eqn:E; [|vm_compute in E; discriminate E].
  exists r, self'. split; [reflexivity|].
  apply (validity_criterion _ _ accept_all _ _ [sample_ingredient]
           [JDict [("step_id", JStr "s-1"); ("action", JStr "heat");
                   ("target", JList [JStr "ing-2"])]] E);
    try reflexivity.
  split; [reflexivity|]. split.
  - intros id Hid. injection Hid as <-. reflexivity.
  - split.
    + repeat constructor.
      * intros id Hid. injection Hid as <-. reflexivity.
      * eexists. reflexivity.
    + repeat constructor. intros id Hid. injection Hid as <-. reflexivity.
Defined.
(** ** The schema stage *)

Lemma errors_fold_left_append {A : Type} (f : A -> string) (l : list A)
    (r : ValidationResult) :
  errors (fold_left (fun r a => append_error (f a) r) l r) = app (errors r) (map f l).
Proof.
  revert r. induction l as [|a l IH]; intros r; simpl.
  - now rewrite app_nil_r.
  - rewrite IH. cbn [errors append_error]. unfold push. now rewrite <- app_assoc.
Qed.

(** X2. When the schema checker rejects the document, the returned result
    is invalid, its errors begin with the message of the rejection followed
    by one line per violation, in the order the checker lists them, and the
    call is counted as failed. *)
Theorem schema_rejection_reported (self self' : RCIPValidator) (v : Draft7Validator)
    (recipe : json) (r : ValidationResult) (message : string) :
  validate_recipe self recipe = Ok (r, self') ->
  validator self = Some v ->
  validate v recipe = Some message ->
  valid r = false /\
  failed (stats self') = failed (stats self) + 1 /\
  passed (stats self') = passed (stats self) /\
  exists rest,
    errors r
    = ("Schema validation failed: " ++ message)
        :: app (map (fun error =>
                       join " > " (map py_str (fst error)) ++ ": " ++ snd error)
                  (iter_errors v recipe))
             rest.
Proof.
  intros H Hv Hm.
  apply validate_recipe_inv in H.
  destruct H as (v' & d & w & i & Hv' & Hd & _ & _ & Hr & ->).
  assert (v' = v) by congruence. subst v'.
  assert (Hs : valid (schema_stage v recipe blank) = false).
  { destruct (valid (schema_stage v recipe blank)) eqn:E; [|reflexivity].
    apply valid_schema_stage in E. congruence. }
  assert (Hf : valid r = false).
  { subst r. cbn [valid assembled]. now rewrite Hs. }
  split; [exact Hf|]. rewrite Hf. cbn [counted stats count failed passed].
  split; [reflexivity|]. split; [reflexivity|].
  exists (errors d). subst r. cbn [errors assembled].
  unfold schema_stage. rewrite Hm.
  rewrite (errors_fold_left_append
             (fun error => join " > " (map py_str (fst error)) ++ ": " ++ snd error)).
  reflexivity.
Qed.

Lemma schema_rejection_reported_witness :
  exists r self',
    validate_recipe strict_validator recipe_without_steps = Ok (r, self') /\
    valid r = false /\
    exists rest,
      errors r = "Schema validation failed: 'steps' is a required property"
                   :: ": 'steps' is a required property" :: rest.
Proof.
  destruct (validate_recipe strict_validator recipe_without_steps)
    as [[r self']|e] eqn:E; [|vm_compute in E; discriminate E].
  exists r, self'. split; [reflexivity|].
  destruct (schema_rejection_reported _ _ strict_checker _ _
              "'steps' is a required property" E eq_refl eq_refl)
    as (Hv & _ & _ & rest & He).
  split; [exact Hv | exists rest; exact He].
Defined.
(** ** The warnings of a returned result *)

Lemma length_push (l : list string) (x : string) :
  List.length (push l x) = S (List.length l).
Proof. unfold push. rewrite length_app. simpl. lia. Qed.

Lemma NoDup_push (l : list string) (x : string) :
  NoDup l -> ~ In x l -> NoDup (push l x).
Proof.
  intros Hl Hx. unfold push. apply NoDup_app; [exact Hl | repeat constructor; auto |].
  intros y Hy [<-|[]]. contradiction.
Qed.

Lemma tidy_push (l seen : list string) (x : string) (n : nat) :
  tidy n seen l -> ~ In x seen -> tidy (S n) (x :: seen) (push l x).
Proof.
  intros (Hn & Hd & Hi) Hx. unfold tidy. rewrite length_push. split; [lia|]. split.
  - apply NoDup_push; auto.
  - intros y Hy. apply In_push in Hy. destruct Hy as [Hy| ->]; [right; auto | now left].
Qed.

Lemma tidy_keep (l seen : list string) (x : string) (n : nat) :
  tidy n seen l -> tidy (S n) (x :: seen) l.
Proof.
  intros (Hn & Hd & Hi). unfold tidy. split; [lia|]. split; [exact Hd|].
  intros y Hy. right; auto.
Qed.

Lemma tidy_nil : tidy 0 [] [].
Proof. unfold tidy. simpl. split; [lia|]. split; [constructor | intros y []]. Qed.

Lemma tidy_more (l seen : list string) (n : nat) : tidy n seen l -> tidy (S n) seen l.
Proof.
  intros (Hn & Hd & Hi). unfold tidy. split; [lia|]. split; assumption.
Qed.

Lemma tidy_if_push (b : bool) (l seen : list string) (x : string) (n : nat) :
  tidy n seen l -> ~ In x seen -> tidy (S n) (x :: seen) (if b then push l x else l).
Proof.
  intros Hl Hx. destruct b; [now apply tidy_push | now apply tidy_keep].
Qed.

Ltac fresh_message :=
  let Hin := fresh "Hin" in
  simpl; intros Hin;
  repeat (destruct Hin as [Hin|Hin]; [discriminate Hin|]);
  exact Hin.

Lemma check_warnings_tidy (recipe : json) (w : list string) :
  _check_warnings recipe = Ok w -> (List.length w <= 8)%nat /\ NoDup w.
Proof.
  unfold _check_warnings. intros H. repeat bind_inv H.
  inversion H; subst w; clear H.
  match goal with
  | E : (if ?b then _ else _) = Ok ?w |- context [push ?w _] =>
      destruct b; [bind_inv E|]; inversion E; subst; clear E
  end.
  all: match goal with
       | |- (List.length ?l <= 8)%nat /\ NoDup ?l =>
           enough (Hw : exists seen, tidy 8 seen l)
             by (destruct Hw as (seen & Hn & Hd & _); auto)
       end.
  all: eexists; apply tidy_if_push; [|shelve].
  1: apply tidy_push; [|shelve].
  2: apply tidy_more.
  all: do 6 (apply tidy_if_push; [|shelve]).
  all: apply tidy_nil.
  Unshelve.
  all: fresh_message.
Qed.

(** X3. The warnings of a returned result are those of [_check_warnings]:
    at most eight, each one of its advisories, none of them twice.  The
    warnings the custom rules add ([Non-standard unit], [Non-standard
    hazard], the version and device profile warnings) are not among them. *)
Theorem returned_warnings_tidy (self self' : RCIPValidator) (recipe : json)
    (r : ValidationResult) :
  validate_recipe self recipe = Ok (r, self') ->
  (List.length (warnings r) <= 8)%nat /\
  NoDup (warnings r) /\
  Forall advisory (warnings r) /\
  (forall rest, ~ In ("Ingredient " ++ rest) (warnings r)) /\
  (forall rest, ~ In ("Step " ++ rest) (warnings r)) /\
  (forall rest, ~ In ("Recipe version " ++ rest) (warnings r)).
Proof.
  intros H. apply returned_warnings in H.
  pose proof (check_warnings_tidy _ _ H) as [Hn Hd].
  pose proof (check_warnings_advisory _ _ H) as Ha.
  split; [exact Hn|]. split; [exact Hd|]. split; [exact Ha|].
  rewrite Forall_forall in Ha.
  split; [|split]; intros rest Hin; apply Ha in Hin.
  - destruct Hin as [Hin|(t & h & Heq)]; simpl in *; [|discriminate].
    intuition discriminate.
  - exact (advisory_not_step _ rest Hin eq_refl).
  - exact (advisory_not_version _ rest Hin eq_refl).
Qed.

Lemma returned_warnings_tidy_witness :
  exists r self',
    validate_recipe sample_validator recipe_unknown_device = Ok (r, self') /\
    NoDup (warnings r) /\
    ~ In "Step s-1: Unknown device profile 'oven-1'" (warnings r).
Proof.
  destruct (validate_recipe sample_validator recipe_unknown_device)
    as [[r self']|e] eqn:E; [|vm_compute in E; discriminate E].
  exists r, self'. split; [reflexivity|].
  destruct (returned_warnings_tidy _ _ _ _ E) as (_ & Hd & _ & _ & Hs & _).
  split; [exact Hd | apply Hs].
Defined.
(** ** The summary of a recipe *)

Lemma get_recipe_info_inv (recipe : json) (i : pydict) :
  _get_recipe_info recipe = Ok i ->
  exists meta ingredients allergens name version recipe_version ingredient_count
         step_count device_profiles sensors sorted_allergens diet_labels difficulty
         total_time,
    py_get recipe "meta" (JDict []) = Ok meta /\
    items_of recipe "ingredients" = Ok ingredients /\
    collect_allergens ingredients = Ok allergens /\
    py_get meta "name" (JStr "Unknown") = Ok name /\
    py_get recipe "rcip_version" JNull = Ok version /\
    py_get meta "version" JNull = Ok recipe_version /\
    (v <- py_get recipe "ingredients" (JList []) ;; py_len v) = Ok ingredient_count /\
    (v <- py_get recipe "steps" (JList []) ;; py_len v) = Ok step_count /\
    py_get recipe "device_profiles" JNull = Ok device_profiles /\
    py_get recipe "sensors" JNull = Ok sensors /\
    py_sorted allergens = Ok sorted_allergens /\
    py_get meta "diet_labels" (JList []) = Ok diet_labels /\
    py_get meta "difficulty" (JStr "not specified") = Ok difficulty /\
    py_get meta "total_time_minutes" (JStr "not specified") = Ok total_time /\
    i = [("name", name); ("version", version); ("recipe_version", recipe_version);
         ("ingredient_count", JInt ingredient_count); ("step_count", JInt step_count);
         ("has_device_profiles", JBool (truthy device_profiles));
         ("has_sensors", JBool (truthy sensors));
         ("allergens", JList sorted_allergens); ("diet_labels", diet_labels);
         ("difficulty", difficulty); ("total_time", total_time)].
Proof.
  unfold _get_recipe_info. intros H.
  destruct (py_get recipe "meta" (JDict [])) as [meta|] eqn:E1; [|discriminate H].
  destruct (items_of recipe "ingredients") as [ingredients|] eqn:E2; [|discriminate H].
  cbn [bind] in H.
  destruct (collect_allergens ingredients) as [allergens|] eqn:E3; [|discriminate H].
  destruct (py_get meta "name" (JStr "Unknown")) as [name|] eqn:E4; [|discriminate H].
  destruct (py_get recipe "rcip_version" JNull) as [version|] eqn:E5; [|discriminate H].
  destruct (py_get meta "version" JNull) as [rv|] eqn:E6; [|discriminate H].
  cbn [bind] in H.
  destruct (v <- py_get recipe "ingredients" (JList []) ;; py_len v) as [ic|] eqn:E7;
    [|discriminate H].
  destruct (v <- py_get recipe "steps" (JList []) ;; py_len v) as [sc|] eqn:E8;
    [|discriminate H].
  destruct (py_get recipe "device_profiles" JNull) as [dp|] eqn:E9; [|discriminate H].
  destruct (py_get recipe "sensors" JNull) as [se|] eqn:E10; [|discriminate H].
  cbn [bind] in H.
  destruct (py_sorted allergens) as [sa|] eqn:E11; [|discriminate H].
  destruct (py_get meta "diet_labels" (JList [])) as [dl|] eqn:E12; [|discriminate H].
  destruct (py_get meta "difficulty" (JStr "not specified")) as [di|] eqn:E13;
    [|discriminate H].
  destruct (py_get meta "total_time_minutes" (JStr "not specified")) as [tt|] eqn:E14;
    [|discriminate H].
  cbn [bind] in H. injection H as <-.
  exists meta, ingredients, allergens, name, version, rv, ic, sc, dp, se, sa, dl, di, tt.
  repeat (split; [assumption || reflexivity|]). reflexivity.
Qed.

Lemma returned_info (self self' : RCIPValidator) (recipe : json) (r : ValidationResult) :
  validate_recipe self recipe = Ok (r, self') -> _get_recipe_info recipe = Ok (info r).
Proof.
  intros H.
  destruct (validate_recipe_inv _ _ _ _ H) as (v & d & w & i & _ & _ & _ & Hi & -> & _).
  exact Hi.
Qed.

Lemma length_chars (s : string) : List.length (chars s) = String.length s.
Proof. induction s; simpl; congruence. Qed.

Lemma len_items (recipe : json) (field : string) (items : list json) :
  items_of recipe field = Ok items ->
  (v <- py_get recipe field (JList []) ;; py_len v) = Ok (Z.of_nat (List.length items)).
Proof.
  unfold items_of. intros H. bind_inv H. cbn [bind].
  destruct a; simpl in H; try discriminate H; injection H as <-; simpl.
  - now rewrite length_map, length_chars.
  - reflexivity.
  - now rewrite length_map.
Qed.

(** X4. The summary of a returned result has the eleven keys of the source,
    its two counts are the numbers of ingredients and of steps the rules
    visited, and a field the metadata lacks gets its default. *)
Theorem info_summary (self self' : RCIPValidator) (recipe : json) (r : ValidationResult)
    (ingredients steps : list json) :
  validate_recipe self recipe = Ok (r, self') ->
  items_of recipe "ingredients" = Ok ingredients ->
  items_of recipe "steps" = Ok steps ->
  exists document meta,
    recipe = JDict document /\
    get_or (JDict []) "meta" document = JDict meta /\
    map fst (info r) = info_keys /\
    lookup "ingredient_count" (info r) = Some (JInt (Z.of_nat (List.length ingredients))) /\
    lookup "step_count" (info r) = Some (JInt (Z.of_nat (List.length steps))) /\
    lookup "name" (info r) = Some (get_or (JStr "Unknown") "name" meta) /\
    lookup "version" (info r) = Some (get_or JNull "rcip_version" document) /\
    lookup "recipe_version" (info r) = Some (get_or JNull "version" meta) /\
    lookup "has_device_profiles" (info r)
    = Some (JBool (truthy (get_or JNull "device_profiles" document))) /\
    lookup "has_sensors" (info r) = Some (JBool (truthy (get_or JNull "sensors" document))) /\
    lookup "diet_labels" (info r) = Some (get_or (JList []) "diet_labels" meta) /\
    lookup "difficulty" (info r) = Some (get_or (JStr "not specified") "difficulty" meta) /\
    lookup "total_time" (info r)
    = Some (get_or (JStr "not specified") "total_time_minutes" meta).
Proof.
  intros H Hi Hs. apply returned_info in H. apply get_recipe_info_inv in H.
  destruct H as (meta & ingredients' & allergens & name & version & rv & ic & sc & dp
                 & se & sa & dl & di & tt & Hmeta & _ & _ & Hname & Hversion & Hrv
                 & Hic & Hsc & Hdp & Hse & _ & Hdl & Hdi & Htt & ->).
  rewrite (len_items _ _ _ Hi) in Hic. injection Hic as <-.
  rewrite (len_items _ _ _ Hs) in Hsc. injection Hsc as <-.
  destruct recipe as [| | | | | |document]; try discriminate Hmeta.
  destruct meta as [| | | | | |meta]; try discriminate Hname.
  exists document, meta.
  cbn [py_get] in *. unfold get_or.
  injection Hmeta as Hmeta. injection Hname as <-. injection Hversion as <-.
  injection Hrv as <-. injection Hdp as <-. injection Hse as <-. injection Hdl as <-.
  injection Hdi as <-. injection Htt as <-.
  repeat split; try reflexivity. exact Hmeta.
Qed.

Lemma info_summary_witness :
  exists r self',
    validate_recipe sample_validator recipe_long = Ok (r, self') /\
    lookup "ingredient_count" (info r) = Some (JInt 1) /\
    lookup "difficulty" (info r) = Some (JStr "not specified").
Proof.
  destruct (validate_recipe sample_validator recipe_long)
    as [[r self']|e] eqn:E; [|vm_compute in E; discriminate E].
  exists r, self'. split; [reflexivity|].
  destruct (info_summary _ _ _ _ [sample_ingredient]
              [JDict [("step_id", JStr "s-1"); ("action", JStr "ferment");
                      ("target", JList [JStr "ing-1"])]] E eq_refl eq_refl)
    as (document & meta & Hd & Hm & _ & Hic & _ & _ & _ & _ & _ & _ & _ & Hdi & _).
  injection Hd as <-. injection Hm as <-.
  split; [exact Hic | exact Hdi].
Defined.
(** ** The allergens of the summary *)

Lemma xnum_compare_antisym (a b : xnum) :
  xnum_compare b a = CompOpp (xnum_compare a b).
Proof.
  destruct a, b; simpl; try reflexivity.
  rewrite (Z.min_comm e0 e). apply Z.compare_antisym.
Qed.

(** Of two values that can be compared and are not equal, one is below the
    other. *)
Lemma py_lt_total (a b : json) :
  py_lt a b = Ok false -> py_eq a b = false -> py_lt b a = Ok true.
Proof.
  assert (Hn : forall x y,
             match as_number x, as_number y with
             | Some x, Some y => Ok match xnum_compare x y with Lt => true | _ => false end
             | _, _ => Raise TypeError
             end = Ok false ->
             match as_number x, as_number y with
             | Some x, Some y => match xnum_compare x y with Eq => true | _ => false end
             | _, _ => false
             end = false ->
             match as_number y, as_number x with
             | Some x, Some y => Ok match xnum_compare x y with Lt => true | _ => false end
             | _, _ => Raise TypeError
             end = Ok true).
  { intros x y. destruct (as_number x) as [p|], (as_number y) as [q|]; try discriminate.
    rewrite (xnum_compare_antisym p q). destruct (xnum_compare p q); simpl; congruence. }
  destruct a, b; cbn [py_lt py_eq]; try apply Hn; try discriminate.
  unfold String.ltb. intros Hlt Heq.
  rewrite (String.compare_antisym s0 s).
  destruct (String.compare s s0) eqn:E; simpl; try congruence.
  apply String.compare_eq_iff in E. subst. now rewrite String.eqb_refl in Heq.
Qed.

Lemma sorted_insert_In (x : json) (l r : list json) :
  sorted_insert x l = Ok r -> forall y, In y r <-> y = x \/ In y l.
Proof.
  revert r. induction l as [|a l IH]; intros r H y; simpl in H.
  - injection H as <-. simpl. intuition.
  - bind_inv H. destruct a0.
    + injection H as <-. simpl. intuition.
    + bind_inv H. injection H as <-. simpl. rewrite (IH _ eq_refl). intuition.
Qed.

Lemma sorted_insert_head (x a : json) (l r : list json) :
  sorted_insert x l = Ok r -> below a x -> HdRel below a l -> HdRel below a r.
Proof.
  intros H Hax Hal. destruct l as [|b l]; simpl in H.
  - injection H as <-. now constructor.
  - bind_inv H. destruct a0.
    + injection H as <-. now constructor.
    + bind_inv H. injection H as <-. constructor. now inversion Hal.
Qed.

Lemma sorted_insert_sorted (x : json) (l r : list json) :
  sorted_insert x l = Ok r ->
  Sorted below l -> (forall y, In y l -> py_eq x y = false) -> Sorted below r.
Proof.
  revert r. induction l as [|a l IH]; intros r H Hs Hd; simpl in H.
  - injection H as <-. repeat constructor.
  - bind_inv H. destruct a0.
    + injection H as <-. constructor; [exact Hs | now constructor].
    + bind_inv H. injection H as <-.
      apply Sorted_inv in Hs. destruct Hs as [Hs Hh].
      constructor.
      * apply IH; auto. intros y Hy. apply Hd. now right.
      * eapply sorted_insert_head; eauto.
        apply py_lt_total; [exact E | apply Hd; now left].
Qed.

Lemma py_sorted_spec (s r : list json) :
  py_sorted s = Ok r -> distinct s ->
  Sorted below r /\ forall y, In y r <-> In y s.
Proof.
  revert r. induction s as [|x s IH]; intros r H Hd; simpl in H.
  - injection H as <-. split; [constructor | tauto].
  - bind_inv H. destruct Hd as [Hx Hd]. destruct (IH _ eq_refl Hd) as [Hs Hin].
    split.
    + eapply sorted_insert_sorted; eauto. intros y Hy. apply Hx. now apply Hin.
    + intros y. rewrite (sorted_insert_In _ _ _ H). simpl. rewrite Hin. intuition.
Qed.

Lemma py_eq_sym (a b : json) : py_eq b a = py_eq a b.
Proof.
  assert (Hn : forall x y,
             match as_number y, as_number x with
             | Some x, Some y => match xnum_compare x y with Eq => true | _ => false end
             | _, _ => false
             end =
             match as_number x, as_number y with
             | Some x, Some y => match xnum_compare x y with Eq => true | _ => false end
             | _, _ => false
             end).
  { intros x y. destruct (as_number x) as [p|], (as_number y) as [q|]; try reflexivity.
    rewrite (xnum_compare_antisym p q). now destruct (xnum_compare p q). }
  destruct a, b; cbn [py_eq]; try apply Hn; try reflexivity.
  apply String.eqb_sym.
Qed.

Lemma distinct_snoc (s : list json) (v : json) :
  distinct s -> existsb (py_eq v) s = false -> distinct (s ++ [v]).
Proof.
  induction s as [|x s IH]; simpl; intros Hd Hv.
  - split; [intros y []|exact I].
  - apply orb_false_iff in Hv. destruct Hv as [Hx Hv]. destruct Hd as [Hxs Hd].
    split; [|auto].
    intros y Hy. apply in_app_iff in Hy. destruct Hy as [Hy|[<-|[]]]; [auto|].
    now rewrite py_eq_sym.
Qed.

Lemma set_add_distinct (v : json) (s s' : pyset) :
  set_add v s = Ok s' -> distinct s -> distinct s'.
Proof.
  unfold set_add. destruct (hashable v); [|discriminate].
  destruct (existsb (py_eq v) s) eqn:E; intros H Hd; injection H as <-; [exact Hd|].
  now apply distinct_snoc.
Qed.

Lemma set_add_In_str (t : string) (v : json) (s s' : pyset) :
  set_add v s = Ok s' -> (In (JStr t) s' <-> In (JStr t) s \/ v = JStr t).
Proof.
  intros H. split; [now apply set_add_str|].
  unfold set_add in H. destruct (hashable v); [|discriminate].
  destruct (existsb (py_eq v) s) eqn:E; injection H as <-.
  - intros [Hin| ->]; [exact Hin | now apply existsb_py_eq_str].
  - rewrite in_app_iff. simpl. intuition.
Qed.

Lemma add_all_spec (l : list json) (s s' : pyset) :
  for_each set_add l s = Ok s' ->
  (distinct s -> distinct s') /\
  forall t, In (JStr t) s' <-> In (JStr t) s \/ In (JStr t) l.
Proof.
  revert s. induction l as [|v l IH]; intros s H; simpl in H.
  - injection H as <-. split; [auto | simpl; tauto].
  - bind_inv H. destruct (IH _ H) as [Hd Hin]. split.
    + intros Hs. apply Hd. eapply set_add_distinct; eauto.
    + intros t. rewrite Hin, (set_add_In_str _ _ _ _ E). simpl.
      split; [intros [[?| ->]|?] | intros [?|[->|?]]]; auto.
Qed.

Lemma collect_from_spec (ingredients : list json) (s s' : pyset) :
  for_each
    (fun ingredient s =>
       allergens <- (v <- py_get ingredient "allergens" (JList []) ;; py_iter v) ;;
       for_each set_add allergens s)
    ingredients s = Ok s' ->
  (distinct s -> distinct s') /\
  forall t, In (JStr t) s' <->
            In (JStr t) s \/
            exists ingredient allergens,
              In ingredient ingredients /\ allergens_of ingredient = Ok allergens
              /\ In (JStr t) allergens.
Proof.
  revert s. induction ingredients as [|x l IH]; intros s H; simpl in H.
  - injection H as <-. split; [auto|]. intros t. split; [auto|].
    intros [?|(i & a & [] & _)]; auto.
  - bind_inv H. bind_inv E. destruct (IH _ H) as [Hd Hin].
    destruct (add_all_spec _ _ _ E) as [Hd' Hin']. split; [auto|].
    intros t. rewrite Hin, Hin'. split.
    + intros [[?|?]|(i & al & Hi & Ha & Ht)]; auto.
      * right. exists x, a0. split; [now left|]. split; [exact E0 | assumption].
      * right. exists i, al. split; [now right|]. auto.
    + intros [?|(i & al & [<-|Hi] & Ha & Ht)]; auto.
      * left. right. unfold allergens_of in Ha. rewrite E0 in Ha. now injection Ha as <-.
      * right. exists i, al. auto.
Qed.

Lemma sorted_insert_distinct (x : json) (l r : list json) :
  sorted_insert x l = Ok r ->
  distinct l -> (forall y, In y l -> py_eq x y = false) -> distinct r.
Proof.
  revert r. induction l as [|a l IH]; intros r H Hd Hx; simpl in H.
  - injection H as <-. simpl. split; [intros y []|exact I].
  - bind_inv H. destruct a0.
    + injection H as <-. split; [exact Hx | exact Hd].
    + bind_inv H. injection H as <-. destruct Hd as [Ha Hd]. split.
      * intros y Hy. apply (sorted_insert_In _ _ _ E0) in Hy. destruct Hy as [->|Hy].
        -- rewrite py_eq_sym. apply Hx. now left.
        -- now apply Ha.
      * apply IH; auto. intros y Hy. apply Hx. now right.
Qed.

Lemma py_sorted_distinct (s r : list json) :
  py_sorted s = Ok r -> distinct s -> distinct r.
Proof.
  revert r. induction s as [|x s IH]; intros r H Hd; simpl in H.
  - now injection H as <-.
  - bind_inv H. destruct Hd as [Hx Hd].
    eapply sorted_insert_distinct; eauto.
    intros y Hy. apply Hx. now apply (py_sorted_spec _ _ E Hd).
Qed.

Lemma xnum_compare_refl (x : xnum) : xnum_compare x x = Eq.
Proof. destruct x; simpl; auto using Z.compare_refl. Qed.

(** Every value that can be compared with another one equals itself. *)
Lemma py_lt_eq_refl (a b : json) (c : bool) : py_lt a b = Ok c -> py_eq a a = true.
Proof.
  destruct a; cbn [py_lt py_eq]; try (destruct b; discriminate); intros H.
  4: apply String.eqb_refl.
  all: destruct (as_number _); [now rewrite xnum_compare_refl | discriminate H].
Qed.

Lemma sorted_distinct_NoDup (l : list json) : Sorted below l -> distinct l -> NoDup l.
Proof.
  induction l as [|x l IH]; intros Hs Hd; [constructor|].
  apply Sorted_inv in Hs. destruct Hs as [Hs Hh]. destruct Hd as [Hx Hd].
  constructor; [|auto].
  intros Hin. pose proof (Hx _ Hin) as Hne.
  destruct Hh as [|y l Hxy]; [destruct Hin|].
  apply py_lt_eq_refl in Hxy. congruence.
Qed.

(** X5. The [allergens] entry of the summary lists, in ascending order and
    without repetition, the allergens named by the ingredients: a string is
    in the list exactly when some ingredient names it. *)
Theorem info_allergens_sorted (self self' : RCIPValidator) (recipe : json)
    (r : ValidationResult) (ingredients : list json) :
  validate_recipe self recipe = Ok (r, self') ->
  items_of recipe "ingredients" = Ok ingredients ->
  exists sorted,
    lookup "allergens" (info r) = Some (JList sorted) /\
    Sorted below sorted /\
    NoDup sorted /\
    forall t, In (JStr t) sorted <->
              exists ingredient allergens,
                In ingredient ingredients /\ allergens_of ingredient = Ok allergens
                /\ In (JStr t) allergens.
Proof.
  intros H Hi. apply returned_info in H. apply get_recipe_info_inv in H.
  destruct H as (meta & ingredients' & allergens & name & version & rv & ic & sc & dp
                 & se & sa & dl & di & tt & _ & Hi' & Hc & _ & _ & _
                 & _ & _ & _ & _ & Hs & _ & _ & _ & ->).
  assert (ingredients' = ingredients) by congruence. subst ingredients'.
  exists sa. split; [reflexivity|].
  unfold collect_allergens in Hc. apply collect_from_spec in Hc.
  destruct Hc as [Hd Hin].
  destruct (py_sorted_spec _ _ Hs (Hd I)) as [Hsorted Hperm].
  split; [exact Hsorted|].
  split; [apply sorted_distinct_NoDup; [exact Hsorted|] |].
  - eapply py_sorted_distinct; [exact Hs | exact (Hd I)].
  - intros t. rewrite Hperm, Hin. simpl. tauto.
Qed.

Lemma info_allergens_sorted_witness :
  exists r self',
    validate_recipe sample_validator recipe_two_ingredients = Ok (r, self') /\
    lookup "allergens" (info r) = Some (JList [JStr "gluten"; JStr "milk"; JStr "wheat"]) /\
    Sorted below [JStr "gluten"; JStr "milk"; JStr "wheat"].
Proof.
  destruct (validate_recipe sample_validator recipe_two_ingredients)
    as [[r self']|e] eqn:E; [|vm_compute in E; discriminate E].
  exists r, self'. split; [reflexivity|].
  destruct (info_allergens_sorted _ _ _ _ _ E eq_refl) as (sorted & Hl & Hs & _ & _).
  assert (Hc : lookup "allergens" (info r)
               = Some (JList [JStr "gluten"; JStr "milk"; JStr "wheat"])).
  { vm_compute in E. injection E as <- _. reflexivity. }
  split; [exact Hc|].
  rewrite Hc in Hl. injection Hl as <-. exact Hs.
Defined.
(** ** Documents the rules cannot inspect *)

(** Runs a computation that is known to raise, case by case. *)
Ltac raised H :=
  repeat first
    [ progress cbn [bind negb py_contains py_getitem py_get py_iter re_match set_mem
                    set_add py_lt_int items_of] in H
    | discriminate H
    | injection H as <-; reflexivity
    | match type of H with
      | context [py_contains _ ?x] => is_var x; destruct x
      | context [py_getitem ?x _] => is_var x; destruct x
      | context [py_get ?x _ _] => is_var x; destruct x
      | context [re_match _ ?x] => is_var x; destruct x
      | context [py_lt_int _ _] => unfold py_lt_int in H
      | context [has_key ?k ?d] => unfold has_key in H
      | context [match lookup ?k ?d with _ => _ end] => destruct (lookup k d) eqn:?
      | context [match as_number ?v with _ => _ end] => destruct (as_number v) eqn:?
      | context [if ?b then _ else _] => destruct b eqn:?
      | context [match ?x with _ => _ end] => is_var x; destruct x
      end ].

Lemma validate_ingredient_raises (ingredient : json) (index : nat)
    (r : ValidationResult) (e : exn) :
  _validate_ingredient ingredient index r = Raise e -> e = TypeError.
Proof.
  unfold _validate_ingredient. intros H. raised H.
Qed.

Lemma validate_step_raises (step : json) (index : nat) (r : ValidationResult) (e : exn) :
  _validate_step step index r = Raise e -> e = TypeError.
Proof.
  unfold _validate_step. intros H. raised H.
Qed.

Lemma for_enumerate_all {A St : Type} (body : nat -> A -> St -> outcome St)
    (l : list A) (i : nat) (s s' : St) :
  for_enumerate body i l s = Ok s' ->
  Forall (fun a => exists i s s', body i a s = Ok s') l.
Proof.
  revert i s. induction l as [|a l IH]; intros i s H; simpl in H; [constructor|].
  destruct (body i a s) as [s1|] eqn:E; [|discriminate H]. simpl in H.
  constructor; eauto.
Qed.

Lemma for_enumerate_raises {A St : Type} (body : nat -> A -> St -> outcome St)
    (x : exn) (l : list A) (i : nat) (s : St) (e : exn) :
  (forall i a s e, body i a s = Raise e -> e = x) ->
  for_enumerate body i l s = Raise e -> e = x.
Proof.
  intros Hb. revert i s. induction l as [|a l IH]; intros i s H; simpl in H.
  - discriminate H.
  - destruct (body i a s) as [s1|e1] eqn:E; simpl in H; [eauto|].
    apply Hb in E. congruence.
Qed.

Lemma items_of_raises (d : pydict) (field : string) (e : exn) :
  items_of (JDict d) field = Raise e -> e = TypeError.
Proof.
  unfold items_of. cbn [py_get bind]. destruct (lookup field d) as [v|]; simpl.
  - destruct v; simpl; congruence.
  - discriminate.
Qed.

Lemma ingredient_id_raises (ingredient : json) (index : nat) (r r' : ValidationResult) :
  non_string_under "id" ingredient ->
  _validate_ingredient ingredient index r <> Ok r'.
Proof.
  intros (d & v & -> & Hl & Hv). unfold _validate_ingredient.
  cbn [py_contains py_getitem bind]. unfold has_key.
  rewrite Hl. cbn [bind]. destruct v; try discriminate Hv; discriminate.
Qed.

Lemma step_id_raises (step : json) (index : nat) (r r' : ValidationResult) :
  non_string_under "step_id" step ->
  _validate_step step index r <> Ok r'.
Proof.
  intros (d & v & -> & Hl & Hv). unfold _validate_step.
  cbn [py_contains py_getitem bind]. unfold has_key.
  rewrite Hl. cbn [bind]. destruct v; try discriminate Hv; discriminate.
Qed.

Lemma rules_before_references_raises (d : pydict) (r : ValidationResult) (e : exn) :
  rules_before_references (JDict d) r = Raise e -> e = TypeError.
Proof.
  unfold rules_before_references. intros H.
  cbn [py_contains bind] in H.
  match type of H with
  | bind ?m _ = _ => destruct m as [r1|e1] eqn:E1; cbn [bind] in H
  end.
  2: { injection H as <-. raised E1. }
  clear E1.
  destruct (items_of (JDict d) "ingredients") as [ingredients|e1] eqn:E2;
    cbn [bind] in H.
  2: { injection H as <-. now apply items_of_raises in E2. }
  match type of H with
  | bind ?m _ = _ => destruct m as [r2|e2] eqn:E3; cbn [bind] in H
  end.
  2: { injection H as <-. revert E3. apply for_enumerate_raises.
       intros i a s e. apply validate_ingredient_raises. }
  destruct (items_of (JDict d) "steps") as [steps|e1] eqn:E4; cbn [bind] in H.
  2: { injection H as <-. now apply items_of_raises in E4. }
  revert H. apply for_enumerate_raises.
  intros i a s e'. apply validate_step_raises.
Qed.

Lemma rules_before_references_stop (recipe : json) (r r' : ValidationResult) :
  non_string_under "id" recipe
  \/ (exists ingredients,
        items_of recipe "ingredients" = Ok ingredients
        /\ Exists (non_string_under "id") ingredients)
  \/ (exists steps,
        items_of recipe "steps" = Ok steps
        /\ Exists (non_string_under "step_id") steps) ->
  rules_before_references recipe r <> Ok r'.
Proof.
  unfold rules_before_references.
  intros [(d & v & -> & Hl & Hv)|[(ingredients & Hi & He)|(steps & Hs & He)]] H.
  - cbn [py_contains py_getitem bind] in H. unfold has_key in H.
    rewrite Hl in H. cbn [bind] in H. destruct v; try discriminate Hv; discriminate H.
  - bind_inv H. bind_inv H. rewrite Hi in H. cbn [bind] in H. bind_inv H.
    apply for_enumerate_all in E1.
    apply Exists_exists in He. destruct He as (x & Hx & Hn).
    rewrite Forall_forall in E1. destruct (E1 _ Hx) as (i & s & s' & Hb).
    now apply ingredient_id_raises in Hb.
  - bind_inv H. bind_inv H. bind_inv H. bind_inv H. rewrite Hs in H. cbn [bind] in H.
    apply for_enumerate_all in H.
    apply Exists_exists in He. destruct He as (x & Hx & Hn).
    rewrite Forall_forall in H. destruct (H _ Hx) as (i & s & s' & Hb).
    now apply step_id_raises in Hb.
Qed.

(** X6. An identifier that is present but is not a string (the [id] of the
    recipe or of an ingredient, the [step_id] of a step) makes
    [validate_recipe] raise [TypeError]: the document gets no result, not
    even an invalid one, and is not counted. *)
Theorem non_string_id_raises (self : RCIPValidator) (v : Draft7Validator)
    (recipe : json) :
  validator self = Some v ->
  non_string_under "id" recipe
  \/ (exists ingredients,
        items_of recipe "ingredients" = Ok ingredients
        /\ Exists (non_string_under "id") ingredients)
  \/ (exists steps,
        items_of recipe "steps" = Ok steps
        /\ Exists (non_string_under "step_id") steps) ->
  validate_recipe self recipe = Raise TypeError /\
  perform self (Validate recipe) = self.
Proof.
  intros Hv Hn.
  assert (Hr : validate_recipe self recipe = Raise TypeError).
  { rewrite (validate_recipe_eq _ _ _ Hv), custom_rules_split.
    assert (Hd : exists d, recipe = JDict d).
    { destruct Hn as [(d & _ & -> & _)|[(l & Hi & _)|(l & Hi & _)]]; eauto.
      all: eapply items_of_dict; eassumption. }
    destruct Hd as [d ->].
    destruct (rules_before_references (JDict d) blank) as [r'|e] eqn:E.
    - now apply rules_before_references_stop in E.
    - apply rules_before_references_raises in E. now subst. }
  split; [exact Hr|]. unfold perform. now rewrite Hr.
Qed.

Lemma non_string_id_raises_witness :
  validate_recipe sample_validator recipe_numeric_id = Raise TypeError.
Proof.
  apply (non_string_id_raises sample_validator accept_all recipe_numeric_id eq_refl).
  right. left. eexists. split; [reflexivity|].
  apply Exists_cons_tl, Exists_cons_hd.
  exists [("id", JInt 2); ("name", JStr "butter"); ("allergens", JList [JStr "milk"])],
         (JInt 2).
  repeat split; reflexivity.
Defined.

(** X7. A document that is not an object (an array, a string, a number,
    a boolean or null) makes [validate_recipe] raise [TypeError] or
    [AttributeError], whatever the schema checker said about it. *)
Theorem non_object_document_raises (self : RCIPValidator) (v : Draft7Validator)
    (recipe : json) :
  validator self = Some v ->
  is_dict recipe = false ->
  validate_recipe self recipe
  = Raise (match recipe with
           | JStr s => if contains "id" s then TypeError else AttributeError
           | JList l => if existsb (eq_str "id") l then TypeError else AttributeError
           | _ => TypeError
           end).
Proof.
  intros Hv Hd. rewrite (validate_recipe_eq _ _ _ Hv). unfold _validate_custom_rules.
  destruct recipe; try discriminate Hd; cbn [py_contains bind]; try reflexivity.
  - destruct (contains "id" s); reflexivity.
  - destruct (existsb (eq_str "id") l); reflexivity.
Qed.

Lemma non_object_document_raises_witness :
  validate_recipe strict_validator (JList [sample_ingredient]) = Raise AttributeError.
Proof.
  exact (non_object_document_raises strict_validator strict_checker
           (JList [sample_ingredient]) eq_refl eq_refl).
Defined.
(** ** The identifier patterns *)

Lemma append_empty (s1 s2 : string) : s1 ++ s2 = "" -> s1 = "" /\ s2 = "".
Proof. destruct s1; simpl; [auto | discriminate]. Qed.

Lemma append_nil_r (s : string) : s ++ "" = s.
Proof. induction s; simpl; congruence. Qed.

Lemma append_assoc (a b c : string) : (a ++ b) ++ c = a ++ b ++ c.
Proof. induction a; simpl; congruence. Qed.

Lemma nullable_lang (r : regex) : nullable r = true <-> lang r "".
Proof.
  split.
  - induction r; simpl; intros H; try discriminate.
    + constructor.
    + apply andb_true_iff in H. destruct H.
      change "" with ("" ++ ""). constructor; auto.
    + apply orb_true_iff in H. destruct H; [apply lang_alt_l | apply lang_alt_r]; auto.
    + constructor.
  - intros H. remember "" as s eqn:Hs. induction H; simpl; auto; try discriminate.
    + apply append_empty in Hs. destruct Hs. rewrite IHlang1, IHlang2; auto.
    + rewrite IHlang; auto.
    + rewrite IHlang, orb_true_r; auto.
Qed.

Lemma lang_deriv (c : ascii) (r : regex) (s : string) :
  lang (deriv c r) s -> lang r (String c s).
Proof.
  revert s. induction r; simpl; intros s H.
  - inversion H.
  - inversion H.
  - destruct (p c) eqn:E; inversion H; subst. now constructor.
  - destruct (nullable r1) eqn:E.
    + inversion H; subst.
      * match goal with H1 : lang (RCat _ _) _ |- _ => inversion H1; subst end.
        change (String c (s1 ++ s2)) with (String c s1 ++ s2). constructor; auto.
      * change (String c s) with ("" ++ String c s). constructor; auto.
        now apply nullable_lang.
    + inversion H; subst.
      change (String c (s1 ++ s2)) with (String c s1 ++ s2). constructor; auto.
  - inversion H; subst; [apply lang_alt_l | apply lang_alt_r]; auto.
  - inversion H; subst.
    change (String c (s1 ++ s2)) with (String c s1 ++ s2). constructor; auto.
Qed.

Lemma deriv_lang (c : ascii) (r : regex) (s : string) :
  lang r (String c s) -> lang (deriv c r) s.
Proof.
  intros H. remember (String c s) as t eqn:Ht. revert c s Ht.
  induction H; intros c' s' Ht; simpl; try discriminate.
  - injection Ht as -> <-. rewrite H. constructor.
  - destruct s1 as [|a s1]; simpl in Ht.
    + subst s2. assert (Hn : nullable r1 = true) by now apply nullable_lang.
      rewrite Hn. apply lang_alt_r. auto.
    + injection Ht as -> <-.
      assert (Hc : lang (RCat (deriv c' r1) r2) (s1 ++ s2)) by (constructor; auto).
      destruct (nullable r1); [apply lang_alt_l|]; exact Hc.
  - apply lang_alt_l. auto.
  - apply lang_alt_r. auto.
  - destruct s1 as [|a s1]; simpl in Ht.
    + subst s2. simpl in IHlang2. auto.
    + injection Ht as -> <-. constructor; auto.
Qed.

(** The matcher decides the language of the pattern. *)
Lemma matches_lang (r : regex) (s : string) : matches r s = true <-> lang r s.
Proof.
  revert r. induction s as [|c s IH]; intros r; simpl.
  - apply nullable_lang.
  - rewrite IH. split; [apply lang_deriv | apply deriv_lang].
Qed.

Lemma lang_cat_iff (r1 r2 : regex) (s : string) :
  lang (RCat r1 r2) s <-> exists s1 s2, s = s1 ++ s2 /\ lang r1 s1 /\ lang r2 s2.
Proof.
  split.
  - intros H. inversion H; subst. eauto.
  - intros (s1 & s2 & -> & H1 & H2). now constructor.
Qed.

Lemma lang_eps_iff (s : string) : lang REps s <-> s = "".
Proof.
  split; [intros H; now inversion H | intros ->; constructor].
Qed.

Lemma lang_sym_iff (p : ascii -> bool) (s : string) :
  lang (RSym p) s <-> exists c, s = String c "" /\ p c = true.
Proof.
  split.
  - intros H. inversion H; subst. eauto.
  - intros (c & -> & Hc). now constructor.
Qed.

Lemma lang_lit (w s : string) : lang (lit w) s <-> s = w.
Proof.
  revert s. induction w as [|c w IH]; intros s; simpl.
  - apply lang_eps_iff.
  - rewrite lang_cat_iff. split.
    + intros (s1 & s2 & -> & H1 & H2). apply lang_sym_iff in H1.
      destruct H1 as (c' & -> & Hc). apply IH in H2. subst s2.
      apply Ascii.eqb_eq in Hc. now subst.
    + intros ->. exists (String c ""), w. split; [reflexivity|]. split.
      * constructor. apply Ascii.eqb_refl.
      * now apply IH.
Qed.

Lemma lang_rep_sym (p : ascii -> bool) (n : nat) (s : string) :
  lang (rep n (RSym p)) s <-> String.length s = n /\ all_chars p s = true.
Proof.
  revert s. induction n as [|n IH]; intros s; simpl.
  - rewrite lang_eps_iff. split.
    + intros ->. auto.
    + intros [H _]. now destruct s.
  - rewrite lang_cat_iff. split.
    + intros (s1 & s2 & -> & H1 & H2). apply lang_sym_iff in H1.
      destruct H1 as (c & -> & Hc). apply IH in H2. destruct H2 as [<- H2].
      simpl. now rewrite Hc.
    + intros [Hl Hp]. destruct s as [|c s]; [discriminate|].
      simpl in Hl, Hp. apply andb_true_iff in Hp. destruct Hp as [Hc Hp].
      exists (String c ""), s. split; [reflexivity|]. split.
      * now constructor.
      * apply IH. split; congruence.
Qed.

Lemma lang_star_sym (p : ascii -> bool) (s : string) :
  lang (RStar (RSym p)) s <-> all_chars p s = true.
Proof.
  split.
  - intros H. remember (RStar (RSym p)) as r eqn:Hr.
    induction H; try discriminate; [reflexivity|].
    injection Hr as ->. inversion H; subst. simpl.
    match goal with Hc : p _ = true |- _ => rewrite Hc end. auto.
  - induction s as [|c s IH]; simpl; intros H; [constructor|].
    apply andb_true_iff in H. destruct H as [Hc H].
    change (String c s) with (String c "" ++ s). constructor; auto. now constructor.
Qed.

Lemma lang_plus_sym (p : ascii -> bool) (s : string) :
  lang (plus (RSym p)) s <-> s <> "" /\ all_chars p s = true.
Proof.
  unfold plus. rewrite lang_cat_iff. split.
  - intros (s1 & s2 & -> & H1 & H2). apply lang_sym_iff in H1.
    destruct H1 as (c & -> & Hc). apply lang_star_sym in H2.
    simpl. rewrite Hc, H2. split; [discriminate | reflexivity].
  - intros [Hn Hp]. destruct s as [|c s]; [contradiction|].
    simpl in Hp. apply andb_true_iff in Hp. destruct Hp as [Hc Hp].
    exists (String c ""), s. split; [reflexivity|]. split.
    + now constructor.
    + now apply lang_star_sym.
Qed.

Lemma lang_dollar (s : string) : lang dollar s <-> up_to_newline "" s.
Proof.
  unfold dollar, up_to_newline. simpl. split.
  - intros H. inversion H; subst.
    + left. now apply lang_eps_iff.
    + right. match goal with H1 : lang (RSym _) _ |- _ => apply lang_sym_iff in H1;
        destruct H1 as (c & -> & Hc) end.
      apply Ascii.eqb_eq in Hc. now subst.
  - intros [->| ->]; [apply lang_alt_l; constructor | apply lang_alt_r].
    constructor. apply Ascii.eqb_refl.
Qed.

(** The end of a pattern: [$] and nothing after it. *)
Lemma lang_end (w s : string) :
  (exists s1 s2, s = s1 ++ s2 /\ s1 = w /\ lang (RCat dollar REps) s2)
  <-> up_to_newline w s.
Proof.
  unfold up_to_newline. split.
  - intros (s1 & s2 & -> & -> & H). apply lang_cat_iff in H.
    destruct H as (a & b & -> & Ha & Hb). apply lang_eps_iff in Hb. subst b.
    apply lang_dollar in Ha. destruct Ha as [->| ->]; simpl.
    + left. now rewrite append_nil_r.
    + now right.
  - intros [->| ->].
    + exists w, "". split; [now rewrite append_nil_r|]. split; [reflexivity|].
      change "" with ("" ++ ""). constructor; [apply lang_dollar; now left | constructor].
    + exists w, (String newline ""). split; [reflexivity|]. split; [reflexivity|].
      change (String newline "") with (String newline "" ++ "").
      constructor; [apply lang_dollar; now right | constructor].
Qed.

Lemma prefixed_id_language (tag s : string) :
  matches (seq [lit tag; plus alnum; dollar]) s = true
  <-> exists body, alnum_word body /\ up_to_newline (tag ++ body) s.
Proof.
  rewrite matches_lang. cbn [seq]. rewrite lang_cat_iff. split.
  - intros (s1 & s2 & -> & H1 & H2). apply lang_lit in H1. subst s1.
    apply lang_cat_iff in H2. destruct H2 as (body & rest & -> & Hb & Hr).
    apply lang_plus_sym in Hb. exists body. split; [exact Hb|].
    rewrite <- append_assoc. apply lang_end. exists (tag ++ body), rest. auto.
  - intros (body & Hb & Hs). apply lang_end in Hs.
    destruct Hs as (s1 & rest & -> & -> & Hr).
    exists tag, (body ++ rest). split; [apply append_assoc|]. split; [now apply lang_lit|].
    constructor; [now apply lang_plus_sym | exact Hr].
Qed.

(** X8. The identifier of an ingredient is accepted exactly when it is
    [ing-] followed by one or more letters and digits, the identifier of a
    step when it is [s-] followed by one or more letters and digits; in both
    cases one newline may follow, because the patterns end in [$] and are
    used with [match]. *)
Theorem id_patterns_language (s : string) :
  (matches INGREDIENT_ID_PATTERN s = true
   <-> exists body, alnum_word body /\ up_to_newline ("ing-" ++ body) s) /\
  (matches STEP_ID_PATTERN s = true
   <-> exists body, alnum_word body /\ up_to_newline ("s-" ++ body) s).
Proof.
  split; apply prefixed_id_language.
Qed.

(** X9. The identifier of a recipe is accepted exactly when it is [rcip-]
    followed by five groups of 8, 4, 4, 4 and 12 hexadecimal digits in lower
    case, separated by hyphens, possibly followed by one newline. *)
Theorem recipe_id_language (s : string) :
  matches RECIPE_ID_PATTERN s = true
  <-> exists a b c d e,
        hex_word 8 a /\ hex_word 4 b /\ hex_word 4 c /\ hex_word 4 d /\ hex_word 12 e /\
        up_to_newline ("rcip-" ++ a ++ "-" ++ b ++ "-" ++ c ++ "-" ++ d ++ "-" ++ e) s.
Proof.
  rewrite matches_lang. unfold RECIPE_ID_PATTERN. cbn [seq]. split.
  - intros H.
    repeat match goal with
           | H : lang (RCat (lit _) _) _ |- _ =>
               apply lang_cat_iff in H;
               let s1 := fresh "s" in let s2 := fresh "s" in let H1 := fresh "H" in
               destruct H as (s1 & s2 & -> & H1 & H); apply lang_lit in H1; subst s1
           | H : lang (RCat (rep _ hex) _) _ |- _ =>
               apply lang_cat_iff in H;
               let s1 := fresh "w" in let s2 := fresh "s" in let H1 := fresh "Hw" in
               destruct H as (s1 & s2 & -> & H1 & H); apply lang_rep_sym in H1
           end.
    exists w, w0, w1, w2, w3. repeat (split; [assumption|]).
    apply lang_end.
    match type of H with
    | lang _ ?rest =>
        exists ("rcip-" ++ w ++ "-" ++ w0 ++ "-" ++ w1 ++ "-" ++ w2 ++ "-" ++ w3), rest
    end.
    split; [|split; [reflexivity | exact H]].
    cbn [append]. repeat (rewrite append_assoc; cbn [append]). reflexivity.
  - intros (a & b & c & d & e & Ha & Hb & Hc & Hd & He & Hs).
    apply lang_end in Hs. destruct Hs as (s1 & rest & -> & -> & Hr).
    repeat (rewrite append_assoc; cbn [append]).
    change (String "r" (String "c" (String "i" (String "p" (String "-"
              (a ++ String "-" (b ++ String "-" (c ++ String "-" (d ++ String "-"
                 (e ++ rest))))))))))
      with ("rcip-" ++ a ++ "-" ++ b ++ "-" ++ c ++ "-" ++ d ++ "-" ++ e ++ rest).
    repeat (constructor; [first [now apply lang_lit | now apply lang_rep_sym]|]).
    exact Hr.
Qed.

Lemma id_patterns_language_witness :
  matches INGREDIENT_ID_PATTERN ("ing-1" ++ String newline "") = true /\
  matches STEP_ID_PATTERN "s-" = false.
Proof.
  split.
  - apply (id_patterns_language ("ing-1" ++ String newline "")).
    exists "1". split; [split; [discriminate | reflexivity]|]. now right.
  - destruct (matches STEP_ID_PATTERN "s-") eqn:E; [|reflexivity].
    apply (id_patterns_language "s-") in E.
    destruct E as (body & [Hne _] & [H|H]).
    + destruct body; [contradiction | discriminate H].
    + destruct body; [contradiction | discriminate H].
Defined.

Lemma recipe_id_language_witness :
  matches RECIPE_ID_PATTERN "rcip-01234567-89ab-4def-8123-456789abcdef" = true.
Proof.
  apply recipe_id_language.
  exists "01234567", "89ab", "4def", "8123", "456789abcdef".
  repeat (split; [split; reflexivity|]). now left.
Defined.
(** ** The errors about cross-references *)

Lemma set_add_mono (v y : json) (s s' : pyset) :
  set_add v s = Ok s' -> In y s -> In y s'.
Proof.
  unfold set_add. destruct (hashable v); [|discriminate].
  destruct (existsb (py_eq v) s); intros H; injection H as <-; auto.
  intros Hy. apply in_app_iff. now left.
Qed.

Lemma id_set_from (field : string) (items : list json) (s s' : pyset) :
  for_each
    (fun x s =>
       has <- py_contains field x ;;
       if has then (v <- py_getitem x field ;; set_add v s) else Ok s)
    items s = Ok s' ->
  (forall y, In y s -> In y s') /\
  (forall x t, In x items -> py_getitem x field = Ok (JStr t) -> In (JStr t) s').
Proof.
  revert s. induction items as [|a l IH]; intros s H; simpl in H.
  - injection H as <-. split; [auto | intros x t []].
  - bind_inv H. destruct (IH _ H) as [Hm Hc]. bind_inv E.
    split.
    + intros y Hy. apply Hm. destruct a1; [bind_inv E|injection E as <-]; auto.
      eapply set_add_mono; eauto.
    + intros x t [<-|Hx] Hg; [|eauto].
      apply Hm. rewrite (getitem_contains _ _ _ Hg) in E0. injection E0 as <-.
      rewrite Hg in E. cbn [bind] in E.
      apply (set_add_In_str t) in E. apply E. now right.
Qed.

Lemma id_set_declares (field t : string) (items : list json) (s : pyset) :
  id_set field items = Ok s ->
  set_mem (JStr t) s = Ok false -> ~ declares field items t.
Proof.
  intros Hs Hm (x & Hx & Hg). apply id_set_from in Hs. destruct Hs as [_ Hc].
  specialize (Hc _ _ Hx Hg). rewrite set_mem_str in Hm. injection Hm as Hm.
  assert (Ht : existsb (py_eq (JStr t)) s = true).
  { apply existsb_exists. exists (JStr t). split; [exact Hc|]. simpl.
    apply String.eqb_refl. }
  congruence.
Qed.

Lemma for_each_errors {A : Type} (body : A -> ValidationResult -> outcome ValidationResult)
    (l : list A) (r r' : ValidationResult) (m : string) :
  (forall a, framed (body a)) ->
  for_each body l r = Ok r' -> In m (errors r') ->
  In m (errors r) \/ exists x d, In x l /\ body x blank = Ok d /\ In m (errors d).
Proof.
  intros Hf. revert r. induction l as [|a l IH]; intros r H Hm; simpl in H.
  - injection H as <-. now left.
  - bind_inv H. destruct (IH _ H Hm) as [Hin|(x & d & Hx & Hd & Hin)].
    + destruct (framed_inv _ _ _ (Hf a) E) as (d & Hd & ->).
      apply In_errors_merge in Hin. destruct Hin as [Hin|Hin]; [now left|].
      right. exists a, d. split; [now left|]. auto.
    + right. exists x, d. split; [now right|]. auto.
Qed.

(** X10. [_validate_references] never invalidates a result, and every error
    it adds is justified: it names a string of some step's [target] list that
    either starts with [ing-] while no ingredient has it as [id], or contains
    [:result] while no step has the part before the first colon as
    [step_id]. *)
Theorem reference_errors_justified (recipe : json) (d : ValidationResult)
    (ingredients steps : list json) :
  _validate_references recipe blank = Ok d ->
  items_of recipe "ingredients" = Ok ingredients ->
  items_of recipe "steps" = Ok steps ->
  valid d = true /\
  forall m, In m (errors d) ->
    exists step targets t,
      In (JDict step) steps /\
      lookup "target" step = Some (JList targets) /\
      In (JStr t) targets /\
      ((prefix "ing-" t = true /\
        ~ declares "id" ingredients t /\
        m = "Step " ++ attribution step ++ ": Invalid ingredient reference '" ++ t ++ "'")
       \/
       (contains ":result" t = true /\
        ~ declares "step_id" steps (before_first ":" t) /\
        m = "Step " ++ attribution step ++ ": Invalid step reference '" ++ t ++ "'")).
Proof.
  intros H Hi Hs. split; [now apply valid_references in H|].
  intros m Hm. apply references_inv in H.
  destruct H as (ingredients' & iids & steps' & sids & profiles & dids & d1 & d2
                 & Hi' & Hiids & Hs' & Hsids & _ & _ & Hd1 & Hd2 & ->).
  assert (ingredients' = ingredients) by congruence. subst ingredients'.
  assert (steps' = steps) by congruence. subst steps'.
  apply In_errors_merge in Hm. destruct Hm as [Hm|Hm].
  2: { apply device_loop_findings in Hd2. destruct Hd2 as [_ He].
       rewrite He in Hm. destruct Hm. }
  destruct (for_each_errors _ _ _ _ _ (framed_check_step_targets iids sids) Hd1 Hm)
    as [[]|(x & dx & Hx & Hdx & Hin)].
  unfold check_step_targets in Hdx.
  bind_inv Hdx. destruct a; [|injection Hdx as <-; destruct Hin].
  bind_inv Hdx.
  destruct x as [| | | | | |step]; try discriminate E0.
  cbn [py_getitem] in E0. destruct (lookup "target" step) as [tv|] eqn:Ht;
    [|discriminate E0].
  injection E0 as ->.
  destruct a as [| | | | |targets|]; try (injection Hdx as <-; destruct Hin).
  destruct (for_each_errors _ _ _ _ _
              (framed_check_target iids sids (JDict step)) Hdx Hin)
    as [[]|(tg & dt & Htg & Hdt & Hin')].
  unfold check_target in Hdt.
  destruct tg as [| | | |t| |]; try (injection Hdt as <-; destruct Hin').
  exists step, targets, t. repeat (split; [assumption|]).
  destruct (get_step_id step) as (id & Hid & Hattr).
  bind_inv Hdt. destruct a.
  - rewrite Hid in Hdt. cbn [bind] in Hdt. injection Hdt as <-.
    cbn [errors append_error blank] in Hin'. apply In_push in Hin'.
    destruct Hin' as [[]| ->]. left.
    destruct (prefix "ing-" t) eqn:Hp; [|discriminate E0].
    bind_inv E0. injection E0 as Hneg. apply negb_true_iff in Hneg. subst a.
    split; [reflexivity|]. split; [|now rewrite Hattr].
    eapply id_set_declares; eassumption.
  - destruct (contains ":result" t) eqn:Hc; [|injection Hdt as <-; destruct Hin'].
    bind_inv Hdt. destruct a; cbn [negb] in Hdt; [injection Hdt as <-; destruct Hin'|].
    rewrite Hid in Hdt. cbn [bind] in Hdt. injection Hdt as <-.
    cbn [errors append_error blank] in Hin'. apply In_push in Hin'.
    destruct Hin' as [[]| ->]. right.
    split; [reflexivity|]. split; [|now rewrite Hattr].
    eapply id_set_declares; eassumption.
Qed.

Lemma reference_errors_justified_witness :
  exists d,
    _validate_references recipe_dangling_ingredient blank = Ok d /\
    valid d = true /\
    forall m, In m (errors d) ->
      exists step targets t,
        lookup "target" step = Some (JList targets) /\ In (JStr t) targets /\
        (m = "Step " ++ attribution step ++ ": Invalid ingredient reference '" ++ t ++ "'"
         \/ m = "Step " ++ attribution step ++ ": Invalid step reference '" ++ t ++ "'").
Proof.
  destruct (_validate_references recipe_dangling_ingredient blank) as [d|e] eqn:E;
    [|vm_compute in E; discriminate E].
  exists d. split; [reflexivity|].
  destruct (reference_errors_justified _ _ [sample_ingredient]
              [JDict [("step_id", JStr "s-1"); ("action", JStr "heat");
                      ("target", JList [JStr "ing-2"])]] E eq_refl eq_refl) as [Hv He].
  split; [exact Hv|]. intros m Hm.
  destruct (He m Hm) as (step & targets & t & _ & Ht & Hin & [(_ & _ & ->)|(_ & _ & ->)]).
  - exists step, targets, t. auto.
  - exists step, targets, t. auto.
Defined.
(** ** The amount of an ingredient *)

Lemma append_cancel (a x y : string) : a ++ x = a ++ y -> x = y.
Proof.
  induction a as [|c a IH]; simpl; intros H; [exact H|].
  injection H as H. auto.
Qed.

Lemma append_cancel3 (a b x y : string) : a ++ b ++ x = a ++ b ++ y -> x = y.
Proof. intros H. now apply append_cancel, append_cancel in H. Qed.

Lemma errors_fold_left_if {A : Type} (c : A -> bool) (f : A -> string) (l : list A)
    (r : ValidationResult) (m : string) :
  In m (errors (fold_left (fun r a => if c a then append_error (f a) r else r) l r)) ->
  In m (errors r) \/ exists a, In a l /\ m = f a.
Proof.
  revert r. induction l as [|a l IH]; intros r H; simpl in H; [now left|].
  apply IH in H. destruct H as [H|(b & Hb & ->)].
  - destruct (c a); [|now left]. cbn [errors append_error] in H.
    apply In_push in H. destruct H as [H| ->]; [now left|].
    right. exists a. split; [now left | reflexivity].
  - right. exists b. split; [now right | reflexivity].
Qed.

(** Refutes that a message of the form [a ++ b ++ x] is among errors that
    all end differently. *)
Ltac unlike Hin :=
  cbn [errors append_error append_warning set_invalid blank] in Hin;
  first
    [ contradiction
    | destruct Hin; fail
    | simpl in Hin; repeat (injection Hin as Hin); apply append_cancel in Hin;
      discriminate Hin
    | apply In_push in Hin; destruct Hin as [Hin|Hin]; unlike Hin ].

(** X18. For an ingredient whose [machine_amount] is an object, the error
    about [machine_amount.value] is reported exactly when the object has no
    [value], or a [value] that is not a number, or a negative one.  A JSON
    boolean counts as a number there, so [true] and [false] are accepted as
    amounts; and the error does not touch [valid]. *)
Theorem machine_amount_value_rule (ingredient ma : pydict) (index : nat)
    (d : ValidationResult) :
  _validate_ingredient (JDict ingredient) index blank = Ok d ->
  lookup "machine_amount" ingredient = Some (JDict ma) ->
  let msg := "Ingredient " ++ str_nat index
               ++ ": machine_amount.value must be non-negative number" in
  (In msg (errors d)
   <-> match lookup "value" ma with
       | None => True
       | Some value => is_number value = false \/ py_lt_int value 0 = Ok true
       end) /\
  (forall b, lookup "value" ma = Some (JBool b) -> ~ In msg (errors d)) /\
  (valid d = true
   <-> well_formed_id INGREDIENT_ID_PATTERN "id" (JDict ingredient)
       /\ lists_allergens (JDict ingredient)).
Proof.
  intros H Hma msg.
  assert (Hvalid : valid d = true
                   <-> well_formed_id INGREDIENT_ID_PATTERN "id" (JDict ingredient)
                       /\ lists_allergens (JDict ingredient)).
  { rewrite (valid_ingredient _ _ _ _ H). cbn [valid blank]. tauto. }
  assert (Hiff : In msg (errors d)
                 <-> match lookup "value" ma with
                     | None => True
                     | Some value => is_number value = false \/ py_lt_int value 0 = Ok true
                     end).
  { unfold _validate_ingredient in H.
    bind_inv H. bind_inv H. bind_inv H. bind_inv H.
    assert (Hbefore : ~ In msg (errors a2)).
    { clear H. subst msg. intros Hin.
      assert (Ha0 : ~ In ("Ingredient " ++ str_nat index
                            ++ ": machine_amount.value must be non-negative number")
                      (errors a0)).
      { clear E1 E2 Hin. intros Hin. run E0; injection E0 as <-; unlike Hin. }
      run E2.
      all: injection E2 as <-.
      all: try unlike Hin.
      apply (errors_fold_left_if
               (fun allergen => negb (in_vocabulary allergen Allergen_values))
               (fun allergen => "Ingredient " ++ str_nat index ++ ": Invalid allergen '"
                                  ++ py_str allergen ++ "'")) in Hin.
      destruct Hin as [Hin|(al & _ & Hin)]; [contradiction|].
      simpl in Hin. repeat (injection Hin as Hin). apply append_cancel in Hin.
      discriminate Hin. }
    cbn [py_contains py_getitem] in H. unfold has_key in H. rewrite Hma in H.
    cbn [bind py_contains py_getitem] in H. unfold has_key in H.
    destruct (lookup "value" ma) as [value|] eqn:Hvalue; cbn [negb bind] in H.
    - destruct (is_number value) eqn:Hnum; cbn [negb bind] in H.
      + destruct (py_lt_int value 0) as [negative|] eqn:Hneg; cbn [bind] in H;
          [|discriminate H].
        assert (Hd : In msg (errors d) <-> negative = true).
        { subst msg. destruct negative; run H; injection H as <-;
            cbn [errors append_error append_warning]; rewrite ?In_push.
          all: split; try tauto; try discriminate.
          all: intros Hin; exfalso;
            repeat match type of Hin with _ \/ _ => destruct Hin as [Hin|Hin] end;
            first [ contradiction
                  | simpl in Hin; repeat (injection Hin as Hin);
                    apply append_cancel in Hin; discriminate Hin ]. }
        rewrite Hd. split; [intros ->; now right | intros [Hx|Hx]; congruence].
      + assert (Hd : In msg (errors d)).
        { subst msg. run H; injection H as <-; cbn [errors append_error append_warning];
            rewrite ?In_push; tauto. }
        split; [now left | auto].
    - assert (Hd : In msg (errors d)).
      { subst msg. run H; injection H as <-; cbn [errors append_error append_warning];
          rewrite ?In_push; tauto. }
      tauto. }
  split; [exact Hiff|]. split; [|exact Hvalid].
  intros b Hb Hin. apply Hiff in Hin. rewrite Hb in Hin.
  destruct Hin as [Hin|Hin]; [discriminate Hin|]. destruct b; discriminate Hin.
Qed.

Lemma machine_amount_value_rule_witness :
  exists d,
    _validate_ingredient (JDict ingredient_boolean_amount) 0 blank = Ok d /\
    ~ In "Ingredient 0: machine_amount.value must be non-negative number" (errors d).
Proof.
  destruct (_validate_ingredient (JDict ingredient_boolean_amount) 0 blank)
    as [d|e] eqn:E; [|vm_compute in E; discriminate E].
  exists d. split; [reflexivity|].
  destruct (machine_amount_value_rule ingredient_boolean_amount
              [("value", JBool true); ("unit", JStr "pinch")] 0 d E eq_refl)
    as (_ & Hb & _).
  exact (Hb true eq_refl).
Defined.
(** ** The vocabularies *)

Lemma errors_fold_left_reported {A : Type} (c : A -> bool) (f : A -> string)
    (l : list A) (r : ValidationResult) (a : A) :
  In a l -> c a = true ->
  In (f a) (errors (fold_left (fun r a => if c a then append_error (f a) r else r) l r)).
Proof.
  assert (Hkeep : forall l r m,
             In m (errors r) ->
             In m (errors (fold_left
                             (fun r a => if c a then append_error (f a) r else r) l r))).
  { clear. induction l as [|b l IH]; intros r m H; simpl; [exact H|].
    apply IH. destruct (c b); [|exact H].
    cbn [errors append_error]. apply In_push. now left. }
  revert r. induction l as [|b l IH]; intros r Hin Hc; [destruct Hin|].
  simpl. destruct Hin as [->|Hin]; [|now apply IH].
  apply Hkeep. rewrite Hc. cbn [errors append_error]. apply In_push. now right.
Qed.

Lemma ingredient_allergen_error (ingredient : pydict) (index : nat) (l : list json)
    (allergen : json) (d : ValidationResult) :
  _validate_ingredient (JDict ingredient) index blank = Ok d ->
  lookup "allergens" ingredient = Some (JList l) ->
  In allergen l ->
  in_vocabulary allergen Allergen_values = false ->
  In ("Ingredient " ++ str_nat index ++ ": Invalid allergen '" ++ py_str allergen ++ "'")
     (errors d).
Proof.
  intros H Hl Hin Hv. unfold _validate_ingredient in H.
  bind_inv H. bind_inv H. bind_inv H. bind_inv H.
  assert (Ha2 : In ("Ingredient " ++ str_nat index ++ ": Invalid allergen '"
                      ++ py_str allergen ++ "'") (errors a2)).
  { clear H. cbn [py_contains py_getitem] in E1, E2. unfold has_key in E1.
    rewrite Hl in E1, E2. injection E1 as <-. cbn [negb bind] in E2.
    injection E2 as <-.
    apply (errors_fold_left_reported
             (fun allergen => negb (in_vocabulary allergen Allergen_values))
             (fun allergen => "Ingredient " ++ str_nat index ++ ": Invalid allergen '"
                                ++ py_str allergen ++ "'")); [exact Hin|].
    now rewrite Hv. }
  clear E E0 E1 E2. revert Ha2. generalize ("Ingredient " ++ str_nat index
                                              ++ ": Invalid allergen '"
                                              ++ py_str allergen ++ "'").
  intros m Hm.
  run H; injection H as <-;
    repeat match goal with |- context [if ?b then _ else _] => destruct b end;
    cbn [errors append_error append_warning]; rewrite ?In_push; tauto.
Qed.

Lemma step_action_error (step : pydict) (index : nat) (action : json)
    (d : ValidationResult) :
  _validate_step (JDict step) index blank = Ok d ->
  lookup "action" step = Some action ->
  in_vocabulary action CookingAction_values = false ->
  In ("Step " ++ str_nat index ++ ": Invalid action '" ++ py_str action ++ "'") (errors d).
Proof.
  intros H Ha Hv. unfold _validate_step in H.
  bind_inv H. bind_inv H. bind_inv H. bind_inv H.
  assert (Ha2 : In ("Step " ++ str_nat index ++ ": Invalid action '" ++ py_str action
                      ++ "'") (errors a2)).
  { clear H. cbn [py_contains py_getitem] in E1, E2. unfold has_key in E1.
    rewrite Ha in E1, E2. injection E1 as <-. cbn [bind] in E2. rewrite Hv in E2.
    cbn [negb] in E2. injection E2 as <-. cbn [errors append_error].
    apply In_push. now right. }
  clear E E0 E1 E2.
  assert (He : errors d = errors a2).
  { run H; try (injection H as <-; reflexivity).
    all: injection H as <-.
    all: clear; match goal with |- context [fold_left _ ?l _] => induction l as [|x l IH] using rev_ind end;
      [reflexivity | rewrite fold_left_app; simpl; destruct (negb _); auto]. }
  now rewrite He.
Qed.

(** X20. An allergen that is not in the vocabulary is reported as an error
    that names the position of the ingredient, and so is an action that is
    not in the vocabulary, with the position of the step; positions count
    from 0, and the values are compared as they are, without folding case. *)
Theorem vocabulary_errors_reported (self self' : RCIPValidator) (recipe : json)
    (r : ValidationResult) :
  validate_recipe self recipe = Ok (r, self') ->
  (forall ingredients n ingredient l allergen,
     items_of recipe "ingredients" = Ok ingredients ->
     nth_error ingredients n = Some (JDict ingredient) ->
     lookup "allergens" ingredient = Some (JList l) ->
     In allergen l ->
     in_vocabulary allergen Allergen_values = false ->
     In ("Ingredient " ++ str_nat n ++ ": Invalid allergen '" ++ py_str allergen ++ "'")
        (errors r)) /\
  (forall steps n step action,
     items_of recipe "steps" = Ok steps ->
     nth_error steps n = Some (JDict step) ->
     lookup "action" step = Some action ->
     in_vocabulary action CookingAction_values = false ->
     In ("Step " ++ str_nat n ++ ": Invalid action '" ++ py_str action ++ "'")
        (errors r)) /\
  in_vocabulary (JStr "Milk") Allergen_values = false /\
  in_vocabulary (JStr "milk") Allergen_values = true.
Proof.
  intros H.
  destruct (validate_recipe_inv _ _ _ _ H) as (v & d & w & i & _ & Hd & _ & _ & Hr & _).
  destruct (custom_rules_inv _ _ _ Hd)
    as (ings & steps & d1 & d2 & d3 & Hi & Hs & H1 & H2 & _ & (He1 & _) & (He2 & _) & _).
  assert (G : forall m, In m (errors d) -> In m (errors r)).
  { intros m Hm. subst r. unfold assembled; simpl. apply in_app_iff. now right. }
  split; [|split; [|split; reflexivity]].
  - intros ingredients n ingredient l allergen Hi' Hn Hl Hin Hv.
    assert (ings = ingredients) by congruence. subst ings.
    destruct (for_enumerate_nth _ _ _ _ _ _ _
                (fun i x => framed_validate_ingredient x i) H1 Hn)
      as (dx & Hdx & (Hex & _)).
    simpl in Hdx. apply G, He1, Hex.
    eapply ingredient_allergen_error; eassumption.
  - intros steps' n step action Hs' Hn Ha Hv.
    assert (steps = steps') by congruence. subst steps'.
    destruct (for_enumerate_nth _ _ _ _ _ _ _
                (fun i x => framed_validate_step x i) H2 Hn)
      as (dx & Hdx & (Hex & _)).
    simpl in Hdx. apply G, He2, Hex.
    eapply step_action_error; eassumption.
Qed.

Lemma vocabulary_errors_reported_witness :
  exists r self',
    validate_recipe sample_validator recipe_capital_allergen = Ok (r, self') /\
    In "Ingredient 0: Invalid allergen 'Milk'" (errors r).
Proof.
  destruct (validate_recipe sample_validator recipe_capital_allergen)
    as [[r self']|e] eqn:E; [|vm_compute in E; discriminate E].
  exists r, self'. split; [reflexivity|].
  destruct (vocabulary_errors_reported _ _ _ _ E) as (Ha & _).
  apply (Ha [JDict [("id", JStr "ing-1"); ("name", JStr "butter");
                    ("allergens", JList [JStr "Milk"])]]
            0%nat
            [("id", JStr "ing-1"); ("name", JStr "butter");
             ("allergens", JList [JStr "Milk"])]
            [JStr "Milk"] (JStr "Milk")); try reflexivity.
  now left.
Defined.
(** ** The reports *)

Lemma process_eta (p : Process) : {| this := this p; console := console p |} = p.
Proof. now destruct p. Qed.

Lemma emits_ret : emits true [] (ret tt).
Proof. intros p. unfold ret. simpl. now rewrite app_nil_r, process_eta. Qed.

Lemma emits_print (t : text) : emits true [Line t] (print t).
Proof. intros p. reflexivity. Qed.

Lemma emits_bind (ok : bool) (out1 out2 : list printed) (m : io unit)
    (k : unit -> io unit) :
  emits true out1 m -> emits ok out2 (k tt) ->
  emits ok (out1 ++ out2) (x <-- m ;; k x).
Proof.
  intros Hm Hk p. unfold io_bind. rewrite Hm. rewrite Hk. simpl.
  now rewrite app_assoc.
Qed.

Lemma emits_raise (out1 : list printed) (m : io unit) (k : unit -> io unit) :
  emits false out1 m -> emits false out1 (x <-- m ;; k x).
Proof.
  intros Hm p. unfold io_bind. now rewrite Hm.
Qed.

Lemma emits_for_each {A : Type} (f : A -> text) (l : list A) :
  emits true (map (fun x => Line (f x)) l) (io_for_each (fun x => print (f x)) l).
Proof.
  induction l as [|a l IH]; simpl.
  - apply emits_ret.
  - apply (emits_bind true [Line (f a)]); [apply emits_print | exact IH].
Qed.

Lemma bind_lift_Ok {A B : Type} (a : A) (k : A -> io B) :
  (x <-- lift (Ok a) ;; k x) = k a.
Proof. reflexivity. Qed.

Lemma py_join_raises (sep : string) (v : json) (e : exn) :
  py_join sep v = Raise e -> e = TypeError.
Proof.
  unfold py_join. destruct v; simpl; try congruence.
  all: match goal with |- context [forallb ?f ?l] => destruct (forallb f l) end;
    congruence.
Qed.

(** The optional line of the summary that joins a list. *)
Lemma emits_joined (label : string) (v : json) :
  exists out,
    emits (joinable v) out
      (if truthy v then
         joined <-- lift (py_join ", " v) ;; print (text_of (label ++ joined))
       else ret tt)
    /\ (List.length out <= 1)%nat.
Proof.
  unfold joinable. destruct (truthy v); simpl.
  - destruct (py_join ", " v) as [joined|e] eqn:E.
    + exists [Line (text_of (label ++ joined))]. split; [|simpl; lia].
      rewrite bind_lift_Ok. apply emits_print.
    + apply py_join_raises in E. subst e. exists []. split; [|simpl; lia].
      intros p. unfold io_bind, lift, throw. simpl. now rewrite app_nil_r, process_eta.
  - exists []. split; [apply emits_ret | simpl; lia].
Qed.

Lemma run_emits {B : Type} (ok : bool) (out : list printed) (m : io unit)
    (k : unit -> io B) (p : Process) :
  emits ok out m ->
  (x <-- m ;; k x) p
  = if ok then k tt {| this := this p; console := (console p ++ out)%list |}
    else (Raises (Engine TypeError),
          {| this := this p; console := (console p ++ out)%list |}).
Proof.
  intros Hm. unfold io_bind. rewrite Hm. now destruct ok.
Qed.

Lemma run_print {B : Type} (t : text) (k : unit -> io B) (p : Process) :
  (x <-- print t ;; k x) p
  = k tt {| this := this p; console := (console p ++ [Line t])%list |}.
Proof. reflexivity. Qed.

Lemma info_item_found (d : pydict) (k : string) (v : json) :
  lookup k d = Some v -> info_item d k = ret v.
Proof. intros H. unfold info_item. simpl. now rewrite H. Qed.

Lemma bind_ret {A B : Type} (a : A) (k : A -> io B) : (x <-- ret a ;; k x) = k a.
Proof. reflexivity. Qed.

Lemma emits_errors (errors : list string) :
  emits true (error_lines errors)
    (match errors with
     | [] => ret tt
     | _ =>
         _ <-- print (line_feed :: cross_mark
                        :: text_of (" Errors (" ++ str_nat (List.length errors) ++ "):")) ;;
         _ <-- io_for_each
                 (fun ie => print (text_of ("  " ++ str_nat (fst ie) ++ ". " ++ snd ie)))
                 (enumerate 1 (firstn 10 errors)) ;;
         if (10 <? List.length errors)%nat then
           print (text_of ("  ... and " ++ str_nat (List.length errors - 10)
                             ++ " more errors"))
         else ret tt
     end).
Proof.
  unfold error_lines. destruct errors as [|e l]; [apply emits_ret|].
  set (all := e :: l). intros p.
  rewrite run_print.
  rewrite (run_emits _ _ _ _ _
             (emits_for_each
                (fun ie => text_of ("  " ++ str_nat (fst ie) ++ ". " ++ snd ie)) _)).
  cbn [this console].
  destruct (10 <? List.length all)%nat; [rewrite emits_print | rewrite emits_ret];
    cbn [this console]; f_equal; f_equal;
    repeat rewrite <- app_assoc; reflexivity.
Qed.

Lemma emits_warnings (warnings : list string) :
  exists out,
    emits true out
      (match warnings with
       | [] => ret tt
       | _ =>
           _ <-- print (line_feed
                          :: warning_sign
                          ++ text_of ("  Warnings ("
                                        ++ str_nat (List.length warnings) ++ "):"))%list ;;
           io_for_each (fun warning => print (text_of ("  - " ++ warning))) warnings
       end)
    /\ (List.length out <= 1 + List.length warnings)%nat.
Proof.
  destruct warnings as [|w l].
  - exists []. split; [apply emits_ret | simpl; lia].
  - set (all := w :: l).
    exists (Line (line_feed
                    :: warning_sign
                    ++ text_of ("  Warnings (" ++ str_nat (List.length all) ++ "):"))%list
              :: map (fun warning => Line (text_of ("  - " ++ warning))) all).
    split.
    + intros p. rewrite run_print.
      rewrite (emits_for_each (fun warning => text_of ("  - " ++ warning))).
      cbn [this console]. f_equal. f_equal. now rewrite <- app_assoc.
    + simpl. rewrite length_map. lia.
Qed.

(** The part of [_print_result] about the summary. *)
Lemma emits_info (result : ValidationResult)
    (version ingredient_count step_count difficulty total_time allergens
       diet_labels : json) :
  lookup "version" (info result) = Some version ->
  lookup "ingredient_count" (info result) = Some ingredient_count ->
  lookup "step_count" (info result) = Some step_count ->
  lookup "difficulty" (info result) = Some difficulty ->
  lookup "total_time" (info result) = Some total_time ->
  lookup "allergens" (info result) = Some allergens ->
  lookup "diet_labels" (info result) = Some diet_labels ->
  exists out,
    emits (joinable allergens && joinable diet_labels) out
      (_ <-- print (line_feed :: bar_chart :: text_of " Recipe Info:") ;;
       version <-- info_item (info result) "version" ;;
       _ <-- print (text_of ("  - RCIP Version: " ++ py_str version)) ;;
       ingredient_count <-- info_item (info result) "ingredient_count" ;;
       _ <-- print (text_of ("  - Ingredients: " ++ py_str ingredient_count)) ;;
       step_count <-- info_item (info result) "step_count" ;;
       _ <-- print (text_of ("  - Steps: " ++ py_str step_count)) ;;
       difficulty <-- info_item (info result) "difficulty" ;;
       _ <-- print (text_of ("  - Difficulty: " ++ py_str difficulty)) ;;
       total_time <-- info_item (info result) "total_time" ;;
       _ <-- print (text_of ("  - Total Time: " ++ py_str total_time ++ " minutes")) ;;
       allergens <-- info_item (info result) "allergens" ;;
       _ <-- (if truthy allergens then
                joined <-- lift (py_join ", " allergens) ;;
                print (text_of ("  - Allergens: " ++ joined))
              else ret tt) ;;
       diet_labels <-- info_item (info result) "diet_labels" ;;
       if truthy diet_labels then
         joined <-- lift (py_join ", " diet_labels) ;;
         print (text_of ("  - Diet Labels: " ++ joined))
       else ret tt)
    /\ (List.length out <= 8)%nat.
Proof.
  intros Hv Hi Hs Hd Ht Ha Hl.
  destruct (emits_joined "  - Allergens: " allergens) as (oa & Hoa & La).
  destruct (emits_joined "  - Diet Labels: " diet_labels) as (ol & Hol & Ll).
  rewrite (info_item_found _ _ _ Hv), (info_item_found _ _ _ Hi),
    (info_item_found _ _ _ Hs), (info_item_found _ _ _ Hd),
    (info_item_found _ _ _ Ht), (info_item_found _ _ _ Ha),
    (info_item_found _ _ _ Hl).
  rewrite !bind_ret.
  exists ([Line (line_feed :: bar_chart :: text_of " Recipe Info:");
           Line (text_of ("  - RCIP Version: " ++ py_str version));
           Line (text_of ("  - Ingredients: " ++ py_str ingredient_count));
           Line (text_of ("  - Steps: " ++ py_str step_count));
           Line (text_of ("  - Difficulty: " ++ py_str difficulty));
           Line (text_of ("  - Total Time: " ++ py_str total_time ++ " minutes"))]
            ++ oa ++ (if joinable allergens then ol else []))%list.
  split.
  - intros p. rewrite !run_print. cbn [this console].
    rewrite (run_emits _ _ _ _ _ Hoa). cbn [this console].
    destruct (joinable allergens); cbn [andb].
    + rewrite Hol. cbn [this console]. f_equal. f_equal.
      repeat rewrite <- app_assoc. reflexivity.
    + f_equal. f_equal. rewrite app_nil_r. repeat rewrite <- app_assoc. reflexivity.
  - rewrite length_app, length_app. simpl List.length.
    destruct (joinable allergens); simpl List.length; lia.
Qed.

Lemma enumerate_nth (l : list string) (start k : nat) (e : string) :
  nth_error l k = Some e -> In ((start + k)%nat, e) (enumerate start l).
Proof.
  revert start k. induction l as [|x l IH]; intros start k H.
  - destruct k; discriminate H.
  - destruct k as [|k]; simpl in H.
    + injection H as ->. left. f_equal. lia.
    + right. replace (start + S k)%nat with (S start + k)%nat by lia. auto.
Qed.

Lemma length_enumerate (l : list string) (start : nat) :
  List.length (enumerate start l) = List.length l.
Proof. revert start. induction l; intros start; simpl; auto. Qed.

Lemma error_lines_spec (errors : list string) :
  (List.length (error_lines errors) <= 12)%nat /\
  (forall k e, (k < 10)%nat -> nth_error errors k = Some e ->
     In (Line (text_of ("  " ++ str_nat (S k) ++ ". " ++ e))) (error_lines errors)) /\
  ((10 < List.length errors)%nat ->
   In (Line (text_of ("  ... and " ++ str_nat (List.length errors - 10)
                        ++ " more errors"))) (error_lines errors)).
Proof.
  unfold error_lines. destruct errors as [|x l].
  - split; [simpl; lia|]. split; [intros [|k] e _ H; discriminate H | simpl; lia].
  - set (all := x :: l). split; [|split].
    + cbn [List.length]. rewrite length_app, length_map, length_enumerate, length_firstn.
      destruct (10 <? List.length all)%nat; simpl List.length; lia.
    + intros k e Hk He. right. apply in_app_iff. left.
      apply (in_map (fun ie => Line (text_of ("  " ++ str_nat (fst ie) ++ ". " ++ snd ie)))
               _ (S k, e)).
      change (S k) with (1 + k)%nat. apply enumerate_nth.
      now rewrite nth_error_firstn, (proj2 (Nat.ltb_lt k 10) Hk).
    + intros Hlen. right. apply in_app_iff. right.
      rewrite (proj2 (Nat.ltb_lt _ _) Hlen). now left.
Qed.

(** What [_print_result] prints for a result whose summary has its keys,
    or no key at all. *)
Lemma print_result_emits (result : ValidationResult) (recipe_name : json) :
  info result = [] \/
  (exists version ingredient_count step_count difficulty total_time allergens diet_labels,
     lookup "version" (info result) = Some version /\
     lookup "ingredient_count" (info result) = Some ingredient_count /\
     lookup "step_count" (info result) = Some step_count /\
     lookup "difficulty" (info result) = Some difficulty /\
     lookup "total_time" (info result) = Some total_time /\
     lookup "allergens" (info result) = Some allergens /\
     lookup "diet_labels" (info result) = Some diet_labels) ->
  exists out,
    emits (reportable result) out (_print_result result recipe_name)
    /\ (List.length out <= 25 + List.length (warnings result))%nat
    /\ (reportable result = true ->
        exists above below,
          out = Line (text_of (String newline (times "=" 60)))
                  :: Line (text_of ("Recipe: " ++ py_str recipe_name))
                  :: status_line (valid result)
                  :: (above ++ error_lines (errors result) ++ below)%list
          /\ (List.length above <= 8)%nat
          /\ (List.length below <= 2 + List.length (warnings result))%nat).
Proof.
  intros Hinfo.
  destruct (emits_warnings (warnings result)) as (ow & How & Lw).
  assert (Hb : exists oi,
             emits (reportable result) oi
               (if truthy (JDict (info result)) then
                  _ <-- print (line_feed :: bar_chart :: text_of " Recipe Info:") ;;
                  version <-- info_item (info result) "version" ;;
                  _ <-- print (text_of ("  - RCIP Version: " ++ py_str version)) ;;
                  ingredient_count <-- info_item (info result) "ingredient_count" ;;
                  _ <-- print (text_of ("  - Ingredients: " ++ py_str ingredient_count)) ;;
                  step_count <-- info_item (info result) "step_count" ;;
                  _ <-- print (text_of ("  - Steps: " ++ py_str step_count)) ;;
                  difficulty <-- info_item (info result) "difficulty" ;;
                  _ <-- print (text_of ("  - Difficulty: " ++ py_str difficulty)) ;;
                  total_time <-- info_item (info result) "total_time" ;;
                  _ <-- print (text_of ("  - Total Time: " ++ py_str total_time
                                          ++ " minutes")) ;;
                  allergens <-- info_item (info result) "allergens" ;;
                  _ <-- (if truthy allergens then
                           joined <-- lift (py_join ", " allergens) ;;
                           print (text_of ("  - Allergens: " ++ joined))
                         else ret tt) ;;
                  diet_labels <-- info_item (info result) "diet_labels" ;;
                  if truthy diet_labels then
                    joined <-- lift (py_join ", " diet_labels) ;;
                    print (text_of ("  - Diet Labels: " ++ joined))
                  else ret tt
                else ret tt)
             /\ (List.length oi <= 8)%nat).
  { unfold reportable. destruct Hinfo as [Hnil|Hkeys].
    - rewrite Hnil. simpl. exists []. split; [apply emits_ret | simpl; lia].
    - destruct Hkeys as (v & i & s & d & t & a & l & Hv & Hi & Hs & Hd & Ht & Ha & Hl).
      rewrite Ha, Hl.
      destruct (truthy (JDict (info result))); cbn [negb orb].
      + eapply emits_info; eassumption.
      + exists []. split; [apply emits_ret | simpl; lia]. }
  destruct Hb as (oi & Hoi & Li).
  exists (Line (text_of (String newline (times "=" 60)))
            :: Line (text_of ("Recipe: " ++ py_str recipe_name))
            :: status_line (valid result)
            :: oi ++ (if reportable result then
                        error_lines (errors result)
                          ++ ow ++ [Line (text_of (times "=" 60))]
                      else []))%list.
  split.
  - intros p. unfold _print_result. rewrite !run_print. cbn [this console].
    rewrite (run_emits _ _ _ _ _ Hoi). cbn [this console].
    destruct (reportable result).
    + rewrite (run_emits _ _ _ _ _ (emits_errors (errors result))). cbn [this console].
      rewrite (run_emits _ _ _ _ _ How). cbn [this console].
      rewrite emits_print. cbn [this console]. f_equal. f_equal. unfold status_line.
      repeat rewrite <- app_assoc. reflexivity.
    + f_equal. f_equal. unfold status_line. rewrite app_nil_r.
      repeat rewrite <- app_assoc. reflexivity.
  - split.
    + destruct (error_lines_spec (errors result)) as (Le & _ & _).
      cbn [List.length]. rewrite length_app.
      destruct (reportable result); rewrite ?length_app; simpl List.length; lia.
    + intros Hp. rewrite Hp. exists oi, (ow ++ [Line (text_of (times "=" 60))])%list.
      split; [reflexivity|]. split; [exact Li|].
      rewrite length_app. simpl. lia.
Qed.

Lemma info_item_missing {B : Type} (d : pydict) (k : string) (f : json -> io B)
    (p : Process) :
  lookup k d = None ->
  (x <-- info_item d k ;; f x) p = (Raises (Engine KeyError), p).
Proof.
  intros H. unfold io_bind, info_item, lift. simpl. now rewrite H.
Qed.

Lemma bind_raises {A B : Type} (m : io A) (k : A -> io B) (p p' : Process)
    (e : failure) :
  m p = (Raises e, p') -> (x <-- m ;; k x) p = (Raises e, p').
Proof. intros H. unfold io_bind. now rewrite H. Qed.

Lemma io_bind_inv {A B : Type} (m : io A) (k : A -> io B) (p p' : Process) (b : B) :
  (x <-- m ;; k x) p = (Returns b, p') ->
  exists a p1, m p = (Returns a, p1) /\ k a p1 = (Returns b, p').
Proof.
  unfold io_bind. destruct (m p) as [[a|e] p1]; [eauto | discriminate].
Qed.

(** Looks the key [k] up in the summary a report in [H] reads. *)
Ltac need_key H k :=
  rewrite ?run_print in H;
  let E := fresh "Hkey" in
  destruct (lookup k (info _)) eqn:E;
  [ rewrite (info_item_found _ _ _ E), bind_ret in H
  | rewrite (info_item_missing _ _ _ _ E) in H; discriminate H ].

(** A summary that [_print_result] prints without [KeyError] has the keys
    it reads, unless it is empty. *)
Lemma print_result_keys (result : ValidationResult) (recipe_name : json)
    (p p' : Process) (a : unit) :
  _print_result result recipe_name p = (Returns a, p') ->
  info result = [] \/
  (exists version ingredient_count step_count difficulty total_time allergens diet_labels,
     lookup "version" (info result) = Some version /\
     lookup "ingredient_count" (info result) = Some ingredient_count /\
     lookup "step_count" (info result) = Some step_count /\
     lookup "difficulty" (info result) = Some difficulty /\
     lookup "total_time" (info result) = Some total_time /\
     lookup "allergens" (info result) = Some allergens /\
     lookup "diet_labels" (info result) = Some diet_labels).
Proof.
  intros H. destruct (info result) as [|kv d] eqn:Hinfo; [now left|]. right.
  rewrite <- Hinfo in *.
  assert (Ht : truthy (JDict (info result)) = true) by now rewrite Hinfo.
  unfold _print_result in H. rewrite !run_print in H. rewrite Ht in H.
  apply io_bind_inv in H. destruct H as (x & p1 & H & _).
  need_key H "version". need_key H "ingredient_count". need_key H "step_count".
  need_key H "difficulty". need_key H "total_time". need_key H "allergens".
  match type of H with
  | context [py_join ", " ?al] =>
      destruct (emits_joined "  - Allergens: " al) as (oa & Hoa & _);
      rewrite (run_emits _ _ _ _ _ Hoa) in H; destruct (joinable al);
      [|discriminate H]
  end.
  need_key H "diet_labels".
  eauto 20.
Qed.

(** X11. When [_print_result] returns, it has left the validator as it was
    and has called [print] at most 25 times more than the result has
    warnings.  Its first three calls write a line feed followed by the rule
    of 60 [=], the name of the recipe and the status of the result; each of
    the first ten errors is written by a call of its own with its number,
    counted from 1, and the others are replaced by one call that tells how
    many they are.  (A call is not a line of the output: a message may hold
    line feeds, and the first call starts with one.) *)
Theorem print_result_report (result : ValidationResult) (recipe_name : json)
    (p p' : Process) :
  _print_result result recipe_name p = (Returns tt, p') ->
  this p' = this p /\
  exists out,
    console p' = (console p ++ out)%list /\
    (List.length out <= 25 + List.length (warnings result))%nat /\
    firstn 3 out = [Line (line_feed :: text_of (times "=" 60));
                    Line (text_of ("Recipe: " ++ py_str recipe_name));
                    status_line (valid result)] /\
    (forall k e, (k < 10)%nat -> nth_error (errors result) k = Some e ->
       In (Line (text_of ("  " ++ str_nat (S k) ++ ". " ++ e))) out) /\
    ((10 < List.length (errors result))%nat ->
     In (Line (text_of ("  ... and " ++ str_nat (List.length (errors result) - 10)
                          ++ " more errors"))) out).
Proof.
  intros H.
  destruct (print_result_emits result recipe_name (print_result_keys _ _ _ _ _ H))
    as (out & He & _ & Hout).
  rewrite He in H.
  destruct (reportable result); [|discriminate H].
  injection H as <-. split; [reflexivity|].
  destruct (Hout eq_refl) as (above & below & -> & La & Lb).
  destruct (error_lines_spec (errors result)) as (Le & Hk & Hm).
  eexists. split; [reflexivity|]. split; [|split; [reflexivity|split]].
  - cbn [List.length]. rewrite !length_app. lia.
  - intros k e Hlt Hnth. do 3 right. apply in_app_iff. right. apply in_app_iff. left.
    now apply Hk.
  - intros Hlen. do 3 right. apply in_app_iff. right. apply in_app_iff. left.
    now apply Hm.
Qed.

Lemma print_result_report_witness :
  exists p',
    _print_result eleven_errors (JStr "Toast") sample_process = (Returns tt, p') /\
    In (Line (text_of "  10. e10")) (console p') /\
    In (Line (text_of "  ... and 1 more errors")) (console p') /\
    ~ In (Line (text_of "  11. e11")) (console p').
Proof.
  destruct (_print_result eleven_errors (JStr "Toast") sample_process)
    as [[[]|e] p'] eqn:E; [|vm_compute in E; discriminate E].
  exists p'. split; [reflexivity|].
  destruct (print_result_report _ _ _ _ E) as (_ & out & Hc & _ & _ & Hk & Hm).
  rewrite Hc. cbn [console sample_process app].
  split; [apply (Hk 9%nat "e10"); [lia | reflexivity]|].
  split; [apply Hm; simpl; lia|].
  assert (Hout : console p' = (console sample_process ++ out)%list) by exact Hc.
  vm_compute in E. injection E as <-. cbn [console sample_process app] in Hout.
  rewrite <- Hout. vm_compute. intuition discriminate.
Defined.
(** ** Files and directories *)

Lemma returned_info_keys (self self' : RCIPValidator) (recipe : json)
    (r : ValidationResult) :
  validate_recipe self recipe = Ok (r, self') ->
  (exists version ingredient_count step_count difficulty total_time allergens diet_labels,
     lookup "version" (info r) = Some version /\
     lookup "ingredient_count" (info r) = Some ingredient_count /\
     lookup "step_count" (info r) = Some step_count /\
     lookup "difficulty" (info r) = Some difficulty /\
     lookup "total_time" (info r) = Some total_time /\
     lookup "allergens" (info r) = Some allergens /\
     lookup "diet_labels" (info r) = Some diet_labels) /\
  exists name,
    (meta <- py_get recipe "meta" (JDict []) ;; py_get meta "name" (JStr "Unknown Recipe"))
    = Ok name.
Proof.
  intros H. apply returned_info in H. apply get_recipe_info_inv in H.
  destruct H as (meta & ingredients & allergens & name & version & rv & ic & sc & dp
                 & se & sa & dl & di & tt & Hmeta & _ & _ & Hname & _ & _
                 & _ & _ & _ & _ & _ & _ & _ & _ & ->).
  split; [do 7 eexists; repeat split; reflexivity|].
  destruct meta; try discriminate Hname.
  eexists. rewrite Hmeta. cbn [bind py_get]. reflexivity.
Qed.

Lemma counted_validated (self : RCIPValidator) (b : bool) :
  validated (stats (counted self b)) = validated (stats self) + 1.
Proof. unfold counted, count. now destruct b. Qed.

(** What [validate_file] does with a file that holds a document. *)
Lemma validate_file_decoded (env : Env) (file_path : Path env) (p : Process)
    (recipe : json) :
  read_json env file_path = Decoded recipe ->
  match validate_recipe (this p) recipe with
  | Ok (r, self') =>
      exists out,
        validate_file env file_path p
        = (if reportable r then Returns r else Raises (Engine TypeError),
           {| this := self'; console := (console p ++ out)%list |})
        /\ (List.length out <= 34)%nat
  | Raise e =>
      validate_file env file_path p
      = (Raises (Engine e),
         {| this := this p;
            console := (console p
                          ++ [Line (line_feed :: page_facing_up
                                      :: text_of (" Validating: "
                                                    ++ path_name env file_path))])%list |})
  end.
Proof.
  intros Hread. unfold validate_file. rewrite Hread. rewrite run_print.
  destruct (validate_recipe (this p) recipe) as [[r self']|e] eqn:Hv.
  - destruct (returned_info_keys _ _ _ _ Hv) as (Hkeys & name & Hname).
    destruct (print_result_emits r name (or_intror Hkeys)) as (out & He & Lo & _).
    pose proof (returned_warnings _ _ _ _ Hv) as Hw.
    apply check_warnings_tidy in Hw. destruct Hw as [Lw _].
    eexists. split.
    + unfold io_bind at 1. unfold call_validate_recipe. cbn [this console].
      rewrite Hv. rewrite Hname. rewrite bind_lift_Ok.
      rewrite (run_emits _ _ _ _ _ He). cbn [this console].
      destruct (reportable r); unfold ret; rewrite <- app_assoc; reflexivity.
    + simpl. lia.
  - unfold io_bind, call_validate_recipe. cbn [this console]. now rewrite Hv.
Qed.

Lemma validated_after_file (env : Env) (file_path : Path env) (p p' : Process)
    (r : ValidationResult) :
  validate_file env file_path p = (Returns r, p') ->
  validated (stats (this p'))
  = validated (stats (this p))
    + (if is_decoded (read_json env file_path) then 1 else 0) /\
  match read_json env file_path with
  | Missing => r = unread ("File not found: " ++ path_str env file_path)
  | Malformed e => r = unread ("Invalid JSON: " ++ e)
  | _ => True
  end.
Proof.
  intros H. destruct (read_json env file_path) as [|e| |recipe] eqn:Hread.
  - unfold validate_file in H. rewrite Hread in H. injection H as <- <-.
    simpl. split; [lia | reflexivity].
  - unfold validate_file in H. rewrite Hread in H. injection H as <- <-.
    simpl. split; [lia | reflexivity].
  - unfold validate_file in H. rewrite Hread in H. discriminate H.
  - pose proof (validate_file_decoded env file_path p recipe Hread) as Hd.
    destruct (validate_recipe (this p) recipe) as [[r' self']|e] eqn:Hv.
    + destruct Hd as (out & Hd & _). rewrite Hd in H.
      destruct (reportable r'); [|discriminate H]. injection H as <- <-.
      destruct (validate_recipe_inv _ _ _ _ Hv) as (v & d & w & i & _ & _ & _ & _ & _ & ->).
      simpl is_decoded. cbn [this]. split; [apply counted_validated | exact I].
    + rewrite Hd in H. discriminate H.
Qed.

Lemma files_loop (env : Env) (files : list (Path env)) :
  forall (acc results : list FileReport) (p p' : Process),
    io_fold
      (fun file_path results =>
         result <-- validate_file env file_path ;;
         ret (results
                ++ [{| report_file := path_name env file_path;
                       report_result := result |}])%list)
      files acc p = (Returns results, p') ->
    exists reports,
      results = (acc ++ reports)%list /\
      map report_file reports = map (path_name env) files /\
      validated (stats (this p'))
      = validated (stats (this p))
        + Z.of_nat (List.length
                      (filter (fun file_path => is_decoded (read_json env file_path))
                         files)) /\
      Forall2
        (fun file_path report =>
           match read_json env file_path with
           | Missing =>
               report_result report
               = unread ("File not found: " ++ path_str env file_path)
           | Malformed e => report_result report = unread ("Invalid JSON: " ++ e)
           | _ => True
           end) files reports.
Proof.
  induction files as [|f files IH]; intros acc results p p' H; simpl in H.
  - injection H as <- <-. exists []. rewrite app_nil_r. simpl.
    repeat split; [lia | constructor].
  - apply io_bind_inv in H. destruct H as (acc1 & p1 & H1 & H).
    apply io_bind_inv in H1. destruct H1 as (r & p2 & Hf & Hr).
    injection Hr as <- <-.
    destruct (IH _ _ _ _ H) as (reports & -> & Hnames & Hcount & Hall).
    destruct (validated_after_file _ _ _ _ _ Hf) as [Hv Hunread].
    exists ({| report_file := path_name env f; report_result := r |} :: reports).
    split; [now rewrite <- app_assoc|]. split; [simpl; now rewrite Hnames|]. split.
    + rewrite Hcount, Hv. simpl filter.
      destruct (is_decoded (read_json env f)); simpl List.length; lia.
    + constructor; [exact Hunread | exact Hall].
Qed.

Lemma print_summary_quiet (p p' : Process) (a : unit) :
  _print_summary p = (Returns a, p') -> this p' = this p.
Proof.
  unfold _print_summary. rewrite !run_print. cbn [this console].
  destruct (validated (stats (this p))) as [|n|n].
  2: destruct (rate (passed (stats (this p))) n) as [pr|e];
       [rewrite bind_lift_Ok | discriminate];
     destruct (rate (failed (stats (this p))) n) as [fr|e];
       [rewrite !bind_lift_Ok | discriminate].
  all: unfold io_bind, print, ret; cbn [this console]; intros H; now inversion H.
Qed.

(** X12. When [validate_directory] returns, its list has one entry per file
    matching [*.rcip] and then [*.json], under the name of the file; a file
    that is missing or does not hold JSON gets an invalid result with one
    error; and [validated] has grown by the number of files that could be
    decoded only: the files that could not be read are reported as invalid,
    but the statistics and the summary do not count them. *)
Theorem directory_accounting (env : Env) (directory : Path env) (p p' : Process)
    (results : list FileReport) :
  validate_directory env directory p = (Returns results, p') ->
  let files := (glob env directory "*.rcip" ++ glob env directory "*.json")%list in
  map report_file results = map (path_name env) files /\
  validated (stats (this p'))
  = validated (stats (this p))
    + Z.of_nat (List.length
                  (filter (fun file_path => is_decoded (read_json env file_path)) files)) /\
  Forall2
    (fun file_path report =>
       match read_json env file_path with
       | Missing =>
           report_result report = unread ("File not found: " ++ path_str env file_path)
       | Malformed e => report_result report = unread ("Invalid JSON: " ++ e)
       | _ => True
       end) files results.
Proof.
  intros H files. unfold validate_directory in H. rewrite run_print in H.
  apply io_bind_inv in H. destruct H as (results' & p1 & Hloop & H).
  apply io_bind_inv in H. destruct H as (u & p2 & Hsum & H).
  injection H as <- <-.
  apply files_loop in Hloop. destruct Hloop as (reports & -> & Hn & Hc & Ha).
  apply print_summary_quiet in Hsum. rewrite Hsum. cbn [this] in Hc. simpl app.
  auto.
Qed.

Lemma directory_accounting_witness :
  exists results p',
    validate_directory sample_env (".", "recipes") sample_process = (Returns results, p') /\
    map report_file results = ["toast.rcip"; "broken.json"; "gone.json"] /\
    validated (stats (this p')) = 1.
Proof.
  destruct (validate_directory sample_env (".", "recipes") sample_process)
    as [[results|e] p'] eqn:E; [|vm_compute in E; discriminate E].
  exists results, p'. split; [reflexivity|].
  destruct (directory_accounting _ _ _ _ _ E) as (Hn & Hv & _).
  split; [exact Hn | exact Hv].
Defined.

(** X13. For a file that holds a document on which [validate_recipe] returns
    a result whose summary can be printed, [validate_file] returns that very
    result, the validator is the one [validate_recipe] leaves, and [print]
    has been called at most 34 times, however many errors the result has.
    (The calls are counted, not the lines of the output: a message may hold
    line feeds.) *)
Theorem validate_file_returns (env : Env) (file_path : Path env) (p : Process)
    (recipe : json) (r : ValidationResult) (self' : RCIPValidator) :
  read_json env file_path = Decoded recipe ->
  validate_recipe (this p) recipe = Ok (r, self') ->
  reportable r = true ->
  exists out,
    validate_file env file_path p
    = (Returns r, {| this := self'; console := (console p ++ out)%list |})
    /\ (List.length out <= 34)%nat.
Proof.
  intros Hread Hv Hp.
  pose proof (validate_file_decoded env file_path p recipe Hread) as H.
  rewrite Hv, Hp in H. exact H.
Qed.

Lemma validate_file_returns_witness :
  exists r p',
    validate_file sample_env ("./recipes", "missing.rcip") sample_process = (Returns r, p')
    /\ valid r = false /\ failed (stats (this p')) = 1.
Proof.
  destruct (validate_recipe sample_validator recipe_missing_allergens)
    as [[r self']|e] eqn:E; [|vm_compute in E; discriminate E].
  assert (Hp : reportable r = true).
  { vm_compute in E. injection E as <- _. reflexivity. }
  destruct (validate_file_returns sample_env ("./recipes", "missing.rcip") sample_process
              recipe_missing_allergens r self' eq_refl E Hp) as (out & H & _).
  exists r, {| this := self'; console := (console sample_process ++ out)%list |}.
  split; [exact H|].
  vm_compute in E. injection E as <- <-. split; reflexivity.
Defined.

(** X14. A document whose [meta.diet_labels] is a list that holds a value
    that is not a string makes [validate_file] raise [TypeError] in the
    report, although [validate_recipe] returns a result for it; the document
    has been counted in the statistics by then. *)
Theorem diet_labels_break_report (env : Env) (file_path : Path env) (p : Process)
    (recipe meta : json) (labels : list json) (r : ValidationResult)
    (self' : RCIPValidator) :
  read_json env file_path = Decoded recipe ->
  validate_recipe (this p) recipe = Ok (r, self') ->
  py_get recipe "meta" (JDict []) = Ok meta ->
  py_getitem meta "diet_labels" = Ok (JList labels) ->
  forallb is_str labels = false ->
  exists out,
    validate_file env file_path p
    = (Raises (Engine TypeError), {| this := self'; console := (console p ++ out)%list |})
    /\ validated (stats self') = validated (stats (this p)) + 1.
Proof.
  intros Hread Hv Hmeta Hlabels Hstr.
  pose proof (validate_file_decoded env file_path p recipe Hread) as H.
  rewrite Hv in H. destruct H as (out & H & _).
  assert (Hp : reportable r = false).
  { pose proof (returned_info _ _ _ _ Hv) as Hi. apply get_recipe_info_inv in Hi.
    destruct Hi as (meta' & ingredients & allergens & name & version & rv & ic & sc & dp
                    & se & sa & dl & di & tt & Hmeta' & _ & _ & _ & _ & _
                    & _ & _ & _ & _ & _ & Hdl & _ & _ & Hinfo).
    assert (meta' = meta) by congruence. subst meta'.
    rewrite (getitem_get _ _ _ _ Hlabels) in Hdl. injection Hdl as <-.
    unfold reportable. rewrite Hinfo. cbn [truthy negb orb lookup String.eqb Ascii.eqb
                                            Bool.eqb].
    simpl lookup. unfold joinable at 2.
    assert (Ht : truthy (JList labels) = true).
    { destruct labels; [discriminate Hstr | reflexivity]. }
    rewrite Ht. unfold py_join. cbn [py_iter bind]. rewrite Hstr.
    cbn [negb orb]. apply andb_false_r. }
  rewrite Hp in H. exists out. split; [exact H|].
  destruct (validate_recipe_inv _ _ _ _ Hv) as (v & d & w & i & _ & _ & _ & _ & _ & ->).
  apply counted_validated.
Qed.

Lemma diet_labels_break_report_witness :
  exists p',
    validate_file sample_env ("./recipes", "labels.rcip") sample_process
    = (Raises (Engine TypeError), p')
    /\ validated (stats (this p')) = 1.
Proof.
  destruct (validate_recipe sample_validator recipe_numeric_label)
    as [[r self']|e] eqn:E; [|vm_compute in E; discriminate E].
  destruct (diet_labels_break_report sample_env ("./recipes", "labels.rcip")
              sample_process recipe_numeric_label
              (JDict [("name", JStr "Toast");
                      ("diet_labels", JList [JStr "vegan"; JInt 1])])
              [JStr "vegan"; JInt 1] r self' eq_refl E eq_refl eq_refl eq_refl)
    as (out & H & Hc).
  eexists. split; [exact H | exact Hc].
Defined.
(** ** The summary and the command line *)

Lemma div_eucl_shift (n : positive) (k : positive) :
  Z.div_eucl (Z.shiftl (Zpos n) (Zpos k)) (Zpos n) = (2 ^ Zpos k, 0).
Proof.
  rewrite Z.shiftl_mul_pow2 by lia.
  pose proof (Z.div_eucl_eq (Zpos n * 2 ^ Zpos k) (Zpos n)) as Heq.
  pose proof (Z.mod_pos_bound (Zpos n * 2 ^ Zpos k) (Zpos n)) as Hb.
  unfold Z.modulo in Hb.
  destruct (Z.div_eucl (Zpos n * 2 ^ Zpos k) (Zpos n)) as [q r].
  specialize (Heq ltac:(lia)). specialize (Hb ltac:(lia)).
  assert (Hq : q = 2 ^ Zpos k) by nia.
  subst q. f_equal. lia.
Qed.

(** The quotient of a positive number by itself is the float 1.0. *)
Lemma nearest_double_same (n : positive) :
  nearest_double n n = S754_finite false 4503599627370496 (-52).
Proof.
  unfold nearest_double, SFdiv, SFdiv_core_binary.
  rewrite !Z.add_0_r, !Z.sub_diag.
  change (fexp prec64 emax64 0) with (-53).
  change (Z.min (-53) 0) with (-53).
  change (0 - -53) with 53.
  cbv iota beta.
  change (IntDef.Z.div_eucl (IntDef.Z.shiftl (Zpos n) 53) (Zpos n))
    with (Z.div_eucl (Z.shiftl (Zpos n) 53) (Zpos n)).
  rewrite (div_eucl_shift n 53).
  unfold new_location. destruct (Z.even (Zpos n)); vm_compute; reflexivity.
Qed.

Lemma rate_all (n : positive) : rate (Zpos n) n = Ok "100".
Proof.
  unfold rate, int_truediv. rewrite nearest_double_same. reflexivity.
Qed.

Lemma rate_none (n : positive) : rate 0 n = Ok "0".
Proof. reflexivity. Qed.

(** X15. [_print_summary] prints no rates, and divides by nothing, when no
    document has been validated; when every validated document passed it
    prints a pass rate of 100% and a failure rate of 0%, and the reverse when
    every one failed. *)
Theorem summary_rates (p : Process) :
  let head := [Line (text_of (String newline (times "=" 60)));
               Line (chart_upwards :: text_of " VALIDATION SUMMARY");
               Line (text_of (times "=" 60));
               Line (text_of ("Total Validated: "
                                ++ str_int (validated (stats (this p)))))] in
  let foot := [Line (text_of (times "=" 60 ++ String newline ""))] in
  (validated (stats (this p)) <= 0 ->
   _print_summary p
   = (Returns tt, {| this := this p; console := (console p ++ head ++ foot)%list |})) /\
  (forall n,
     validated (stats (this p)) = Zpos n -> passed (stats (this p)) = Zpos n ->
     failed (stats (this p)) = 0 ->
     _print_summary p
     = (Returns tt,
        {| this := this p;
           console :=
             (console p ++ head
                ++ [Line (check_mark
                            :: text_of (" Passed: " ++ str_int (Zpos n) ++ " (100%)"));
                    Line (cross_mark :: text_of " Failed: 0 (0%)")]
                ++ foot)%list |})) /\
  (forall n,
     validated (stats (this p)) = Zpos n -> passed (stats (this p)) = 0 ->
     failed (stats (this p)) = Zpos n ->
     _print_summary p
     = (Returns tt,
        {| this := this p;
           console :=
             (console p ++ head
                ++ [Line (check_mark :: text_of " Passed: 0 (0%)");
                    Line (cross_mark
                            :: text_of (" Failed: " ++ str_int (Zpos n) ++ " (100%)"))]
                ++ foot)%list |})).
Proof.
  intros head foot. subst head foot. unfold _print_summary.
  rewrite !run_print. cbn [this console]. split; [|split].
  - intros Hv. destruct (validated (stats (this p))) as [|n|n]; [|lia|].
    all: rewrite bind_ret; unfold print; cbn [this console]; f_equal; f_equal;
      repeat rewrite <- app_assoc; reflexivity.
  - intros n Hv Hp Hf. rewrite Hv, Hp, Hf, rate_all, rate_none.
    rewrite !bind_lift_Ok. unfold io_bind, print. cbn [this console].
    f_equal. f_equal. repeat rewrite <- app_assoc. reflexivity.
  - intros n Hv Hp Hf. rewrite Hv, Hp, Hf, rate_all, rate_none.
    rewrite !bind_lift_Ok. unfold io_bind, print. cbn [this console].
    f_equal. f_equal. repeat rewrite <- app_assoc. reflexivity.
Qed.

Lemma summary_rates_witness :
  exists out,
    _print_summary {| this := counted sample_validator true; console := [] |}
    = (Returns tt, {| this := counted sample_validator true; console := out |})
    /\ In (Line (check_mark :: text_of " Passed: 1 (100%)")) out.
Proof.
  destruct (summary_rates {| this := counted sample_validator true; console := [] |})
    as (_ & Hall & _).
  specialize (Hall 1%positive eq_refl eq_refl eq_refl).
  eexists. split; [exact Hall|].
  cbn [console app]. do 4 right. now left.
Defined.

(** What [init] raises when the constructor of the checker raises [e]. *)
Lemma init_schema_run (env : Env) (args : Args env) :
  init_schema env (arg_schema args) {| this := __init__ (arg_version args); console := [] |}
  = match read_json env (schema_file env args) with
    | Decoded document =>
        match Draft7 env document with
        | Returns checker =>
            (Returns tt,
             {| this := init document (fun _ => checker) (__init__ (arg_version args));
                console := [initialized_line (arg_version args)] |})
        | Raises e =>
            (Raises (match e with
                     | FileNotFoundError _ =>
                         FileNotFoundError
                           ("Schema file not found: "
                              ++ path_str env (schema_file env args))
                     | _ => e
                     end),
             {| this := {| schema_version := arg_version args;
                           schema := Some document;
                           validator := None;
                           stats := new_stats |};
                console := [] |})
        end
    | Missing =>
        (Raises (FileNotFoundError
                   ("Schema file not found: " ++ path_str env (schema_file env args))),
         {| this := __init__ (arg_version args); console := [] |})
    | Malformed e =>
        (Raises (ValueError ("Invalid JSON in schema file: " ++ e)),
         {| this := __init__ (arg_version args); console := [] |})
    | Unreadable =>
        (Raises OtherError, {| this := __init__ (arg_version args); console := [] |})
    end.
Proof.
  unfold init_schema, schema_file. cbn [this console __init__ schema_version].
  destruct (arg_schema args); destruct (read_json env _); try reflexivity;
    (destruct (Draft7 env document) as [checker|[]]; reflexivity).
Qed.

(** X16. [main] ends with exit status 1, after a line that tells why, when
    the schema file is missing or is not JSON, when the schema library
    refuses the decoded schema (nothing has been printed before the error
    then), when the target is neither a directory nor a file, and when the
    validation of the target file raises an exception; no exception leaves
    [main]. *)
Theorem main_exit_status (env : Env) (args : Args env) :
  (read_json env (schema_file env args) = Missing ->
   main env args
   = (SystemExit 1,
      [ErrorLine (FileNotFoundError
                    ("Schema file not found: "
                       ++ path_str env (schema_file env args)))])) /\
  (forall e,
     read_json env (schema_file env args) = Malformed e ->
     main env args
     = (SystemExit 1, [ErrorLine (ValueError ("Invalid JSON in schema file: " ++ e))])) /\
  (forall document e,
     read_json env (schema_file env args) = Decoded document ->
     Draft7 env document = Raises e ->
     main env args
     = (SystemExit 1,
        [ErrorLine (match e with
                    | FileNotFoundError _ =>
                        FileNotFoundError
                          ("Schema file not found: "
                             ++ path_str env (schema_file env args))
                    | _ => e
                    end)])) /\
  (forall document checker,
     read_json env (schema_file env args) = Decoded document ->
     Draft7 env document = Returns checker ->
     is_dir env (arg_target args) = false ->
     is_file env (arg_target args) = false ->
     main env args
     = (SystemExit 1,
        [initialized_line (arg_version args);
         Line (text_of ("Error: " ++ path_str env (arg_target args)
                          ++ " is not a valid file or directory"))])) /\
  (forall document checker recipe e,
     read_json env (schema_file env args) = Decoded document ->
     Draft7 env document = Returns checker ->
     is_dir env (arg_target args) = false ->
     is_file env (arg_target args) = true ->
     read_json env (arg_target args) = Decoded recipe ->
     validate_recipe (init document (fun _ => checker) (__init__ (arg_version args)))
       recipe
     = Raise e ->
     main env args
     = (SystemExit 1,
        [initialized_line (arg_version args);
         validating_line (path_name env (arg_target args));
         ErrorLine (Engine e)])).
Proof.
  unfold main, main_body. repeat split.
  - intros Hs. unfold io_bind. rewrite init_schema_run, Hs. reflexivity.
  - intros e Hs. unfold io_bind. rewrite init_schema_run, Hs. reflexivity.
  - intros document e Hs Hc. unfold io_bind. rewrite init_schema_run, Hs, Hc.
    reflexivity.
  - intros document checker Hs Hc Hd Hf. unfold io_bind at 1.
    rewrite init_schema_run, Hs, Hc, Hd, Hf. reflexivity.
  - intros document checker recipe e Hs Hc Hd Hf Hr Hv.
    unfold io_bind at 1. rewrite init_schema_run, Hs, Hc, Hd, Hf.
    pose proof (validate_file_decoded env (arg_target args)
                  {| this := init document (fun _ => checker)
                               (__init__ (arg_version args));
                     console := [initialized_line (arg_version args)] |} recipe Hr) as H.
    cbn [this console] in H. rewrite Hv in H.
    unfold io_bind. rewrite H. reflexivity.
Qed.

Lemma main_exit_status_witness :
  main sample_env (sample_args "nothing.rcip")
  = (SystemExit 1,
     [initialized_line "0.1";
      Line (text_of "Error: ./recipes/nothing.rcip is not a valid file or directory")])
  /\ main array_env array_schema_args = (SystemExit 1, [ErrorLine (Engine AttributeError)]).
Proof.
  destruct (main_exit_status sample_env (sample_args "nothing.rcip"))
    as (_ & _ & _ & H & _).
  destruct (main_exit_status array_env array_schema_args) as (_ & _ & Ha & _).
  split.
  - exact (H (JDict []) accept_all eq_refl eq_refl eq_refl eq_refl).
  - exact (Ha (JList [recipe_two_ingredients]) (Engine AttributeError) eq_refl eq_refl).
Defined.

(** X17. The exit status of [main] does not tell whether the recipe is
    valid.  Once [init] has built the checker from the schema file: for a
    target file on which [validate_recipe] returns a result that can be
    printed, [main] returns normally after the report, whose status line is
    the only trace of an invalid recipe; and for a target file that is not
    JSON it returns normally without a word about the file. *)
Theorem main_ignores_validity (env : Env) (args : Args env) (document : json)
    (checker : Draft7Validator) :
  read_json env (schema_file env args) = Decoded document ->
  Draft7 env document = Returns checker ->
  is_dir env (arg_target args) = false ->
  is_file env (arg_target args) = true ->
  (forall recipe r self',
     read_json env (arg_target args) = Decoded recipe ->
     validate_recipe (init document (fun _ => checker) (__init__ (arg_version args)))
       recipe
     = Ok (r, self') ->
     reportable r = true ->
     fst (main env args) = Completed /\ In (status_line (valid r)) (snd (main env args))) /\
  (forall e,
     read_json env (arg_target args) = Malformed e ->
     main env args = (Completed, [initialized_line (arg_version args)])).
Proof.
  intros Hs Hc Hd Hf. split.
  - intros recipe r self' Hr Hv Hp.
    set (p := {| this := init document (fun _ => checker) (__init__ (arg_version args));
                 console := [initialized_line (arg_version args)] |}).
    destruct (returned_info_keys _ _ _ _ Hv) as (Hkeys & name & Hname).
    destruct (print_result_emits r name (or_intror Hkeys)) as (out & He & _ & Hout).
    destruct (Hout Hp) as (above & below & -> & _ & _).
    assert (H : validate_file env (arg_target args) p
                = (Returns r,
                   {| this := self';
                      console :=
                        (console p
                           ++ validating_line (path_name env (arg_target args))
                           :: Line (text_of (String newline (times "=" 60)))
                           :: Line (text_of ("Recipe: " ++ py_str name))
                           :: status_line (valid r)
                           :: above ++ error_lines (errors r) ++ below)%list |})).
    { unfold validate_file. rewrite Hr, run_print.
      unfold io_bind at 1. unfold call_validate_recipe. cbn [this console p].
      rewrite Hv, Hname, bind_lift_Ok, (run_emits _ _ _ _ _ He), Hp.
      cbn [this console]. unfold ret. now rewrite <- app_assoc. }
    assert (Hmain : main env args
                    = (Completed,
                       initialized_line (arg_version args)
                         :: validating_line (path_name env (arg_target args))
                         :: Line (text_of (String newline (times "=" 60)))
                         :: Line (text_of ("Recipe: " ++ py_str name))
                         :: status_line (valid r)
                         :: above ++ error_lines (errors r) ++ below)%list).
    { unfold main, main_body. unfold io_bind at 1.
      rewrite init_schema_run, Hs, Hc, Hd, Hf. fold p.
      unfold io_bind. rewrite H. reflexivity. }
    rewrite Hmain. split; [reflexivity|]. cbn [snd In]. do 4 right. now left.
  - intros e Hr. unfold main, main_body. unfold io_bind at 1.
    rewrite init_schema_run, Hs, Hc, Hd, Hf.
    unfold io_bind, validate_file. rewrite Hr. reflexivity.
Qed.

Lemma main_ignores_validity_witness :
  fst (main sample_env (sample_args "missing.rcip")) = Completed /\
  In (status_line false) (snd (main sample_env (sample_args "missing.rcip"))).
Proof.
  destruct (validate_recipe sample_validator recipe_missing_allergens)
    as [[r self']|e] eqn:E; [|vm_compute in E; discriminate E].
  assert (Hr : reportable r = true /\ valid r = false).
  { vm_compute in E. injection E as <- _. split; reflexivity. }
  destruct Hr as [Hp Hv].
  destruct (main_ignores_validity sample_env (sample_args "missing.rcip") (JDict [])
              accept_all eq_refl eq_refl eq_refl eq_refl) as [H _].
  specialize (H recipe_missing_allergens r self' eq_refl E Hp).
  now rewrite Hv in H.
Defined.
(** ** A document that stops a directory *)

Lemma non_object_raises (self : RCIPValidator) (recipe : json) :
  is_dict recipe = false -> exists e, validate_recipe self recipe = Raise e.
Proof.
  intros Hd. unfold validate_recipe. destruct (validator self) as [v|]; [|eauto].
  unfold _validate_custom_rules.
  destruct recipe; try discriminate Hd; cbn [py_contains bind]; eauto.
  - destruct (contains "id" s); cbn [bind py_getitem items_of py_get]; eauto.
  - destruct (existsb (eq_str "id") l); cbn [bind py_getitem items_of py_get]; eauto.
Qed.

Lemma files_loop_stops (env : Env) (files : list (Path env)) (file_path : Path env) :
  In file_path files ->
  read_json env file_path = Unreadable
  \/ (exists recipe, read_json env file_path = Decoded recipe /\ is_dict recipe = false) ->
  forall (acc : list FileReport) (p : Process),
  exists e p',
    io_fold
      (fun file_path results =>
         result <-- validate_file env file_path ;;
         ret (results
                ++ [{| report_file := path_name env file_path;
                       report_result := result |}])%list)
      files acc p = (Raises e, p').
Proof.
  intros Hin Hbad. induction files as [|f files IH]; [destruct Hin|].
  intros acc p. cbn [io_fold]. unfold io_bind at 1.
  destruct ((result <-- validate_file env f ;;
             ret (acc ++ [{| report_file := path_name env f;
                             report_result := result |}])%list) p)
    as [[acc'|e] p1] eqn:E; [|eauto].
  destruct Hin as [->|Hin]; [|now apply IH].
  exfalso. apply io_bind_inv in E. destruct E as (r & p2 & Hf & _).
  destruct Hbad as [Hread|(recipe & Hread & Hd)].
  - unfold validate_file in Hf. rewrite Hread in Hf. discriminate Hf.
  - pose proof (validate_file_decoded env file_path p recipe Hread) as H.
    destruct (non_object_raises (this p) recipe Hd) as [e He].
    rewrite He in H. congruence.
Qed.

(** X19. One file that cannot be read, or that holds a JSON document that
    is not an object, stops [validate_directory]: the exception leaves it and
    no list of results is returned, whatever the other files hold. *)
Theorem directory_stops (env : Env) (directory file_path : Path env) (p : Process) :
  In file_path (glob env directory "*.rcip" ++ glob env directory "*.json") ->
  read_json env file_path = Unreadable
  \/ (exists recipe, read_json env file_path = Decoded recipe /\ is_dict recipe = false) ->
  exists e p', validate_directory env directory p = (Raises e, p').
Proof.
  intros Hin Hbad. unfold validate_directory. rewrite run_print.
  destruct (files_loop_stops env _ file_path Hin Hbad []
              {| this := this p;
                 console :=
                   (console p
                      ++ [Line (line_feed :: magnifying_glass
                                  :: text_of (" Found "
                                                ++ str_nat
                                                     (List.length
                                                        (glob env directory "*.rcip"
                                                           ++ glob env directory "*.json"))
                                                ++ " recipe files to validate"
                                                ++ String newline ""))])%list |})
    as (e & p' & H).
  exists e, p'. unfold io_bind at 1. now rewrite H.
Qed.

Lemma directory_stops_witness :
  exists e p', validate_directory array_env (".", "recipes") sample_process = (Raises e, p').
Proof.
  apply (directory_stops array_env (".", "recipes") ("./recipes", "array.json")).
  - right. now left.
  - right. exists (JList [recipe_two_ingredients]). split; reflexivity.
Defined.
(** ** Files that hold a document of the expected types *)

Lemma all_strings_forallb (l : list json) : all_strings l -> forallb is_str l = true.
Proof.
  unfold all_strings. intros H. apply forallb_forall. now apply Forall_forall.
Qed.

Lemma joinable_strings (v : json) : holds_strings v = true -> joinable v = true.
Proof.
  intros H. unfold joinable, py_join.
  destruct (iter_strings _ H) as (l & Hl & Hs). rewrite Hl. cbn [bind].
  rewrite (all_strings_forallb _ Hs). apply orb_true_r.
Qed.

Lemma typed_reportable (self self' : RCIPValidator) (recipe : json)
    (r : ValidationResult) :
  validate_recipe self recipe = Ok (r, self') ->
  typed_recipe recipe = true ->
  labels_can_be_joined recipe = true ->
  reportable r = true.
Proof.
  intros H Ht Hl. apply returned_info in H. apply get_recipe_info_inv in H.
  destruct H as (meta & ingredients & allergens & name & version & rv & ic & sc & dp
                 & se & sa & dl & di & tt & Hmeta & Hi & Hc & _ & _ & _
                 & _ & _ & _ & _ & Hs & Hdl & _ & _ & Hinfo).
  destruct recipe as [| | | | | |d]; try discriminate Ht.
  destruct (typed_parts d Ht) as (_ & (l & Hl' & Hl'') & _).
  assert (l = ingredients) by congruence. subst l.
  destruct (collect_allergens_total _ Hl'') as (s & Hs' & Hall).
  assert (s = allergens) by congruence. subst s.
  destruct (sorted_strings _ Hall) as (sa' & Hsa & Hsorted).
  assert (sa' = sa) by congruence. subst sa'.
  unfold reportable. rewrite Hinfo. simpl lookup. cbn [truthy negb orb].
  assert (Ja : joinable (JList sa) = true).
  { apply joinable_strings. simpl. now apply all_strings_forallb. }
  rewrite Ja. cbn [andb].
  cbn [py_get] in Hmeta. cbn [labels_can_be_joined] in Hl.
  destruct (lookup "meta" d) as [m|]; injection Hmeta as <-.
  - destruct m as [| | | | | |m]; try discriminate Hdl.
    cbn [py_get] in Hdl. injection Hdl as <-. unfold absent_or in Hl.
    destruct (lookup "diet_labels" m) as [labels|].
    + now apply joinable_strings.
    + reflexivity.
  - cbn [py_get lookup] in Hdl. injection Hdl as <-. reflexivity.
Qed.

(** X21. For a file that holds a document of the expected types whose diet
    labels, if any, are strings, [validate_file] returns the result of
    [validate_recipe]: with an initialised validator it raises nothing, and
    the document is counted. *)
Theorem validate_file_total (env : Env) (file_path : Path env) (p : Process)
    (v : Draft7Validator) (recipe : json) :
  validator (this p) = Some v ->
  read_json env file_path = Decoded recipe ->
  typed_recipe recipe = true ->
  labels_can_be_joined recipe = true ->
  exists r p',
    validate_file env file_path p = (Returns r, p') /\
    validate_recipe (this p) recipe = Ok (r, this p') /\
    validated (stats (this p')) = validated (stats (this p)) + 1.
Proof.
  intros Hv Hread Ht Hl.
  destruct (validate_recipe_returns _ _ _ Hv Ht) as (r & self' & Hr).
  pose proof (typed_reportable _ _ _ _ Hr Ht Hl) as Hp.
  pose proof (validate_file_decoded env file_path p recipe Hread) as H.
  rewrite Hr, Hp in H. destruct H as (out & H & _).
  exists r, {| this := self'; console := (console p ++ out)%list |}.
  split; [exact H|]. cbn [this]. split; [exact Hr|].
  destruct (validate_recipe_inv _ _ _ _ Hr) as (v' & d & w & i & _ & _ & _ & _ & _ & ->).
  apply counted_validated.
Qed.

Lemma validate_file_total_witness :
  exists r p',
    validate_file sample_env ("./recipes", "toast.rcip") sample_process = (Returns r, p')
    /\ validated (stats (this p')) = 1.
Proof.
  destruct (validate_file_total sample_env ("./recipes", "toast.rcip") sample_process
              accept_all recipe_two_ingredients eq_refl eq_refl eq_refl eq_refl)
    as (r & p' & H & _ & Hc).
  exists r, p'. split; [exact H | exact Hc].
Defined.
